(** * FTX order-book feed: data source and order-book tracker

    A shallow embedding of
    [hummingbot/market/ftx/ftx_api_order_book_data_source.py] and
    [hummingbot/market/ftx/ftx_order_book_tracker.py].

    Python objects are modelled by records, dictionaries by [gmap], deques
    and queues by lists (front of the deque is the head of the list),
    exceptions by the [result] monad.  Coroutines are modelled by explicit
    state passing: what the other tasks do while a coroutine is suspended is
    an argument of the function. *)

From Stdlib Require Import ZArith List String Ascii Bool Lia.
From stdpp Require Import base option list gmap strings fin_maps.

Local Open Scope Z_scope.

(** ** Exceptions *)

(** The exception classes the code can meet.  [CancelledError] stands apart:
    it is the one class that an [except Exception] clause lets through, as
    asyncio has it since Python 3.8. *)
Inductive exn : Set :=
| KeyError
| IndexError
| TypeError
| AttributeError
| ValueError
| SyntaxError
| BinasciiError
| ZlibError
| UnicodeDecodeError
| IOError
| TimeoutError
| CancelledError.

Definition is_Exception (e : exn) : bool :=
  match e with
  | CancelledError => false
  | _ => true
  end.

Definition is_SyntaxError (e : exn) : bool :=
  match e with
  | SyntaxError => true
  | _ => false
  end.

Inductive result (A : Type) : Type :=
| Ok (a : A)
| Raise (e : exn).
Arguments Ok {A} a.
Arguments Raise {A} e.

#[global] Instance result_ret : MRet result := fun A a => Ok a.
#[global] Instance result_bind : MBind result :=
  fun A B f m => match m with
                 | Ok a => f a
                 | Raise e => Raise e
                 end.

(** ** Python strings *)

(** [s.split(sep)] for a one-character separator. *)
Fixpoint split_on (sep : ascii) (s : string) : list string :=
  match s with
  | EmptyString => [EmptyString]
  | String c s' =>
      if Ascii.eqb c sep then EmptyString :: split_on sep s'
      else match split_on sep s' with
           | w :: ws => String c w :: ws
           | [] => [String c EmptyString]
           end
  end.

(** [s.split(sep)[i]]: an index past the end raises [IndexError]. *)
Definition split_index (sep : ascii) (s : string) (i : nat) : result string :=
  match nth_error (split_on sep s) i with
  | Some w => Ok w
  | None => Raise IndexError
  end.

(** [f"{s.split(sep)[1]}-{s.split(sep)[0]}"]: the second component is
    evaluated first, as in the source. *)
Definition swap_components (sep : ascii) (s : string) : result string :=
  second ← split_index sep s 1;
  first ← split_index sep s 0;
  mret (second +:+ "-" +:+ first).

Definition no_char (c : ascii) (s : string) : Prop :=
  Forall (fun x => x <> c) (list_ascii_of_string s).

(** ** Order-book messages *)

Inductive OrderBookMessageType : Set := SNAPSHOT | DIFF | TRADE.

(** A price level.  Prices and sizes are decimal quantities; they are
    counted here in the smallest unit of the instrument. *)
Record OrderBookRow : Set := { price : Z; amount : N }.

(** [OrderBookMessage]: [timestamp] is the exchange nonce the message was
    built with ([snapshot_message_from_exchange(results, nonce)]). *)
Record OrderBookMessage : Set := {
  type : OrderBookMessageType;
  timestamp : Z;
  bids : list OrderBookRow;
  asks : list OrderBookRow
}.

(** ** The world outside the data source *)

Definition Connection := nat.
Definition Hub := nat.

Inductive event : Type :=
| LogInfo (text : string)
| LogDebug (text : string)
| LogProcessedDiffs (diff_messages_accepted : nat)
| LogError (text : string)
| LogNetwork (text : string) (app_warning_msg : string)
| NewConnection (c : Connection) (url : string)
| Invoke (h : Hub) (method : string) (arg : string)
| StartConnection (c : Connection)
| Sleep (seconds : Z)
| CancelTask (task : nat).

(** ** FtxAPIOrderBookDataSource *)

Definition FTX_WS_FEED : string := "wss://ftx.com/ws/".
Definition SNAPSHOT_TIMEOUT : nat := 10.

(** A value of [self._snapshot_msg]: [{"timestamp": ..., "content": ...}]. *)
Record Slot : Set := { slot_timestamp : Z; slot_content : OrderBookMessage }.

Record FtxAPIOrderBookDataSource : Type := {
  _trading_pairs : option (list string);
  _websocket_connection : option Connection;
  _websocket_hub : option Hub;
  _snapshot_msg : gmap string Slot;
  (* the process around the object: handles handed out, and what was logged
     or sent, oldest first *)
  next_handle : nat;
  trace : list event
}.

(** [__init__]. *)
Definition init_data_source (trading_pairs : option (list string))
  : FtxAPIOrderBookDataSource :=
  {| _trading_pairs := trading_pairs;
     _websocket_connection := None;
     _websocket_hub := None;
     _snapshot_msg := ∅;
     next_handle := 0%nat;
     trace := [] |}.

Definition emit (e : event) (self : FtxAPIOrderBookDataSource)
  : FtxAPIOrderBookDataSource :=
  {| _trading_pairs := _trading_pairs self;
     _websocket_connection := _websocket_connection self;
     _websocket_hub := _websocket_hub self;
     _snapshot_msg := _snapshot_msg self;
     next_handle := next_handle self;
     trace := trace self ++ [e] |}.

Definition set_trading_pairs (l : list string) (self : FtxAPIOrderBookDataSource)
  : FtxAPIOrderBookDataSource :=
  {| _trading_pairs := Some l;
     _websocket_connection := _websocket_connection self;
     _websocket_hub := _websocket_hub self;
     _snapshot_msg := _snapshot_msg self;
     next_handle := next_handle self;
     trace := trace self |}.

Definition set_snapshot_msg (m : gmap string Slot) (self : FtxAPIOrderBookDataSource)
  : FtxAPIOrderBookDataSource :=
  {| _trading_pairs := _trading_pairs self;
     _websocket_connection := _websocket_connection self;
     _websocket_hub := _websocket_hub self;
     _snapshot_msg := m;
     next_handle := next_handle self;
     trace := trace self |}.

(** [self._websocket_connection = signalr_aio.Connection(FTX_WS_FEED, ...)]:
    a connection object that did not exist before. *)
Definition new_connection (self : FtxAPIOrderBookDataSource)
  : FtxAPIOrderBookDataSource :=
  {| _trading_pairs := _trading_pairs self;
     _websocket_connection := Some (next_handle self);
     _websocket_hub := _websocket_hub self;
     _snapshot_msg := _snapshot_msg self;
     next_handle := S (next_handle self);
     trace := trace self ++ [NewConnection (next_handle self) FTX_WS_FEED] |}.

(** Truth value of an [Optional[List[str]]]: [None] and [[]] are false. *)
Definition truthy_pairs (o : option (list string)) : bool :=
  match o with
  | Some (_ :: _) => true
  | _ => false
  end.

(** Truth value of an optional object: a connection or hub object is true,
    [None] is false. *)
Definition truthy_object {A : Type} (o : option A) : bool :=
  match o with
  | Some _ => true
  | None => false
  end.

(** [get_trading_pairs].  [fetch] is what
    [(await self.get_active_exchange_markets()).index.tolist()] does when it
    is run: the catalog, or the exception it raises. *)
Definition get_trading_pairs (fetch : result (list string))
    (self : FtxAPIOrderBookDataSource)
  : FtxAPIOrderBookDataSource * result (list string) :=
  if truthy_pairs (_trading_pairs self) then
    (self, Ok (default [] (_trading_pairs self)))
  else
    match fetch with
    | Ok active_markets =>
        (set_trading_pairs active_markets self, Ok active_markets)
    | Raise e =>
        if is_Exception e then
          (emit (LogNetwork "Error getting active exchange information."
                   "Error getting active exchange information. Check network connection.")
             (set_trading_pairs [] self),
           Ok [])
        else (self, Raise e)
    end.

(** [hub.server.invoke(method, arg)]; on [None] the attribute lookup fails. *)
Definition hub_invoke (method arg : string) (self : FtxAPIOrderBookDataSource)
  : FtxAPIOrderBookDataSource * result unit :=
  match _websocket_hub self with
  | Some h => (emit (Invoke h method arg) self, Ok tt)
  | None => (self, Raise AttributeError)
  end.

(** The subscription loop of [websocket_connection]. *)
Fixpoint subscribe_all (trading_pairs : list string)
    (self : FtxAPIOrderBookDataSource)
  : FtxAPIOrderBookDataSource * result unit :=
  match trading_pairs with
  | [] => (self, Ok tt)
  | trading_pair :: rest =>
      match swap_components "/" trading_pair with
      | Raise e => (self, Raise e)
      | Ok wire_pair =>
          let self := emit (LogInfo ("Subscribed to " +:+ wire_pair +:+ " deltas")) self in
          match hub_invoke "SubscribeToExchangeDeltas" wire_pair self with
          | (self, Raise e) => (self, Raise e)
          | (self, Ok _) =>
              let self := emit (LogInfo ("Query " +:+ wire_pair +:+ " snapshot.")) self in
              match hub_invoke "queryExchangeState" wire_pair self with
              | (self, Raise e) => (self, Raise e)
              | (self, Ok _) => subscribe_all rest self
              end
          end
      end
  end.

(** [websocket_connection].  [start] is what the call
    [self._websocket_connection.start()] of the signalr_aio library raises, if
    anything; [StartConnection] records the call. *)
Definition websocket_connection (fetch : result (list string)) (start : option exn)
    (self : FtxAPIOrderBookDataSource)
  : FtxAPIOrderBookDataSource * result (option Connection * option Hub) :=
  if truthy_object (_websocket_connection self) && truthy_object (_websocket_hub self) then
    (self, Ok (_websocket_connection self, _websocket_hub self))
  else
    let self := new_connection self in
    match get_trading_pairs fetch self with
    | (self, Raise e) => (self, Raise e)
    | (self, Ok trading_pairs) =>
        match subscribe_all trading_pairs self with
        | (self, Raise e) => (self, Raise e)
        | (self, Ok _) =>
            let self :=
              match _websocket_connection self with
              | Some c => emit (StartConnection c) self
              | None => self
              end in
            match start with
            | Some e => (self, Raise e)
            | None => (self, Ok (_websocket_connection self, _websocket_hub self))
            end
        end
    end.

(** What a method leaves alone: the connection, the hub and the handle
    counter; and the trace only grows. *)
Definition same_session (self self' : FtxAPIOrderBookDataSource) : Prop :=
  _websocket_connection self' = _websocket_connection self
  /\ _websocket_hub self' = _websocket_hub self
  /\ next_handle self' = next_handle self
  /\ exists more, trace self' = trace self ++ more.

(** *** wait_for_snapshot *)

(** [self._snapshot_msg[trading_pair] = {...}], the one write to the pending
    map, done by [listen_for_order_book_stream] for each snapshot frame. *)
Definition store_snapshots (arrivals : list (string * Slot))
    (self : FtxAPIOrderBookDataSource) : FtxAPIOrderBookDataSource :=
  set_snapshot_msg
    (foldl (fun m w => <[w.1 := w.2]> m) (_snapshot_msg self) arrivals) self.

(** [self._snapshot_msg.pop(trading_pair, None)]. *)
Definition pop_slot (trading_pair : string) (self : FtxAPIOrderBookDataSource)
  : option Slot * FtxAPIOrderBookDataSource :=
  (_snapshot_msg self !! trading_pair,
   set_snapshot_msg (delete trading_pair (_snapshot_msg self)) self).


(** The loop under [async with timeout(SNAPSHOT_TIMEOUT)].  Each turn polls
    and then sleeps one second, so [seconds_left] counts the turns that fit
    before the deadline; when none is left the pending sleep is cancelled
    with [TimeoutError].  [arrivals] lists, sleep by sleep, the slots the
    stream listener stores while this coroutine sleeps. *)
Fixpoint wait_loop (seconds_left : nat) (arrivals : list (list (string * Slot)))
    (trading_pair : string) (invoke_timestamp : Z)
    (self : FtxAPIOrderBookDataSource)
  : FtxAPIOrderBookDataSource * result OrderBookMessage :=
  match seconds_left with
  | O => (self, Raise TimeoutError)
  | S n =>
      let (msg, self) := pop_slot trading_pair self in
      let next_turn :=
        wait_loop n (tl arrivals) trading_pair invoke_timestamp
          (store_snapshots (hd [] arrivals) self) in
      match msg with
      | Some s =>
          if invoke_timestamp <=? slot_timestamp s then (self, Ok (slot_content s))
          else next_turn
      | None => next_turn
      end
  end.

Definition wait_for_snapshot (arrivals : list (list (string * Slot)))
    (trading_pair : string) (invoke_timestamp : Z)
    (self : FtxAPIOrderBookDataSource)
  : FtxAPIOrderBookDataSource * result OrderBookMessage :=
  wait_loop SNAPSHOT_TIMEOUT arrivals trading_pair invoke_timestamp self.



(** *** _transform_raw_message *)

(** The values [ujson.loads] builds.  A dictionary keeps its items in a list
    with one item per key. *)
#[warnings="-register-all"]
Inductive json : Type :=
| JNull
| JBool (b : bool)
| JNum (z : Z)
| JStr (s : string)
| JList (l : list json)
| JDict (d : list (string * json)).

Fixpoint dict_lookup (k : string) (d : list (string * json)) : option json :=
  match d with
  | [] => None
  | (k', v) :: d' => if String.eqb k k' then Some v else dict_lookup k d'
  end.

(** [d.update({k: v})]. *)
Fixpoint dict_update (k : string) (v : json) (d : list (string * json))
  : list (string * json) :=
  match d with
  | [] => [(k, v)]
  | (k', v') :: d' =>
      if String.eqb k k' then (k, v) :: d' else (k', v') :: dict_update k v d'
  end.

(** [o.get(k, dflt)]. *)
Definition py_get (o : json) (k : string) (dflt : json) : result json :=
  match o with
  | JDict d => Ok (default dflt (dict_lookup k d))
  | _ => Raise AttributeError
  end.

(** [o[k]] for a string [k]. *)
Definition py_getitem (o : json) (k : string) : result json :=
  match o with
  | JDict d =>
      match dict_lookup k d with
      | Some v => Ok v
      | None => Raise KeyError
      end
  | _ => Raise TypeError
  end.

(** [o[0]]. *)
Definition py_getitem0 (o : json) : result json :=
  match o with
  | JList (x :: _) => Ok x
  | JList [] => Raise IndexError
  | JStr (String c _) => Ok (JStr (String c EmptyString))
  | JStr EmptyString => Raise IndexError
  | JDict _ => Raise KeyError
  | _ => Raise TypeError
  end.

(** [len(o)]. *)
Definition py_len (o : json) : result nat :=
  match o with
  | JList l => Ok (length l)
  | JStr s => Ok (String.length s)
  | JDict d => Ok (length d)
  | _ => Raise TypeError
  end.

Definition is_bool (o : json) : bool :=
  match o with
  | JBool _ => true
  | _ => false
  end.

Definition is_dict (o : json) : bool :=
  match o with
  | JDict _ => true
  | _ => false
  end.

(** [o == "uE"]. *)
Definition is_uE (o : json) : bool :=
  match o with
  | JStr s => String.eqb s "uE"
  | _ => false
  end.

(** [f"{v.split('-')[1]}-{v.split('-')[0]}"]. *)
Definition py_swap (v : json) : result string :=
  match v with
  | JStr s => swap_components "-" s
  | _ => Raise AttributeError
  end.

Definition MAX_WBITS : Z := 15.

(** The characters [b64decode(..., validate=True)] accepts. *)
Definition is_b64_char (c : ascii) : bool :=
  let n := nat_of_ascii c in
  ((65 <=? n) && (n <=? 90) || (97 <=? n) && (n <=? 122)
   || (48 <=? n) && (n <=? 57) || (n =? 43) || (n =? 47) || (n =? 61))%nat.

Definition is_7bit (c : ascii) : bool := (nat_of_ascii c <? 128)%nat.

(** The decoded output record [{"nonce": ..., "type": ..., "results": ...}]. *)
Record Output : Type := { nonce : json; msg_type : json; results : json }.

(** [msg["M"][0]["A"][0]] *)
Definition delta_payload (msg : json) : result json :=
  m ← py_getitem msg "M";
  m0 ← py_getitem0 m;
  a ← py_getitem m0 "A";
  py_getitem0 a.

Section Decoder.

(** The library functions the decoder calls. *)
Variable a2b_base64 : string -> result (list Byte.byte).
Variable decompress : list Byte.byte -> Z -> result (list Byte.byte).
Variable bytes_decode : list Byte.byte -> result string.
Variable ujson_loads : string -> result json.

(** [b64decode(raw, validate=True)]: a string outside ASCII is a
    [ValueError], a character outside the alphabet a [binascii.Error], and
    the rest is up to the conversion itself. *)
Definition b64decode (raw : json) : result (list Byte.byte) :=
  match raw with
  | JStr s =>
      if negb (forallb is_7bit (list_ascii_of_string s)) then Raise ValueError
      else if negb (forallb is_b64_char (list_ascii_of_string s)) then Raise BinasciiError
      else a2b_base64 s
  | _ => Raise TypeError
  end.

(** [_decode_message]: only a [SyntaxError] of the first attempt leads to the
    second one, whose own exceptions are not handled; any other exception of
    the first attempt gives [{}]; the final [ujson.loads] is outside the
    [try]. *)
Definition _decode_message (raw_message : json) : result json :=
  match (b ← b64decode raw_message; decompress b (- MAX_WBITS)) with
  | Ok decoded_msg => s ← bytes_decode decoded_msg; ujson_loads s
  | Raise e =>
      if is_SyntaxError e then
        decoded_msg ← (b ← b64decode raw_message; decompress b MAX_WBITS);
        s ← bytes_decode decoded_msg; ujson_loads s
      else if is_Exception e then Ok (JDict [])
      else Raise e
  end.

Definition _is_snapshot (msg : json) : result bool :=
  r ← py_get msg "R" (JBool false);
  mret (negb (is_bool r)).

Definition _is_market_delta (msg : json) : result bool :=
  m ← py_get msg "M" (JList []);
  n ← py_len m;
  if (n =? 0)%nat then mret false
  else
    m ← py_getitem msg "M";
    m0 ← py_getitem0 m;
    if negb (is_dict m0) then mret false
    else
      marker ← py_get m0 "M" JNull;
      mret (is_uE marker).

(** [output["results"].update({"M": f"..."})]: the method is looked up
    before its argument is evaluated. *)
Definition normalize_pair (res : json) : result json :=
  match res with
  | JDict d =>
      m ← py_getitem res "M";
      swapped ← py_swap m;
      mret (JDict (dict_update "M" (JStr swapped) d))
  | _ => Raise AttributeError
  end.

(** The body shared by the two branches, [kind] being ["snapshot"] or
    ["update"] and [payload] the encoded field of the frame. *)
Definition decode_branch (kind : string) (payload : json) : result Output :=
  res ← _decode_message payload;
  res ← normalize_pair res;
  n ← py_getitem res "N";
  mret {| nonce := n; msg_type := JStr kind; results := res |}.

(** [_transform_raw_message] after its [msg = ujson.loads(msg)]. *)
Definition transform_loaded (msg : json) : result Output :=
  snapshot ← _is_snapshot msg;
  if snapshot : bool then
    r ← py_getitem msg "R";
    decode_branch "snapshot" r
  else
    delta ← _is_market_delta msg;
    if delta : bool then
      a0 ← delta_payload msg;
      decode_branch "update" a0
    else
      mret {| nonce := JNull; msg_type := JNull; results := JDict [] |}.

Definition _transform_raw_message (msg : string) : result Output :=
  loaded ← ujson_loads msg;
  transform_loaded loaded.

End Decoder.

(** The frame of a snapshot or of a market delta, with its encoded field. *)
Definition carries (msg : json) (kind : string) (payload : json) : Prop :=
  (_is_snapshot msg = Ok true
   /\ py_getitem msg "R" = Ok payload /\ kind = "snapshot"%string)
  \/ (_is_snapshot msg = Ok false /\ _is_market_delta msg = Ok true
      /\ delta_payload msg = Ok payload /\ kind = "update"%string).

(** ** FtxOrderBookTracker *)

(** [deque(maxlen=n).append(x)]: a full deque drops its oldest item. *)
Definition deque_append {A : Type} (maxlen : nat) (d : list A) (x : A) : list A :=
  if (length d <? maxlen)%nat then d ++ [x] else tl (d ++ [x]).

(** [defaultdict(lambda: deque(maxlen=1000))]. *)
Definition SAVED_MESSAGE_MAXLEN : nat := 1000.

(** [while len(w) > size: w.popleft()]. *)
Fixpoint popleft_while_over {A : Type} (size : nat) (w : list A) : list A :=
  match w with
  | [] => []
  | _ :: w' => if (size <? length w)%nat then popleft_while_over size w' else w
  end.

(** The order book the tracker drives through [apply_diffs] and
    [apply_snapshot] ([hummingbot.core.data_type.order_book]): each call
    gives the book as it leaves it and the exception it raised, if any. *)
Class OrderBookOps (OB : Type) : Type := {
  apply_diffs : OB -> list OrderBookRow -> list OrderBookRow -> Z -> OB * option exn;
  apply_snapshot : OB -> list OrderBookRow -> list OrderBookRow -> Z -> OB * option exn
}.

(** Modelled from the spec: [FtxActiveOrderTracker]'s
    [convert_diff_message_to_order_book_row] and
    [convert_snapshot_message_to_order_book_row], whose module is not part of
    the sources at hand: the rows of the message, bids and asks. *)
Definition convert_diff_message_to_order_book_row (message : OrderBookMessage)
  : list OrderBookRow * list OrderBookRow := (bids message, asks message).

Definition convert_snapshot_message_to_order_book_row (message : OrderBookMessage)
  : list OrderBookRow * list OrderBookRow := (bids message, asks message).

(** Modelled from the spec: the [OrderBook] class, whose module is not part
    of the sources at hand: two mappings price to size and the last-applied
    sequence token; a row of size 0 removes its price level, any other row
    sets it; a snapshot replaces the rows wholesale. *)
Record SpecOrderBook : Type := {
  bid_book : gmap Z N;
  ask_book : gmap Z N;
  last_applied : Z
}.

Definition apply_row (book : gmap Z N) (row : OrderBookRow) : gmap Z N :=
  if (amount row =? 0)%N then delete (price row) book
  else <[price row := amount row]> book.

Definition empty_book : SpecOrderBook :=
  {| bid_book := ∅; ask_book := ∅; last_applied := 0 |}.

#[global] Instance spec_order_book_ops : OrderBookOps SpecOrderBook := {|
  apply_diffs book bids asks update_id :=
    ({| bid_book := foldl apply_row (bid_book book) bids;
        ask_book := foldl apply_row (ask_book book) asks;
        last_applied := update_id |}, None);
  apply_snapshot book bids asks update_id :=
    ({| bid_book := foldl apply_row ∅ bids;
        ask_book := foldl apply_row ∅ asks;
        last_applied := update_id |}, None)
|}.

Section Tracker.

(** [OrderBookTracker.PAST_DIFF_WINDOW_SIZE], a constant of the base class. *)
Variable PAST_DIFF_WINDOW_SIZE : nat.

Context {OrderBook : Type} `{!OrderBookOps OrderBook}.

(** *** _track_single_book *)

(** What one running [_track_single_book] works on: the deque
    [self._saved_message_queues[trading_pair]], the queue
    [self._tracking_message_queues[trading_pair]], the book
    [self._order_books[trading_pair]], and its local variables. *)
Record TrackState : Type := {
  saved_messages : list OrderBookMessage;
  message_queue : list OrderBookMessage;
  order_book : OrderBook;
  past_diffs_window : list OrderBookMessage;
  last_message_timestamp : Z;
  diff_messages_accepted : nat;
  track_log : list event
}.

(** The state in which the loop is entered: the window is a new deque. *)
Definition start_tracking (saved queue : list OrderBookMessage)
    (book : OrderBook) (now : Z) : TrackState :=
  {| saved_messages := saved;
     message_queue := queue;
     order_book := book;
     past_diffs_window := [];
     last_message_timestamp := now;
     diff_messages_accepted := 0%nat;
     track_log := [] |}.

(** The handler [except Exception]: report, then [asyncio.sleep(5.0)]. *)
Definition report_error (st : TrackState) : TrackState :=
  {| saved_messages := saved_messages st;
     message_queue := message_queue st;
     order_book := order_book st;
     past_diffs_window := past_diffs_window st;
     last_message_timestamp := last_message_timestamp st;
     diff_messages_accepted := diff_messages_accepted st;
     track_log := track_log st
                  ++ [LogNetwork "Unexpected error tracking order book."
                        "Unexpected error tracking order book. Retrying after 5 seconds.";
                      Sleep 5] |}.

Definition set_order_book (book : OrderBook) (st : TrackState) : TrackState :=
  {| saved_messages := saved_messages st;
     message_queue := message_queue st;
     order_book := book;
     past_diffs_window := past_diffs_window st;
     last_message_timestamp := last_message_timestamp st;
     diff_messages_accepted := diff_messages_accepted st;
     track_log := track_log st |}.

(** The outcome of one turn of the [while True] loop. *)
Inductive turn : Type :=
| Suspended                       (* waiting in [message_queue.get()] *)
| Went_on (st : TrackState)       (* the turn ended, the loop goes on *)
| Ended (e : exn) (st : TrackState).   (* the exception left the coroutine *)

(** An exception inside the [try]: [CancelledError] is raised again, any
    other one is reported and the loop goes on. *)
Definition handle (e : exn) (st : TrackState) : turn :=
  if is_Exception e then Went_on (report_error st) else Ended e st.

(** The branch [message.type is OrderBookMessageType.DIFF].  [now] is the
    value of [time.time()], in seconds. *)
Definition process_diff (now : Z) (message : OrderBookMessage) (st : TrackState)
  : turn :=
  let (bids, asks) := convert_diff_message_to_order_book_row message in
  let (book, raised) := apply_diffs (order_book st) bids asks (timestamp message) in
  let st := set_order_book book st in
  match raised with
  | Some e => handle e st
  | None =>
      let window := popleft_while_over PAST_DIFF_WINDOW_SIZE
                      (past_diffs_window st ++ [message]) in
      let accepted := S (diff_messages_accepted st) in
      let minute_passed := Z.quot (last_message_timestamp st) 60 <? Z.quot now 60 in
      Went_on
        {| saved_messages := saved_messages st;
           message_queue := message_queue st;
           order_book := order_book st;
           past_diffs_window := window;
           last_message_timestamp := now;
           diff_messages_accepted := if minute_passed then 0%nat else accepted;
           track_log := if minute_passed
                        then track_log st ++ [LogProcessedDiffs accepted]
                        else track_log st |}
  end.

(** The branch [message.type is OrderBookMessageType.SNAPSHOT]. *)
Definition process_snapshot (message : OrderBookMessage) (st : TrackState) : turn :=
  let (bids, asks) := convert_snapshot_message_to_order_book_row message in
  let (book, raised) := apply_snapshot (order_book st) bids asks (timestamp message) in
  let st := set_order_book book st in
  match raised with
  | Some e => handle e st
  | None =>
      Went_on
        {| saved_messages := saved_messages st;
           message_queue := message_queue st;
           order_book := order_book st;
           past_diffs_window := past_diffs_window st;
           last_message_timestamp := last_message_timestamp st;
           diff_messages_accepted := diff_messages_accepted st;
           track_log := track_log st ++ [LogDebug "Processed order book snapshot."] |}
  end.

Definition process_message (now : Z) (message : OrderBookMessage) (st : TrackState)
  : turn :=
  match type message with
  | DIFF => process_diff now message st
  | SNAPSHOT => process_snapshot message st
  | TRADE => Went_on st
  end.

(** [saved_messages.popleft()] *)
Definition take_saved (rest : list OrderBookMessage) (st : TrackState) : TrackState :=
  {| saved_messages := rest;
     message_queue := message_queue st;
     order_book := order_book st;
     past_diffs_window := past_diffs_window st;
     last_message_timestamp := last_message_timestamp st;
     diff_messages_accepted := diff_messages_accepted st;
     track_log := track_log st |}.

(** [await message_queue.get()] on a queue that holds a message *)
Definition take_queued (rest : list OrderBookMessage) (st : TrackState) : TrackState :=
  {| saved_messages := saved_messages st;
     message_queue := rest;
     order_book := order_book st;
     past_diffs_window := past_diffs_window st;
     last_message_timestamp := last_message_timestamp st;
     diff_messages_accepted := diff_messages_accepted st;
     track_log := track_log st |}.

(** One turn of the loop: saved messages go first. *)
Definition track_turn (now : Z) (st : TrackState) : turn :=
  match saved_messages st with
  | message :: rest => process_message now message (take_saved rest st)
  | [] =>
      match message_queue st with
      | message :: rest => process_message now message (take_queued rest st)
      | [] => Suspended
      end
  end.

(** The loop run for as long as it has messages; [clock] gives the reading
    of [time.time()] turn by turn.  It stops where the coroutine is
    suspended or ended. *)
Fixpoint track_run (clock : list Z) (st : TrackState) : TrackState :=
  match clock with
  | [] => st
  | now :: clock' =>
      match track_turn now st with
      | Suspended => st
      | Went_on st' => track_run clock' st'
      | Ended _ st' => st'
      end
  end.

(** The book a list of diffs leaves, applied one after the other. *)
Definition apply_in_order (book : OrderBook) (diffs : list OrderBookMessage)
  : OrderBook :=
  foldl (fun b m => (apply_diffs b (bids m) (asks m) (timestamp m)).1) book diffs.

End Tracker.

(** *** _refresh_tracking_tasks *)

(** An [asyncio.Task] as the tracker sees it. *)
Record Task : Set := { task_id : nat; done : bool }.

Section Refresh.

Context {OrderBook ActiveOrderTracker : Type}.

(** [FtxOrderBookTrackerEntry], as far as the tracker reads it. *)
Record FtxOrderBookTrackerEntry : Type := {
  entry_order_book : OrderBook;
  entry_active_order_tracker : ActiveOrderTracker
}.

(** The per-instrument dictionaries of the tracker, the number of the next
    task the event loop creates, and what was logged or asked of the event
    loop, oldest first. *)
Record FtxOrderBookTracker : Type := {
  _tracking_tasks : gmap string Task;
  _order_books : gmap string OrderBook;
  _active_order_trackers : gmap string ActiveOrderTracker;
  _tracking_message_queues : gmap string (list OrderBookMessage);
  _saved_message_queues : gmap string (list OrderBookMessage);
  _past_diffs_windows : gmap string (list OrderBookMessage);
  next_task : nat;
  tracker_log : list event
}.

(** [__init__]: no instrument is tracked. *)
Definition init_tracker : FtxOrderBookTracker :=
  {| _tracking_tasks := ∅;
     _order_books := ∅;
     _active_order_trackers := ∅;
     _tracking_message_queues := ∅;
     _saved_message_queues := ∅;
     _past_diffs_windows := ∅;
     next_task := 0%nat;
     tracker_log := [] |}.

(** [del d[k]] *)
Definition del_key {V : Type} (k : string) (d : gmap string V)
  : result (gmap string V) :=
  match d !! k with
  | Some _ => Ok (delete k d)
  | None => Raise KeyError
  end.

(** [{key for key in self._tracking_tasks.keys()
      if not self._tracking_tasks[key].done()}] *)
Definition tracking_trading_pair (self : FtxOrderBookTracker) : gset string :=
  dom (filter (fun kv => done kv.2 = false) (_tracking_tasks self)).

Definition new_trading_pair (available_pairs : gmap string FtxOrderBookTrackerEntry)
    (self : FtxOrderBookTracker) : gset string :=
  dom available_pairs ∖ tracking_trading_pair self.

Definition deleted_trading_pair (available_pairs : gmap string FtxOrderBookTrackerEntry)
    (self : FtxOrderBookTracker) : gset string :=
  tracking_trading_pair self ∖ dom available_pairs.

(** The body of [for trading_pair in new_trading_pair]. *)
Definition start_one (available_pairs : gmap string FtxOrderBookTrackerEntry)
    (trading_pair : string) (self : FtxOrderBookTracker)
  : result FtxOrderBookTracker :=
  match available_pairs !! trading_pair with
  | None => Raise KeyError
  | Some order_book_tracker_entry =>
      Ok {| _tracking_tasks :=
              <[trading_pair := {| task_id := next_task self; done := false |}]>
                (_tracking_tasks self);
            _order_books :=
              <[trading_pair := entry_order_book order_book_tracker_entry]>
                (_order_books self);
            _active_order_trackers :=
              <[trading_pair := entry_active_order_tracker order_book_tracker_entry]>
                (_active_order_trackers self);
            _tracking_message_queues :=
              <[trading_pair := []]> (_tracking_message_queues self);
            _saved_message_queues := _saved_message_queues self;
            _past_diffs_windows := _past_diffs_windows self;
            next_task := S (next_task self);
            tracker_log :=
              tracker_log self
              ++ [LogInfo ("Started order book tracking for " +:+ trading_pair +:+ ".")] |}
  end.

(** The body of [for trading_pair in deleted_trading_pair]. *)
Definition stop_one (trading_pair : string) (self : FtxOrderBookTracker)
  : result FtxOrderBookTracker :=
  match _tracking_tasks self !! trading_pair with
  | None => Raise KeyError
  | Some task =>
      tasks ← del_key trading_pair (_tracking_tasks self);
      books ← del_key trading_pair (_order_books self);
      trackers ← del_key trading_pair (_active_order_trackers self);
      queues ← del_key trading_pair (_tracking_message_queues self);
      mret {| _tracking_tasks := tasks;
              _order_books := books;
              _active_order_trackers := trackers;
              _tracking_message_queues := queues;
              _saved_message_queues := _saved_message_queues self;
              _past_diffs_windows := _past_diffs_windows self;
              next_task := next_task self;
              tracker_log :=
                tracker_log self
                ++ [CancelTask (task_id task);
                    LogInfo ("Stopped order book tracking for " +:+ trading_pair +:+ ".")] |}
  end.

(** A [for] loop whose body may raise. *)
Fixpoint for_each (body : string -> FtxOrderBookTracker -> result FtxOrderBookTracker)
    (keys : list string) (self : FtxOrderBookTracker) : result FtxOrderBookTracker :=
  match keys with
  | [] => Ok self
  | k :: keys' => self' ← body k self; for_each body keys' self'
  end.

(** [_refresh_tracking_tasks], [available_pairs] being what
    [await self.data_source.get_tracking_pairs()] returned.  The two sets are
    computed before either loop runs. *)
Definition _refresh_tracking_tasks
    (available_pairs : gmap string FtxOrderBookTrackerEntry)
    (self : FtxOrderBookTracker) : result FtxOrderBookTracker :=
  let added := elements (new_trading_pair available_pairs self) in
  let removed := elements (deleted_trading_pair available_pairs self) in
  self' ← for_each (start_one available_pairs) added self;
  for_each stop_one removed self'.

(** Every task in [_tracking_tasks] has its book, its order tracker and its
    queue, as [start_one] leaves them. *)
Definition consistent (self : FtxOrderBookTracker) : Prop :=
  forall trading_pair,
    is_Some (_tracking_tasks self !! trading_pair) ->
    is_Some (_order_books self !! trading_pair)
    /\ is_Some (_active_order_trackers self !! trading_pair)
    /\ is_Some (_tracking_message_queues self !! trading_pair).

(** What the four dictionaries of [start_one] and [stop_one] hold for an
    instrument. *)
Definition entries (self : FtxOrderBookTracker) (trading_pair : string) :=
  (_tracking_tasks self !! trading_pair,
   _order_books self !! trading_pair,
   _active_order_trackers self !! trading_pair,
   _tracking_message_queues self !! trading_pair).

Definition released (self : FtxOrderBookTracker) (trading_pair : string) : Prop :=
  entries self trading_pair = (None, None, None, None).

Definition tracked (self : FtxOrderBookTracker) (trading_pair : string) : Prop :=
  is_Some (_tracking_tasks self !! trading_pair)
  /\ is_Some (_order_books self !! trading_pair)
  /\ is_Some (_active_order_trackers self !! trading_pair)
  /\ is_Some (_tracking_message_queues self !! trading_pair).

(** The two buffer dictionaries and the growth of the log. *)
Definition same_buffers (self self' : FtxOrderBookTracker) : Prop :=
  _saved_message_queues self' = _saved_message_queues self
  /\ _past_diffs_windows self' = _past_diffs_windows self
  /\ exists more, tracker_log self' = tracker_log self ++ more.

End Refresh.

(** ** Sample inputs *)

Definition row (p : Z) (a : N) : OrderBookRow := {| price := p; amount := a |}.

Definition diff_5 : OrderBookMessage :=
  {| type := DIFF; timestamp := 5; bids := [row 100 1]; asks := [] |}.
Definition diff_11 : OrderBookMessage :=
  {| type := DIFF; timestamp := 11; bids := [row 101 1]; asks := [] |}.
Definition diff_12 : OrderBookMessage :=
  {| type := DIFF; timestamp := 12; bids := [row 102 1]; asks := [] |}.
Definition snapshot_10 : OrderBookMessage :=
  {| type := SNAPSHOT; timestamp := 10; bids := [row 99 1]; asks := [] |}.
Definition snapshot_100 : OrderBookMessage :=
  {| type := SNAPSHOT; timestamp := 100; bids := [row 100 1]; asks := [] |}.
Definition diff_99 : OrderBookMessage :=
  {| type := DIFF; timestamp := 99; bids := [row 100 0]; asks := [] |}.

Definition stale_slot : Slot :=
  {| slot_timestamp := 5; slot_content := snapshot_10 |}.

Definition stale_source : FtxAPIOrderBookDataSource :=
  set_snapshot_msg {[ "BTC-USD"%string := stale_slot ]} (init_data_source None).

(** A loop state whose window of past diffs is full for a size of 2. *)
Definition full_window_state : @TrackState SpecOrderBook :=
  {| saved_messages := [];
     message_queue := [];
     order_book := empty_book;
     past_diffs_window := [diff_5; diff_11];
     last_message_timestamp := 0;
     diff_messages_accepted := 2;
     track_log := [] |}.

(** A tracker that tracks BTC-USD, with a saved message and a window for it. *)
Definition sample_tracker : @FtxOrderBookTracker SpecOrderBook unit :=
  {| _tracking_tasks := {[ "BTC-USD"%string := {| task_id := 0; done := false |} ]};
     _order_books := {[ "BTC-USD"%string := empty_book ]};
     _active_order_trackers := {[ "BTC-USD"%string := tt ]};
     _tracking_message_queues := {[ "BTC-USD"%string := [] ]};
     _saved_message_queues := {[ "BTC-USD"%string := [diff_5] ]};
     _past_diffs_windows := {[ "BTC-USD"%string := [diff_5] ]};
     next_task := 1;
     tracker_log := [] |}.

(** Stand-ins for the library functions, on a frame named ["frame"]. *)
Definition sample_frame : json := JDict [("R"%string, JStr "AAAA")].
Definition sample_payload : list (string * json) :=
  [("M"%string, JStr "USD-BTC"); ("N"%string, JNum 7)].
Definition sample_a2b (s : string) : result (list Byte.byte) := Ok [].
Definition sample_decompress (b : list Byte.byte) (wbits : Z)
  : result (list Byte.byte) := Ok b.
Definition sample_bytes_decode (b : list Byte.byte) : result string := Ok "payload"%string.
Definition sample_loads (s : string) : result json :=
  if String.eqb s "frame" then Ok sample_frame else Ok (JDict sample_payload).

(** ** The stream listener and the snapshot poller *)

(** Truth value of a value built by [ujson.loads]. *)
Definition py_truthy (o : json) : bool :=
  match o with
  | JNull => false
  | JBool b => b
  | JNum z => negb (z =? 0)
  | JStr EmptyString => false
  | JStr (String _ _) => true
  | JList [] => false
  | JList (_ :: _) => true
  | JDict [] => false
  | JDict (_ :: _) => true
  end.

(** [o == kind] for a string [kind]. *)
Definition is_kind (kind : string) (o : json) : bool :=
  match o with
  | JStr s => String.eqb s kind
  | _ => false
  end.

(** [self._websocket_connection = self._websocket_hub = None] *)
Definition clear_session (self : FtxAPIOrderBookDataSource)
  : FtxAPIOrderBookDataSource :=
  {| _trading_pairs := _trading_pairs self;
     _websocket_connection := None;
     _websocket_hub := None;
     _snapshot_msg := _snapshot_msg self;
     next_handle := next_handle self;
     trace := trace self |}.

Definition is_invoke (ev : event) : bool :=
  match ev with
  | Invoke _ _ _ => true
  | _ => false
  end.

Definition is_sleep (ev : event) : bool :=
  match ev with
  | Sleep _ => true
  | _ => false
  end.

Definition is_start (ev : event) : bool :=
  match ev with
  | StartConnection _ => true
  | _ => false
  end.

(** What [listen_for_order_book_stream] works on: the data source, its two
    output queues (unbounded [asyncio.Queue]s, oldest message first), the
    connections it has closed and the warnings of [_socket_stream]. *)
Record Listener : Type := {
  source : FtxAPIOrderBookDataSource;
  snapshot_queue : list OrderBookMessage;
  diff_queue : list OrderBookMessage;
  closed : list Connection;
  warnings : list string
}.

Definition set_source (src : FtxAPIOrderBookDataSource) (st : Listener) : Listener :=
  {| source := src;
     snapshot_queue := snapshot_queue st;
     diff_queue := diff_queue st;
     closed := closed st;
     warnings := warnings st |}.

(** [snapshot_queue.put_nowait(msg)] *)
Definition put_snapshot (msg : OrderBookMessage) (st : Listener) : Listener :=
  {| source := source st;
     snapshot_queue := snapshot_queue st ++ [msg];
     diff_queue := diff_queue st;
     closed := closed st;
     warnings := warnings st |}.

(** [diff_queue.put_nowait(msg)] *)
Definition put_diff (msg : OrderBookMessage) (st : Listener) : Listener :=
  {| source := source st;
     snapshot_queue := snapshot_queue st;
     diff_queue := diff_queue st ++ [msg];
     closed := closed st;
     warnings := warnings st |}.

Definition warn (text : string) (st : Listener) : Listener :=
  {| source := source st;
     snapshot_queue := snapshot_queue st;
     diff_queue := diff_queue st;
     closed := closed st;
     warnings := warnings st ++ [text] |}.

(** What one turn of [_socket_stream] meets: the catalog fetch its call of
    [websocket_connection] may make and what the [start()] of that call
    raises, what [conn.msg_queue.get()] gives within [MESSAGE_TIMEOUT]
    ([None] when the time runs out), and the reading of [int(time.time())]
    when the frame is handled. *)
Record Tick : Type := {
  tick_fetch : result (list string);
  tick_start : option exn;
  tick_read : option string;
  tick_now : Z
}.

(** How a run of the [async for] over [_socket_stream] ends. *)
Inductive stream_end : Type :=
| Waiting                 (* still waiting for a frame *)
| Stream_over             (* the stream timed out and returned *)
| Failed (e : exn).       (* an exception left the loop *)

(** How a pass of the [while True] of [listen_for_order_book_stream] ends. *)
Inductive session_end : Type :=
| Listening               (* still inside the [async for] *)
| Reconnecting            (* the [finally] ran, the loop goes round *)
| Escaped (e : exn).      (* the exception left the coroutine *)

Section Listening.

Variable a2b_base64 : string -> result (list Byte.byte).
Variable decompress : list Byte.byte -> Z -> result (list Byte.byte).
Variable bytes_decode : list Byte.byte -> result string.
Variable ujson_loads : string -> result json.

(** [FtxOrderBook.snapshot_message_from_exchange(results, nonce)] and
    [FtxOrderBook.diff_message_from_exchange(results, nonce)]. *)
Variable snapshot_message_from_exchange : json -> json -> result OrderBookMessage.
Variable diff_message_from_exchange : json -> json -> result OrderBookMessage.

(** The branch [decoded["type"] == "snapshot"].  The pair is a string
    whenever the record has a type; a key of another kind would be stored
    where no trading pair finds it, or be refused as unhashable. *)
Definition store_snapshot (decoded : Output) (trading_pair : json) (now : Z)
    (st : Listener) : Listener * result unit :=
  match snapshot_message_from_exchange (results decoded) (nonce decoded) with
  | Raise e => (st, Raise e)
  | Ok snapshot_msg =>
      let st := put_snapshot snapshot_msg st in
      match trading_pair with
      | JStr key =>
          (set_source
             (set_snapshot_msg
                (<[key := {| slot_timestamp := now; slot_content := snapshot_msg |}]>
                   (_snapshot_msg (source st)))
                (source st))
             st,
           Ok tt)
      | JList _ | JDict _ => (st, Raise TypeError)
      | _ => (st, Ok tt)
      end
  end.

(** The branch [decoded["type"] == "update"]. *)
Definition queue_diff (decoded : Output) (st : Listener) : Listener * result unit :=
  match diff_message_from_exchange (results decoded) (nonce decoded) with
  | Raise e => (st, Raise e)
  | Ok diff_msg => (put_diff diff_msg st, Ok tt)
  end.

(** The body of the [async for]: one raw frame. *)
Definition dispatch (raw_message : string) (now : Z) (st : Listener)
  : Listener * result unit :=
  match _transform_raw_message a2b_base64 decompress bytes_decode ujson_loads
          raw_message with
  | Raise e => (st, Raise e)
  | Ok decoded =>
      match py_get (results decoded) "M" JNull with
      | Raise e => (st, Raise e)
      | Ok trading_pair =>
          if negb (py_truthy trading_pair) then (st, Ok tt)
          else
            match (if is_kind "snapshot" (msg_type decoded)
                   then store_snapshot decoded trading_pair now st
                   else (st, Ok tt)) with
            | (st, Raise e) => (st, Raise e)
            | (st, Ok _) =>
                if is_kind "update" (msg_type decoded) then queue_diff decoded st
                else (st, Ok tt)
            end
      end
  end.

(** The [async for] over [_socket_stream]: each turn of the stream calls
    [websocket_connection] and waits for a frame, and the frame it yields is
    dispatched; a [TimeoutError] inside the stream ends it with a warning. *)
Fixpoint stream_loop (ticks : list Tick) (st : Listener) : Listener * stream_end :=
  match ticks with
  | [] => (st, Waiting)
  | t :: ticks' =>
      match websocket_connection (tick_fetch t) (tick_start t) (source st) with
      | (src, Raise TimeoutError) =>
          (warn "Message recv() timed out. Going to reconnect..." (set_source src st),
           Stream_over)
      | (src, Raise e) => (set_source src st, Failed e)
      | (src, Ok _) =>
          let st := set_source src st in
          match tick_read t with
          | None =>
              (warn "Message recv() timed out. Going to reconnect..." st, Stream_over)
          | Some raw_message =>
              match dispatch raw_message (tick_now t) st with
              | (st, Raise e) => (st, Failed e)
              | (st, Ok _) => stream_loop ticks' st
              end
          end
      end
  end.

(** The [finally] clause: [connection.close()], the session forgotten. *)
Definition close_session (connection : option Connection) (st : Listener)
  : Listener * option exn :=
  match connection with
  | None => (st, Some AttributeError)
  | Some c =>
      ({| source := emit (LogInfo "Reinitializing websocket connection...")
                      (clear_session (source st));
          snapshot_queue := snapshot_queue st;
          diff_queue := diff_queue st;
          closed := closed st ++ [c];
          warnings := warnings st |},
       None)
  end.

(** One pass of the [while True] of [listen_for_order_book_stream]; [fetch]
    and [start] are what the first call of [websocket_connection] meets. *)
Definition listen_session (fetch : result (list string)) (start : option exn)
    (ticks : list Tick) (st : Listener) : Listener * session_end :=
  match websocket_connection fetch start (source st) with
  | (src, Raise e) => (set_source src st, Escaped e)
  | (src, Ok (connection, hub)) =>
      match stream_loop ticks (set_source src st) with
      | (st, Waiting) => (st, Listening)
      | (st, Stream_over) =>
          match close_session connection st with
          | (st, Some e) => (st, Escaped e)
          | (st, None) => (st, Reconnecting)
          end
      | (st, Failed e) =>
          let st :=
            if is_Exception e
            then set_source
                   (emit (LogError "Unexpected error when listening on socket stream.")
                      (source st)) st
            else st in
          match close_session connection st with
          | (st, Some e') => (st, Escaped e')
          | (st, None) => if is_Exception e then (st, Reconnecting) else (st, Escaped e)
          end
      end
  end.

End Listening.

(** What a frame leaves alone in the data source: all but the pending map. *)
Definition same_but_slots (self self' : FtxAPIOrderBookDataSource) : Prop :=
  _trading_pairs self' = _trading_pairs self
  /\ _websocket_connection self' = _websocket_connection self
  /\ _websocket_hub self' = _websocket_hub self
  /\ next_handle self' = next_handle self
  /\ trace self' = trace self.

(** The loop of [listen_for_order_book_snapshots] over the trading pairs:
    [hub] is the hub [websocket_connection] returned. *)
Fixpoint query_all (hub : option Hub) (trading_pairs : list string)
    (self : FtxAPIOrderBookDataSource)
  : FtxAPIOrderBookDataSource * result unit :=
  match trading_pairs with
  | [] => (self, Ok tt)
  | trading_pair :: rest =>
      match swap_components "-" trading_pair with
      | Raise e => (self, Raise e)
      | Ok wire_pair =>
          match hub with
          | None => (self, Raise AttributeError)
          | Some h =>
              query_all hub rest
                (emit (LogInfo ("Query " +:+ wire_pair +:+ " snapshots.[Scheduled]"))
                   (emit (Invoke h "queryExchangeState" wire_pair) self))
          end
      end
  end.

(** One turn of the [while True] of [listen_for_order_book_snapshots].
    [fetch1] and [start] are what the call of [websocket_connection] meets,
    [fetch2] what the call of [get_trading_pairs] meets, and [delta] is the
    time to the next full hour as the turn computes it.  The result tells
    whether an exception left the coroutine. *)
Definition snapshots_turn (fetch1 : result (list string)) (start : option exn)
    (fetch2 : result (list string)) (delta : Z)
    (self : FtxAPIOrderBookDataSource) : FtxAPIOrderBookDataSource * option exn :=
  let failed (e : exn) (self : FtxAPIOrderBookDataSource) :=
    if is_Exception e
    then (emit (LogError "Unexpected error occurred invoking queryExchangeState") self,
          None)
    else (self, Some e) in
  match websocket_connection fetch1 start self with
  | (self, Raise e) => failed e self
  | (self, Ok (connection, hub)) =>
      match get_trading_pairs fetch2 self with
      | (self, Raise e) => failed e self
      | (self, Ok trading_pairs) =>
          match query_all hub trading_pairs self with
          | (self, Raise e) => failed e self
          | (self, Ok _) => (emit (Sleep delta) self, None)
          end
      end
  end.

(** What one turn of [listen_for_order_book_snapshots] meets. *)
Record PollTurn : Type := {
  poll_fetch1 : result (list string);
  poll_start : option exn;
  poll_fetch2 : result (list string);
  poll_delta : Z
}.

(** The [while True] of [listen_for_order_book_snapshots], turn after turn
    for as long as no exception leaves the coroutine. *)
Fixpoint snapshots_loop (turns : list PollTurn) (self : FtxAPIOrderBookDataSource)
  : FtxAPIOrderBookDataSource * option exn :=
  match turns with
  | [] => (self, None)
  | t :: turns' =>
      match snapshots_turn (poll_fetch1 t) (poll_start t) (poll_fetch2 t)
              (poll_delta t) self with
      | (self, Some e) => (self, Some e)
      | (self, None) => snapshots_loop turns' self
      end
  end.

(** ** The loop as a fold *)

Section Folding.

Context {OrderBook : Type} `{!OrderBookOps OrderBook}.

(** The book a message leaves. *)
Definition apply_message (book : OrderBook) (message : OrderBookMessage)
  : OrderBook :=
  match type message with
  | DIFF => (apply_diffs book (bids message) (asks message) (timestamp message)).1
  | SNAPSHOT =>
      (apply_snapshot book (bids message) (asks message) (timestamp message)).1
  | TRADE => book
  end.

(** The diffs of a list of messages on which [apply_diffs] raises nothing,
    the book being the one the messages before have left. *)
Fixpoint accepted_diffs (book : OrderBook) (messages : list OrderBookMessage)
  : list OrderBookMessage :=
  match messages with
  | [] => []
  | message :: rest =>
      match type message,
            (apply_diffs book (bids message) (asks message) (timestamp message)).2 with
      | DIFF, None => message :: accepted_diffs (apply_message book message) rest
      | _, _ => accepted_diffs (apply_message book message) rest
      end
  end.

(** No call on the order book raises [CancelledError]. *)
Definition raises_only_exceptions : Prop :=
  forall (book : OrderBook) (bs as_ : list OrderBookRow) (t : Z) (e : exn),
    ((apply_diffs book bs as_ t).2 = Some e -> is_Exception e = true)
    /\ ((apply_snapshot book bs as_ t).2 = Some e -> is_Exception e = true).

End Folding.

(** ** Tasks of the tracker *)

Section RefreshInvariants.

Context {OrderBook ActiveOrderTracker : Type}.

(** Every task held has a number below the next one, and no two instruments
    hold the same task. *)
Definition tasks_distinct (self : @FtxOrderBookTracker OrderBook ActiveOrderTracker)
  : Prop :=
  (forall k t, _tracking_tasks self !! k = Some t -> (task_id t < next_task self)%nat)
  /\ (forall k1 k2 t1 t2,
         _tracking_tasks self !! k1 = Some t1 ->
         _tracking_tasks self !! k2 = Some t2 ->
         task_id t1 = task_id t2 -> k1 = k2).

(** Tasks that come to their end between two refreshes: [done()] is true
    of them from then on. *)
Definition finish_tasks (finished : gset nat)
    (self : @FtxOrderBookTracker OrderBook ActiveOrderTracker)
  : @FtxOrderBookTracker OrderBook ActiveOrderTracker :=
  {| _tracking_tasks :=
       (fun t => if decide (task_id t ∈ finished)
                 then {| task_id := task_id t; done := true |} else t)
       <$> _tracking_tasks self;
     _order_books := _order_books self;
     _active_order_trackers := _active_order_trackers self;
     _tracking_message_queues := _tracking_message_queues self;
     _saved_message_queues := _saved_message_queues self;
     _past_diffs_windows := _past_diffs_windows self;
     next_task := next_task self;
     tracker_log := tracker_log self |}.

(** The life of a tracker: rounds in each of which some tasks end and the
    refresh then runs on what the data source finds available. *)
Fixpoint run_rounds
    (rounds : list (gset nat
                    * gmap string (@FtxOrderBookTrackerEntry OrderBook ActiveOrderTracker)))
    (self : @FtxOrderBookTracker OrderBook ActiveOrderTracker)
  : result (@FtxOrderBookTracker OrderBook ActiveOrderTracker) :=
  match rounds with
  | [] => Ok self
  | (finished, available_pairs) :: rest =>
      self' ← _refresh_tracking_tasks available_pairs (finish_tasks finished self);
      run_rounds rest self'
  end.

End RefreshInvariants.

(** An order book whose [apply_diffs] refuses a diff without rows. *)
Definition strict_apply_diffs (book : SpecOrderBook) (bs as_ : list OrderBookRow)
    (update_id : Z) : SpecOrderBook * option exn :=
  match bs, as_ with
  | [], [] => (book, Some ValueError)
  | _, _ =>
      ({| bid_book := foldl apply_row (bid_book book) bs;
          ask_book := foldl apply_row (ask_book book) as_;
          last_applied := update_id |}, None)
  end.

Definition strict_order_book_ops : OrderBookOps SpecOrderBook :=
  {| apply_diffs := strict_apply_diffs;
     apply_snapshot book bs as_ update_id :=
       ({| bid_book := foldl apply_row ∅ bs;
           ask_book := foldl apply_row ∅ as_;
           last_applied := update_id |}, None) |}.

Definition empty_diff_7 : OrderBookMessage :=
  {| type := DIFF; timestamp := 7; bids := []; asks := [] |}.


(** ** PeatioAPIUserStreamDataSource: the listen key *)

(** What [listen_for_user_stream] logs and asks of the event loop; the
    debug messages are recorded without the text of the key. *)
Inductive peatio_event : Type :=
| PeatioDebug (text : string)
| PeatioError (text : string)
| StartStreamTask (task : nat)
| CancelStreamTask (task : nat)
| PeatioSleep (seconds : Z).

Section Peatio.

(** The listen key: the cookie jar [get_listen_key] returns. *)
Context {ListenKey : Type}.

Record PeatioAPIUserStreamDataSource : Type := {
  _current_listen_key : option ListenKey;
  _listen_for_user_stream_task : option nat;
  next_stream_task : nat;
  peatio_log : list peatio_event
}.

(** [__init__] *)
Definition init_peatio : PeatioAPIUserStreamDataSource :=
  {| _current_listen_key := None;
     _listen_for_user_stream_task := None;
     next_stream_task := 0%nat;
     peatio_log := [] |}.

(** What one turn of the loop meets: what [get_listen_key] and
    [ping_listen_key] do if they are called, and the exception, if any,
    that ends each of the two [wait_til_next_tick] and the
    [asyncio.sleep(5)] of the handler. *)
Record KeepAlive : Type := {
  got_key : result ListenKey;
  first_wait : option exn;
  pinged : result bool;
  second_wait : option exn;
  error_sleep : option exn
}.

Definition peatio_emit (evs : list peatio_event) (self : PeatioAPIUserStreamDataSource)
  : PeatioAPIUserStreamDataSource :=
  {| _current_listen_key := _current_listen_key self;
     _listen_for_user_stream_task := _listen_for_user_stream_task self;
     next_stream_task := next_stream_task self;
     peatio_log := peatio_log self ++ evs |}.

(** [if task is not None: task.cancel()] *)
Definition cancel_stream_task (self : PeatioAPIUserStreamDataSource)
  : PeatioAPIUserStreamDataSource :=
  match _listen_for_user_stream_task self with
  | Some task => peatio_emit [CancelStreamTask task] self
  | None => self
  end.

(** The branch [if self._current_listen_key is None], after
    [get_listen_key] has returned [key]: the key is kept, the task that
    logs the stream is replaced by a new one. *)
Definition take_listen_key (key : ListenKey) (self : PeatioAPIUserStreamDataSource)
  : PeatioAPIUserStreamDataSource :=
  let self :=
    peatio_emit [PeatioDebug "Obtained listen key."]
      {| _current_listen_key := Some key;
         _listen_for_user_stream_task := _listen_for_user_stream_task self;
         next_stream_task := next_stream_task self;
         peatio_log := peatio_log self |} in
  let self := cancel_stream_task self in
  {| _current_listen_key := _current_listen_key self;
     _listen_for_user_stream_task := Some (next_stream_task self);
     next_stream_task := S (next_stream_task self);
     peatio_log := peatio_log self ++ [StartStreamTask (next_stream_task self)] |}.

(** The branch [if not success]. *)
Definition drop_listen_key (self : PeatioAPIUserStreamDataSource)
  : PeatioAPIUserStreamDataSource :=
  let self := cancel_stream_task self in
  {| _current_listen_key := None;
     _listen_for_user_stream_task := None;
     next_stream_task := next_stream_task self;
     peatio_log := peatio_log self |}.

(** The body of the [try] of one turn. *)
Definition keep_alive_body (t : KeepAlive) (self : PeatioAPIUserStreamDataSource)
  : PeatioAPIUserStreamDataSource * result unit :=
  let obtained :=
    match _current_listen_key self with
    | Some _ => (self, Ok tt)
    | None =>
        match got_key t with
        | Raise e => (self, Raise e)
        | Ok key =>
            (take_listen_key key self,
             match first_wait t with
             | Some e => Raise e
             | None => Ok tt
             end)
        end
    end in
  match obtained with
  | (self, Raise e) => (self, Raise e)
  | (self, Ok _) =>
      match pinged t with
      | Raise e => (self, Raise e)
      | Ok false => (drop_listen_key self, Ok tt)
      | Ok true =>
          (peatio_emit [PeatioDebug "Refreshed listen key."] self,
           match second_wait t with
           | Some e => Raise e
           | None => Ok tt
           end)
      end
  end.

(** One turn of the [while True] of [listen_for_user_stream]; the result
    tells whether an exception left the coroutine. *)
Definition keep_alive_turn (t : KeepAlive) (self : PeatioAPIUserStreamDataSource)
  : PeatioAPIUserStreamDataSource * option exn :=
  match keep_alive_body t self with
  | (self, Ok _) => (self, None)
  | (self, Raise e) =>
      if is_Exception e then
        (peatio_emit
           [PeatioError "Unexpected error while maintaining the user event listen key. Retrying after 5 seconds...";
            PeatioSleep 5] self,
         error_sleep t)
      else (self, Some e)
  end.

(** The loop, for as long as no exception leaves it. *)
Fixpoint keep_alive (turns : list KeepAlive) (self : PeatioAPIUserStreamDataSource)
  : PeatioAPIUserStreamDataSource :=
  match turns with
  | [] => self
  | t :: turns' =>
      match keep_alive_turn t self with
      | (self, Some _) => self
      | (self, None) => keep_alive turns' self
      end
  end.

(** The tasks the log has seen started and not cancelled, oldest first. *)
Fixpoint live_stream_tasks (log : list peatio_event) (live : list nat) : list nat :=
  match log with
  | [] => live
  | StartStreamTask task :: log' => live_stream_tasks log' (live ++ [task])
  | CancelStreamTask task :: log' =>
      live_stream_tasks log' (filter (fun x => x <> task) live)
  | _ :: log' => live_stream_tasks log' live
  end.

(** The key and the task come and go together, the task held is the one
    task alive, and its number is below the next one. *)
Definition key_and_task_agree (self : PeatioAPIUserStreamDataSource) : Prop :=
  (_current_listen_key self = None <-> _listen_for_user_stream_task self = None)
  /\ live_stream_tasks (peatio_log self) []
     = match _listen_for_user_stream_task self with
       | Some task => [task]
       | None => []
       end
  /\ (forall task, _listen_for_user_stream_task self = Some task ->
                   (task < next_stream_task self)%nat).

End Peatio.

(** ** More sample inputs *)

(** A feed whose frame ["frame"] is a snapshot frame with the given payload
    and whose frame ["bad"] is a snapshot frame that does not decode. *)
Definition feed_loads (payload : json) (s : string) : result json :=
  if String.eqb s "frame" then Ok sample_frame
  else if String.eqb s "bad" then Ok (JDict [("R"%string, JStr "!")])
  else Ok payload.

Definition perp_payload : list (string * json) :=
  [("M"%string, JStr "USD-BTC-PERP"); ("N"%string, JNum 7)].

Definition flat_payload : list (string * json) :=
  [("M"%string, JStr "BTCUSD"); ("N"%string, JNum 7)].

Definition sample_snapshot_message (res n : json) : result OrderBookMessage :=
  Ok snapshot_10.

Definition sample_diff_message (res n : json) : result OrderBookMessage :=
  Ok diff_11.

Definition sample_listener : Listener :=
  {| source := init_data_source None;
     snapshot_queue := [];
     diff_queue := [];
     closed := [];
     warnings := [] |}.

Definition timeout_tick : Tick :=
  {| tick_fetch := Raise IOError; tick_start := Some IndexError;
     tick_read := None; tick_now := 0 |}.

(** A turn of the poller with the catalog unreachable and [start()] raising
    as it does with no hub registered. *)
Definition failing_poll : PollTurn :=
  {| poll_fetch1 := Raise IOError; poll_start := Some IndexError;
     poll_fetch2 := Raise IOError; poll_delta := 3600 |}.



Definition sample_entry : @FtxOrderBookTrackerEntry SpecOrderBook unit :=
  {| entry_order_book := empty_book; entry_active_order_tracker := tt |}.

Definition no_pairs : gmap string (@FtxOrderBookTrackerEntry SpecOrderBook unit) := ∅.

Definition eth_pairs : gmap string (@FtxOrderBookTrackerEntry SpecOrderBook unit) :=
  {[ "ETH-USD"%string := sample_entry ]}.

(** * Properties *)

(** ** The snapshot synchronizer *)

Lemma lookup_store_snapshots_other (arrivals : list (string * Slot))
    (trading_pair : string) (self : FtxAPIOrderBookDataSource) :
  Forall (fun w => w.1 <> trading_pair) arrivals ->
  _snapshot_msg (store_snapshots arrivals self) !! trading_pair
  = _snapshot_msg self !! trading_pair.
Proof.
  unfold store_snapshots; simpl.
  generalize (_snapshot_msg self) as m.
  induction arrivals as [|w arrivals IH]; intros m Hall; simpl; [reflexivity|].
  inversion Hall as [|? ? Hw Hrest]; subst.
  rewrite IH by assumption.
  now apply lookup_insert_ne.
Qed.

Lemma pop_slot_removes (trading_pair : string) (self : FtxAPIOrderBookDataSource) :
  _snapshot_msg (pop_slot trading_pair self).2 !! trading_pair = None.
Proof. unfold pop_slot; simpl. apply lookup_delete_eq. Qed.

Lemma quiet_hd (trading_pair : string) (arrivals : list (list (string * Slot))) :
  Forall (Forall (fun w => w.1 <> trading_pair)) arrivals ->
  Forall (fun w => w.1 <> trading_pair) (hd [] arrivals).
Proof. intros Hquiet. destruct arrivals; [constructor|]. now inversion Hquiet. Qed.

Lemma quiet_tl (trading_pair : string) (arrivals : list (list (string * Slot))) :
  Forall (Forall (fun w => w.1 <> trading_pair)) arrivals ->
  Forall (Forall (fun w => w.1 <> trading_pair)) (tl arrivals).
Proof. intros Hquiet. destruct arrivals; [constructor|]. now inversion Hquiet. Qed.

(** With no slot for the instrument and none arriving, the loop times out
    and the map still has no slot for it. *)
Lemma wait_loop_starves (n : nat) :
  forall (arrivals : list (list (string * Slot))) (trading_pair : string)
         (invoke_timestamp : Z) (self : FtxAPIOrderBookDataSource),
    Forall (Forall (fun w => w.1 <> trading_pair)) arrivals ->
    _snapshot_msg self !! trading_pair = None ->
    (wait_loop n arrivals trading_pair invoke_timestamp self).2 = Raise TimeoutError
    /\ _snapshot_msg (wait_loop n arrivals trading_pair invoke_timestamp self).1
       !! trading_pair = None.
Proof.
  induction n as [|n IH]; intros arrivals trading_pair invoke_timestamp self Hquiet Hnone;
    simpl; [split; [reflexivity|exact Hnone]|].
  rewrite Hnone.
  apply IH; [apply quiet_tl; exact Hquiet|].
  rewrite lookup_store_snapshots_other by (apply quiet_hd; exact Hquiet).
  simpl. apply lookup_delete_eq.
Qed.








(** ** The instrument catalog and the feed session *)

(** C9. When the catalog fetch is attempted and fails, [get_trading_pairs]
    does not raise: it returns the empty list, records it as the list of
    trading pairs, and logs the failure with its warning for the
    application. *)
Theorem get_trading_pairs_degrades_to_empty
    (e : exn) (self : FtxAPIOrderBookDataSource) :
  truthy_pairs (_trading_pairs self) = false ->
  is_Exception e = true ->
  exists self',
    get_trading_pairs (Raise e) self = (self', Ok [])
    /\ _trading_pairs self' = Some []
    /\ trace self'
       = trace self
         ++ [LogNetwork "Error getting active exchange information."
               "Error getting active exchange information. Check network connection."].
Proof.
  intros Hfalsy Hexc. unfold get_trading_pairs. rewrite Hfalsy, Hexc.
  eexists. split; [reflexivity|]. split; reflexivity.
Qed.

Lemma get_trading_pairs_degrades_to_empty_witness :
  exists self',
    get_trading_pairs (Raise IOError) (init_data_source None) = (self', Ok [])
    /\ _trading_pairs self' = Some []
    /\ trace self'
       = [LogNetwork "Error getting active exchange information."
            "Error getting active exchange information. Check network connection."].
Proof.
  exact (get_trading_pairs_degrades_to_empty IOError (init_data_source None)
           eq_refl eq_refl).
Defined.


Lemma same_session_refl (self : FtxAPIOrderBookDataSource) : same_session self self.
Proof.
  split; [reflexivity|]. split; [reflexivity|]. split; [reflexivity|].
  exists []. symmetry. apply app_nil_r.
Qed.

Lemma same_session_trans (a b c : FtxAPIOrderBookDataSource) :
  same_session a b -> same_session b c -> same_session a c.
Proof.
  intros (Hc1 & Hh1 & Hn1 & m1 & Ht1) (Hc2 & Hh2 & Hn2 & m2 & Ht2).
  split; [congruence|]. split; [congruence|]. split; [congruence|].
  exists (m1 ++ m2). rewrite Ht2, Ht1. symmetry. apply app_assoc.
Qed.

Lemma same_session_emit (ev : event) (self : FtxAPIOrderBookDataSource) :
  same_session self (emit ev self).
Proof.
  split; [reflexivity|]. split; [reflexivity|]. split; [reflexivity|].
  exists [ev]. reflexivity.
Qed.

Lemma same_session_set_trading_pairs (l : list string)
    (self : FtxAPIOrderBookDataSource) :
  same_session self (set_trading_pairs l self).
Proof.
  split; [reflexivity|]. split; [reflexivity|]. split; [reflexivity|].
  exists []. symmetry. apply app_nil_r.
Qed.

Lemma get_trading_pairs_same_session (fetch : result (list string))
    (self : FtxAPIOrderBookDataSource) :
  same_session self (get_trading_pairs fetch self).1.
Proof.
  unfold get_trading_pairs.
  destruct (truthy_pairs (_trading_pairs self)); [apply same_session_refl|].
  destruct fetch as [l|e]; simpl; [apply same_session_set_trading_pairs|].
  destruct (is_Exception e); simpl; [|apply same_session_refl].
  eapply same_session_trans;
    [apply same_session_set_trading_pairs|apply same_session_emit].
Qed.

Lemma hub_invoke_same_session (method arg : string)
    (self : FtxAPIOrderBookDataSource) :
  same_session self (hub_invoke method arg self).1.
Proof.
  unfold hub_invoke. destruct (_websocket_hub self); simpl;
    [apply same_session_emit|apply same_session_refl].
Qed.

Lemma subscribe_all_same_session (trading_pairs : list string) :
  forall self, same_session self (subscribe_all trading_pairs self).1.
Proof.
  induction trading_pairs as [|p rest IH]; intros self; simpl;
    [apply same_session_refl|].
  destruct (swap_components "/" p) as [wire|e]; simpl; [|apply same_session_refl].
  set (s1 := emit _ self).
  pose proof (hub_invoke_same_session "SubscribeToExchangeDeltas" wire s1) as H1.
  destruct (hub_invoke "SubscribeToExchangeDeltas" wire s1) as [s2 [[]|e]];
    simpl in *.
  - set (s3 := emit _ s2).
    pose proof (hub_invoke_same_session "queryExchangeState" wire s3) as H3.
    destruct (hub_invoke "queryExchangeState" wire s3) as [s4 [[]|e]]; simpl in *.
    + eapply same_session_trans; [|apply IH].
      eapply same_session_trans; [apply same_session_emit|].
      eapply same_session_trans; [exact H1|].
      eapply same_session_trans; [apply same_session_emit|exact H3].
    + eapply same_session_trans; [apply same_session_emit|].
      eapply same_session_trans; [exact H1|].
      eapply same_session_trans; [apply same_session_emit|exact H3].
  - eapply same_session_trans; [apply same_session_emit|exact H1].
Qed.

(** With no hub object the guard of [websocket_connection] fails, whatever
    the connection: a new connection object replaces the one held. *)
Lemma websocket_connection_without_hub (fetch : result (list string))
    (start : option exn) (self : FtxAPIOrderBookDataSource) :
  _websocket_hub self = None ->
  let self' := (websocket_connection fetch start self).1 in
  _websocket_connection self' = Some (next_handle self)
  /\ _websocket_hub self' = None
  /\ next_handle self' = S (next_handle self)
  /\ exists more,
       trace self' = trace self ++ NewConnection (next_handle self) FTX_WS_FEED :: more.
Proof.
  intros Hhub. unfold websocket_connection.
  rewrite Hhub, andb_false_r.
  set (s0 := new_connection self).
  assert (H0 : _websocket_connection s0 = Some (next_handle self)
               /\ _websocket_hub s0 = None
               /\ next_handle s0 = S (next_handle self)
               /\ trace s0 = trace self ++ [NewConnection (next_handle self) FTX_WS_FEED]).
  { split; [reflexivity|]. split; [exact Hhub|]. split; reflexivity. }
  assert (Hfinish : forall s, same_session s0 s ->
            _websocket_connection s = Some (next_handle self)
            /\ _websocket_hub s = None
            /\ next_handle s = S (next_handle self)
            /\ exists more,
                 trace s = trace self ++ NewConnection (next_handle self) FTX_WS_FEED :: more).
  { intros s (Hc & Hh & Hn & more & Ht).
    destruct H0 as (H0c & H0h & H0n & H0t).
    split; [congruence|]. split; [congruence|]. split; [congruence|].
    exists more. rewrite Ht, H0t, <- app_assoc. reflexivity. }
  pose proof (get_trading_pairs_same_session fetch s0) as H1.
  destruct (get_trading_pairs fetch s0) as [s1 [pairs|e]]; simpl in *;
    [|apply Hfinish; exact H1].
  pose proof (subscribe_all_same_session pairs s1) as H2.
  destruct (subscribe_all pairs s1) as [s2 [[]|e]]; simpl in *.
  - assert (Hstarted : forall r : result (option Connection * option Hub),
               (match _websocket_connection s2 with
                | Some c => emit (StartConnection c) s2
                | None => s2
                end, r).1
               = match _websocket_connection s2 with
                 | Some c => emit (StartConnection c) s2
                 | None => s2
                 end) by reflexivity.
    destruct start as [e|]; rewrite Hstarted; apply Hfinish;
      (eapply same_session_trans; [exact H1|];
       eapply same_session_trans; [exact H2|];
       destruct (_websocket_connection s2);
         [apply same_session_emit|apply same_session_refl]).
  - apply Hfinish. eapply same_session_trans; [exact H1|exact H2].
Qed.

(** C8. Calling [websocket_connection] again on a data source that has
    already connected does not return the session it holds: the hub is never
    set, so the guard fails, and the second call creates a second connection
    object and stores it in place of the first. *)
Theorem websocket_connection_connects_again
    (trading_pairs : option (list string)) (fetch1 fetch2 : result (list string))
    (start1 start2 : option exn) :
  let self1 :=
    (websocket_connection fetch1 start1 (init_data_source trading_pairs)).1 in
  let self2 := (websocket_connection fetch2 start2 self1).1 in
  _websocket_connection self1 = Some 0%nat
  /\ _websocket_connection self2 = Some 1%nat
  /\ In (NewConnection 1%nat FTX_WS_FEED) (trace self2).
Proof.
  intros self1 self2.
  destruct (websocket_connection_without_hub fetch1 start1
              (init_data_source trading_pairs) eq_refl) as (Hc1 & Hh1 & Hn1 & _).
  fold self1 in Hc1, Hh1, Hn1.
  destruct (websocket_connection_without_hub fetch2 start2 self1 Hh1)
    as (Hc2 & _ & _ & more & Ht2).
  fold self2 in Hc2, Ht2. rewrite Hn1 in Hc2, Ht2.
  split; [exact Hc1|]. split; [exact Hc2|].
  rewrite Ht2. apply in_or_app. right. left. reflexivity.
Qed.

(** A data source built without trading pairs, the catalog unreachable.
    Were [start()] to return, both calls would return, each with a connection
    of its own and no hub; with [start()] raising, each call raises what it
    raises and leaves its own connection stored. *)
Example websocket_connection_twice :
  let (self1, r1) := websocket_connection (Raise IOError) None (init_data_source None) in
  let (self2, r2) := websocket_connection (Raise IOError) None self1 in
  r1 = Ok (Some 0%nat, None) /\ r2 = Ok (Some 1%nat, None).
Proof. split; reflexivity. Qed.

Example websocket_connection_twice_raising :
  let (self1, r1) :=
    websocket_connection (Raise IOError) (Some IndexError) (init_data_source None) in
  let (self2, r2) := websocket_connection (Raise IOError) (Some IndexError) self1 in
  r1 = Raise IndexError /\ r2 = Raise IndexError
  /\ _websocket_connection self1 = Some 0%nat
  /\ _websocket_connection self2 = Some 1%nat.
Proof. repeat split; reflexivity. Qed.

(** Were a hub object ever stored, the guard would hand back the session
    held, and change nothing. *)
Lemma websocket_connection_guard (fetch : result (list string))
    (start : option exn) (self : FtxAPIOrderBookDataSource) (c : Connection) (h : Hub) :
  _websocket_connection self = Some c ->
  _websocket_hub self = Some h ->
  websocket_connection fetch start self = (self, Ok (Some c, Some h)).
Proof.
  intros Hc Hh. unfold websocket_connection. rewrite Hc, Hh. reflexivity.
Qed.

(** ** The message decoder *)

Lemma split_on_nonempty (sep : ascii) (s : string) : split_on sep s <> [].
Proof.
  destruct s as [|c s]; simpl; [discriminate|].
  destruct (Ascii.eqb c sep); [discriminate|].
  destruct (split_on sep s); discriminate.
Qed.

Lemma split_on_no_sep (sep : ascii) (s : string) :
  no_char sep s -> split_on sep s = [s].
Proof.
  unfold no_char. induction s as [|c s IH]; simpl; intros Hno; [reflexivity|].
  inversion Hno as [|? ? Hc Hrest]; subst.
  apply Ascii.eqb_neq in Hc. rewrite Hc, (IH Hrest). reflexivity.
Qed.

Lemma split_on_pair (sep : ascii) (q b : string) :
  no_char sep q -> no_char sep b ->
  split_on sep (q +:+ String sep b) = [q; b].
Proof.
  unfold no_char at 1. induction q as [|c q IH]; simpl; intros Hq Hb.
  - rewrite Ascii.eqb_refl, (split_on_no_sep _ _ Hb). reflexivity.
  - inversion Hq as [|? ? Hc Hrest]; subst.
    apply Ascii.eqb_neq in Hc. rewrite Hc, (IH Hrest Hb). reflexivity.
Qed.

(** A pair in wire order comes out with its two components exchanged. *)
Lemma swap_components_pair (q b : string) :
  no_char "-" q -> no_char "-" b ->
  swap_components "-" (q +:+ "-" +:+ b) = Ok (b +:+ "-" +:+ q).
Proof.
  intros Hq Hb. unfold swap_components, split_index.
  change (q +:+ "-" +:+ b) with (q +:+ String "-" b).
  rewrite (split_on_pair _ _ _ Hq Hb). reflexivity.
Qed.

Lemma dict_lookup_update_eq (k : string) (v : json) (d : list (string * json)) :
  dict_lookup k (dict_update k v d) = Some v.
Proof.
  induction d as [|[k' v'] d IH]; simpl.
  - rewrite String.eqb_refl. reflexivity.
  - destruct (String.eqb k k') eqn:Hk; simpl.
    + rewrite String.eqb_refl. reflexivity.
    + rewrite Hk. exact IH.
Qed.

Lemma dict_lookup_update_ne (k k0 : string) (v : json) (d : list (string * json)) :
  k0 <> k -> dict_lookup k0 (dict_update k v d) = dict_lookup k0 d.
Proof.
  intros Hne. apply String.eqb_neq in Hne.
  induction d as [|[k' v'] d IH]; simpl.
  - rewrite Hne. reflexivity.
  - destruct (String.eqb k k') eqn:Hk; simpl.
    + apply String.eqb_eq in Hk; subst k'. rewrite Hne. reflexivity.
    + destruct (String.eqb k0 k'); [reflexivity|exact IH].
Qed.

Section DecoderFacts.

Variable a2b_base64 : string -> result (list Byte.byte).
Variable decompress : list Byte.byte -> Z -> result (list Byte.byte).
Variable bytes_decode : list Byte.byte -> result string.
Variable ujson_loads : string -> result json.

Local Abbreviation decode := (_decode_message a2b_base64 decompress bytes_decode ujson_loads).
Local Abbreviation branch := (decode_branch a2b_base64 decompress bytes_decode ujson_loads).
Local Abbreviation loaded := (transform_loaded a2b_base64 decompress bytes_decode ujson_loads).
Local Abbreviation transform :=
  (_transform_raw_message a2b_base64 decompress bytes_decode ujson_loads).

(** A payload that decodes to a dictionary with the pair in wire order. *)
Lemma decode_branch_swaps (kind : string) (payload : json)
    (d : list (string * json)) (q b : string) :
  decode payload = Ok (JDict d) ->
  dict_lookup "M" d = Some (JStr (q +:+ "-" +:+ b)) ->
  no_char "-" q -> no_char "-" b ->
  branch kind payload
  = match dict_lookup "N" d with
    | Some n =>
        Ok {| nonce := n; msg_type := JStr kind;
              results := JDict (dict_update "M" (JStr (b +:+ "-" +:+ q)) d) |}
    | None => Raise KeyError
    end.
Proof.
  intros Hdec HM Hq Hb. unfold decode_branch. rewrite Hdec. simpl.
  rewrite HM. simpl. rewrite (swap_components_pair _ _ Hq Hb). simpl.
  rewrite dict_lookup_update_ne by discriminate.
  destruct (dict_lookup "N" d); reflexivity.
Qed.

(** A payload that does not decode gives [{}], and the branch then fails on
    the key ["M"]. *)
Lemma decode_branch_of_empty (kind : string) (payload : json) :
  decode payload = Ok (JDict []) -> branch kind payload = Raise KeyError.
Proof. intros Hdec. unfold decode_branch. rewrite Hdec. reflexivity. Qed.

Lemma decode_failure_gives_empty (payload : json) (e : exn) :
  (b ← b64decode a2b_base64 payload; decompress b (- MAX_WBITS)) = Raise e ->
  is_SyntaxError e = false -> is_Exception e = true ->
  decode payload = Ok (JDict []).
Proof.
  intros Hfirst Hsyn Hexc. unfold _decode_message.
  rewrite Hfirst, Hsyn, Hexc. reflexivity.
Qed.


Lemma transform_loaded_carries (msg : json) (kind : string) (payload : json) :
  carries msg kind payload -> loaded msg = branch kind payload.
Proof.
  unfold transform_loaded.
  intros [(Hsnap & HR & ->)|(Hsnap & Hdelta & Hpay & ->)].
  - rewrite Hsnap. simpl. rewrite HR. reflexivity.
  - rewrite Hsnap. simpl. rewrite Hdelta. simpl. rewrite Hpay. reflexivity.
Qed.

(** A snapshot or delta frame whose payload does not decode: the decoder
    raises [KeyError] instead of returning a record without content. *)
Lemma undecodable_payload_raises (msg : json) (kind : string) (payload : json)
    (e : exn) :
  carries msg kind payload ->
  (b ← b64decode a2b_base64 payload; decompress b (- MAX_WBITS)) = Raise e ->
  is_SyntaxError e = false -> is_Exception e = true ->
  loaded msg = Raise KeyError.
Proof.
  intros Hframe Hfirst Hsyn Hexc.
  rewrite (transform_loaded_carries _ _ _ Hframe).
  apply decode_branch_of_empty.
  exact (decode_failure_gives_empty _ _ Hfirst Hsyn Hexc).
Qed.

(** C7. For every snapshot or delta frame whose decoded payload carries the
    instrument as QUOTE-BASE, a record the decoder returns carries it as
    BASE-QUOTE, the two components exchanged; and the decoder does return
    one, with the payload's nonce, whenever the payload has its field
    ["N"]. *)
Theorem transform_raw_message_normalizes_pair
    (raw : string) (msg : json) (kind : string) (payload : json)
    (d : list (string * json)) (q b : string) :
  ujson_loads raw = Ok msg ->
  carries msg kind payload ->
  _decode_message a2b_base64 decompress bytes_decode ujson_loads payload
  = Ok (JDict d) ->
  dict_lookup "M" d = Some (JStr (q +:+ "-" +:+ b)) ->
  no_char "-" q -> no_char "-" b ->
  (forall out,
      _transform_raw_message a2b_base64 decompress bytes_decode ujson_loads raw
      = Ok out ->
      py_getitem (results out) "M" = Ok (JStr (b +:+ "-" +:+ q)))
  /\ (forall n,
         dict_lookup "N" d = Some n ->
         exists out,
           _transform_raw_message a2b_base64 decompress bytes_decode ujson_loads raw
           = Ok out
           /\ py_getitem (results out) "M" = Ok (JStr (b +:+ "-" +:+ q))
           /\ nonce out = n /\ msg_type out = JStr kind).
Proof.
  intros Hraw Hframe Hdec HM Hq Hb.
  assert (Heq : transform raw
                = match dict_lookup "N" d with
                  | Some n =>
                      Ok {| nonce := n; msg_type := JStr kind;
                            results := JDict (dict_update "M" (JStr (b +:+ "-" +:+ q)) d) |}
                  | None => Raise KeyError
                  end).
  { unfold _transform_raw_message. rewrite Hraw. simpl.
    rewrite (transform_loaded_carries _ _ _ Hframe).
    apply (decode_branch_swaps _ _ _ _ _ Hdec HM Hq Hb). }
  split.
  - intros out Hout. rewrite Heq in Hout.
    destruct (dict_lookup "N" d); [|discriminate].
    injection Hout as <-. simpl. rewrite dict_lookup_update_eq. reflexivity.
  - intros n HN. rewrite Heq, HN. eexists. split; [reflexivity|].
    simpl. rewrite dict_lookup_update_eq. split; [reflexivity|]. split; reflexivity.
Qed.

(** C3. A snapshot frame whose field ["R"] is not base64 makes
    [_transform_raw_message] raise: the decoding fails, [_decode_message]
    answers [{}], and the lookup of ["M"] in it raises [KeyError]; and a
    frame that [ujson.loads] rejects raises what [ujson.loads] raised. *)
Theorem transform_raw_message_raises_on_malformed_frame (raw : string) :
  transform_loaded a2b_base64 decompress bytes_decode ujson_loads
    (JDict [("R"%string, JStr "!")]) = Raise KeyError
  /\ _transform_raw_message a2b_base64 decompress bytes_decode ujson_loads raw
     = match ujson_loads raw with
       | Ok msg => transform_loaded a2b_base64 decompress bytes_decode ujson_loads msg
       | Raise e => Raise e
       end.
Proof.
  split; [reflexivity|].
  unfold _transform_raw_message. destruct (ujson_loads raw); reflexivity.
Qed.

End DecoderFacts.

(** ** The per-instrument loop *)

Lemma popleft_while_over_drop {A : Type} (size : nat) (w : list A) :
  popleft_while_over size w = drop (length w - size) w.
Proof.
  induction w as [|x w IH]; [reflexivity|].
  cbn [popleft_while_over].
  destruct (Nat.ltb_spec size (length (x :: w))) as [Hover|Hfits].
  - rewrite IH. simpl in Hover. simpl length.
    replace (S (length w) - size)%nat with (S (length w - size)) by lia.
    reflexivity.
  - replace (length (x :: w) - size)%nat with 0%nat by lia. reflexivity.
Qed.

Lemma length_popleft_while_over {A : Type} (size : nat) (w : list A) :
  (length (popleft_while_over size w) <= size)%nat.
Proof. rewrite popleft_while_over_drop, length_drop. lia. Qed.

Lemma deque_append_drop {A : Type} (maxlen : nat) (d : list A) (x : A) :
  (length d <= maxlen)%nat ->
  deque_append maxlen d x = drop (length (d ++ [x]) - maxlen) (d ++ [x]).
Proof.
  intros Hlen. unfold deque_append. rewrite length_app. simpl length.
  destruct (Nat.ltb_spec (length d) maxlen) as [Hroom|Hfull].
  - replace (length d + 1 - maxlen)%nat with 0%nat by lia. reflexivity.
  - replace (length d + 1 - maxlen)%nat with 1%nat by lia.
    destruct (d ++ [x]); reflexivity.
Qed.

(** A bounded deque holds the newest [maxlen] of what was appended. *)
Lemma foldl_deque_append {A : Type} (maxlen : nat) (msgs : list A) :
  forall d : list A,
    (length d <= maxlen)%nat ->
    foldl (deque_append maxlen) d msgs
    = drop (length (d ++ msgs) - maxlen) (d ++ msgs).
Proof.
  induction msgs as [|x msgs IH]; intros d Hlen; simpl.
  - rewrite app_nil_r. replace (length d - maxlen)%nat with 0%nat by lia.
    reflexivity.
  - rewrite (deque_append_drop _ _ _ Hlen).
    rewrite IH by (rewrite length_drop; lia).
    rewrite <- drop_app_le by lia.
    rewrite drop_drop, <- app_assoc. simpl.
    f_equal. rewrite !length_app, length_drop, length_app. simpl. lia.
Qed.

Section TrackerFacts.

Variable PAST_DIFF_WINDOW_SIZE : nat.
Context {OrderBook : Type} `{!OrderBookOps OrderBook}.

(** The window is trimmed, and never outgrows its size, in every turn. *)
Lemma process_message_window (now : Z) (message : OrderBookMessage)
    (st : TrackState) :
  (length (past_diffs_window st) <= PAST_DIFF_WINDOW_SIZE)%nat ->
  match process_message PAST_DIFF_WINDOW_SIZE now message st with
  | Suspended => False
  | Went_on st' | Ended _ st' =>
      (length (past_diffs_window st') <= PAST_DIFF_WINDOW_SIZE)%nat
  end.
Proof.
  intros Hlen. unfold process_message, process_diff, process_snapshot, handle.
  destruct (type message); simpl.
  - destruct (apply_snapshot _ _ _ _) as [book [e|]]; simpl;
      [destruct (is_Exception e)|]; exact Hlen.
  - destruct (apply_diffs _ _ _ _) as [book [e|]]; simpl;
      [destruct (is_Exception e); exact Hlen|].
    apply length_popleft_while_over.
  - exact Hlen.
Qed.

Lemma track_run_window (clock : list Z) :
  forall st : TrackState,
    (length (past_diffs_window st) <= PAST_DIFF_WINDOW_SIZE)%nat ->
    (length (past_diffs_window (track_run PAST_DIFF_WINDOW_SIZE clock st)) <= PAST_DIFF_WINDOW_SIZE)%nat.
Proof.
  induction clock as [|now clock IH]; intros st Hlen; simpl; [exact Hlen|].
  unfold track_turn.
  destruct (saved_messages st) as [|m rest] eqn:Hsaved.
  - destruct (message_queue st) as [|m rest] eqn:Hqueue; [exact Hlen|].
    pose proof (process_message_window now m (take_queued rest st) Hlen) as Hstep.
    destruct (process_message PAST_DIFF_WINDOW_SIZE now m (take_queued rest st)); [contradiction|now apply IH|assumption].
  - pose proof (process_message_window now m (take_saved rest st) Hlen) as Hstep.
    destruct (process_message PAST_DIFF_WINDOW_SIZE now m (take_saved rest st)); [contradiction|now apply IH|assumption].
Qed.

(** C6. The saved-message deque of an instrument never holds more than its
    1000 items, and holds the newest of what was appended to it; the window
    of past diffs never holds more than [PAST_DIFF_WINDOW_SIZE] messages in
    any run of the loop, and a diff that is applied enters it at the back
    while the oldest ones leave at the front. *)
Theorem replay_buffers_are_bounded_and_drop_oldest :
  (forall msgs : list OrderBookMessage,
      let d := foldl (deque_append SAVED_MESSAGE_MAXLEN) [] msgs in
      (length d <= SAVED_MESSAGE_MAXLEN)%nat
      /\ d = drop (length msgs - SAVED_MESSAGE_MAXLEN) msgs)
  /\ (forall clock saved queue book now,
         (length (past_diffs_window (track_run PAST_DIFF_WINDOW_SIZE clock (start_tracking saved queue book now)))
          <= PAST_DIFF_WINDOW_SIZE)%nat)
  /\ (forall now message st,
         type message = DIFF ->
         (apply_diffs (order_book st) (bids message) (asks message)
            (timestamp message)).2 = None ->
         exists st',
           process_message PAST_DIFF_WINDOW_SIZE now message st = Went_on st'
           /\ past_diffs_window st'
              = drop (length (past_diffs_window st ++ [message]) - PAST_DIFF_WINDOW_SIZE)
                  (past_diffs_window st ++ [message])).
Proof.
  split; [|split].
  - intros msgs d.
    assert (Hd : d = drop (length msgs - SAVED_MESSAGE_MAXLEN) msgs).
    { unfold d. rewrite foldl_deque_append by (simpl; lia). reflexivity. }
    split; [|exact Hd]. rewrite Hd, length_drop. lia.
  - intros clock saved queue book now. apply track_run_window. simpl. lia.
  - intros now message st Htype Hquiet.
    unfold process_message, process_diff. rewrite Htype. simpl.
    destruct (apply_diffs _ _ _ _) as [book raised]. simpl in Hquiet. subst raised.
    eexists. split; [reflexivity|]. simpl. apply popleft_while_over_drop.
Qed.

(** A turn takes a saved message if there is one, else a queued one. *)
Lemma track_turn_saved_first (now : Z) (st : TrackState)
    (message : OrderBookMessage) (rest : list OrderBookMessage) :
  saved_messages st = message :: rest ->
  track_turn PAST_DIFF_WINDOW_SIZE now st = process_message PAST_DIFF_WINDOW_SIZE now message (take_saved rest st).
Proof. intros Hsaved. unfold track_turn. rewrite Hsaved. reflexivity. Qed.

(** A diff on which [apply_diffs] raises nothing. *)
Lemma process_diff_applies (now : Z) (message : OrderBookMessage) (st : TrackState) :
  type message = DIFF ->
  (apply_diffs (order_book st) (bids message) (asks message) (timestamp message)).2
  = None ->
  exists st',
    process_message PAST_DIFF_WINDOW_SIZE now message st = Went_on st'
    /\ order_book st'
       = (apply_diffs (order_book st) (bids message) (asks message)
            (timestamp message)).1
    /\ saved_messages st' = saved_messages st
    /\ message_queue st' = message_queue st
    /\ past_diffs_window st'
       = popleft_while_over PAST_DIFF_WINDOW_SIZE (past_diffs_window st ++ [message]).
Proof.
  intros Htype Hquiet.
  unfold process_message, process_diff. rewrite Htype. simpl.
  destruct (apply_diffs _ _ _ _) as [book raised]. simpl in *. subst raised.
  eexists. split; [reflexivity|]. simpl.
  split; [reflexivity|]. split; [reflexivity|]. split; reflexivity.
Qed.


Lemma track_run_saved_diffs (clock : list Z) :
  forall st : TrackState,
    (forall b bs as_ t, (apply_diffs b bs as_ t).2 = None) ->
    Forall (fun m => type m = DIFF) (saved_messages st) ->
    length clock = length (saved_messages st) ->
    order_book (track_run PAST_DIFF_WINDOW_SIZE clock st) = apply_in_order (order_book st) (saved_messages st)
    /\ saved_messages (track_run PAST_DIFF_WINDOW_SIZE clock st) = []
    /\ message_queue (track_run PAST_DIFF_WINDOW_SIZE clock st) = message_queue st.
Proof.
  induction clock as [|now clock IH]; intros st Hquiet Hdiffs Hlen.
  - destruct (saved_messages st) eqn:Hsaved; [|discriminate].
    simpl. rewrite Hsaved. split; [reflexivity|]. split; reflexivity.
  - destruct (saved_messages st) as [|m rest] eqn:Hsaved; [discriminate|].
    inversion Hdiffs as [|? ? Hm Hrest]; subst.
    cbn [track_run]. rewrite (track_turn_saved_first _ _ _ _ Hsaved).
    destruct (process_diff_applies now m (take_saved rest st) Hm (Hquiet _ _ _ _))
      as (st' & Hturn & Hbook & Hsaved' & Hqueue' & _).
    rewrite Hturn.
    simpl in Hsaved', Hqueue', Hbook.
    destruct (IH st' Hquiet) as (Hb & Hs & Hq).
    + rewrite Hsaved'. exact Hrest.
    + rewrite Hsaved'. simpl in Hlen. congruence.
    + rewrite Hb, Hs, Hq, Hsaved', Hqueue', Hbook.
      split; [reflexivity|]. split; reflexivity.
Qed.

(** C1 (as the code has it). The loop has no state in which diffs wait for
    a snapshot and it compares no tokens.  Saved messages are taken before
    queued ones; a diff taken is applied to the book at once and then joins
    the window; saved diffs are all applied, in the order in which they were
    saved; a snapshot is applied and leaves the saved messages and the
    window as they are. *)
Theorem diffs_are_applied_as_they_come :
  (forall now st message rest,
      saved_messages st = message :: rest ->
      track_turn PAST_DIFF_WINDOW_SIZE now st = process_message PAST_DIFF_WINDOW_SIZE now message (take_saved rest st))
  /\ (forall now message st,
         type message = DIFF ->
         (apply_diffs (order_book st) (bids message) (asks message)
            (timestamp message)).2 = None ->
         exists st',
           process_message PAST_DIFF_WINDOW_SIZE now message st = Went_on st'
           /\ order_book st'
              = (apply_diffs (order_book st) (bids message) (asks message)
                   (timestamp message)).1
           /\ saved_messages st' = saved_messages st
           /\ message_queue st' = message_queue st
           /\ past_diffs_window st'
              = popleft_while_over PAST_DIFF_WINDOW_SIZE
                  (past_diffs_window st ++ [message]))
  /\ (forall clock st,
         (forall b bs as_ t, (apply_diffs b bs as_ t).2 = None) ->
         Forall (fun m => type m = DIFF) (saved_messages st) ->
         length clock = length (saved_messages st) ->
         order_book (track_run PAST_DIFF_WINDOW_SIZE clock st) = apply_in_order (order_book st) (saved_messages st)
         /\ saved_messages (track_run PAST_DIFF_WINDOW_SIZE clock st) = []
         /\ message_queue (track_run PAST_DIFF_WINDOW_SIZE clock st) = message_queue st)
  /\ (forall now message st,
         type message = SNAPSHOT ->
         match process_message PAST_DIFF_WINDOW_SIZE now message st with
         | Suspended => False
         | Went_on st' | Ended _ st' =>
             order_book st'
             = (apply_snapshot (order_book st) (bids message) (asks message)
                  (timestamp message)).1
             /\ saved_messages st' = saved_messages st
             /\ past_diffs_window st' = past_diffs_window st
         end).
Proof.
  split; [exact track_turn_saved_first|].
  split; [exact process_diff_applies|].
  split; [intros clock st; apply track_run_saved_diffs|].
  intros now message st Htype.
  unfold process_message, process_snapshot, handle. rewrite Htype. simpl.
  destruct (apply_snapshot _ _ _ _) as [book [e|]]; simpl;
    [destruct (is_Exception e); simpl|];
    (split; [reflexivity|]; split; reflexivity).
Qed.

End TrackerFacts.

(** C2 (as the code has it). A diff is applied whatever its token.  The loop
    compares no tokens: whatever order book it drives, the book after the
    turn is the one [apply_diffs] leaves for the rows and the token of the
    message; and on the book of the data model the rows go into the book and
    the last-applied token becomes the token of the message, also when that
    token is not above the one the book had. *)
Theorem diff_is_applied_whatever_its_token :
  (forall (OB : Type) (ops : OrderBookOps OB) (size : nat) (now : Z)
          (message : OrderBookMessage) (st : @TrackState OB),
      type message = DIFF ->
      match process_message size now message st with
      | Suspended => False
      | Went_on st' | Ended _ st' =>
          order_book st'
          = (apply_diffs (order_book st) (bids message) (asks message)
               (timestamp message)).1
      end)
  /\ (forall (size : nat) (now : Z) (message : OrderBookMessage)
             (st : @TrackState SpecOrderBook),
         type message = DIFF ->
         exists st',
           process_message size now message st = Went_on st'
           /\ bid_book (order_book st')
              = foldl apply_row (bid_book (order_book st)) (bids message)
           /\ ask_book (order_book st')
              = foldl apply_row (ask_book (order_book st)) (asks message)
           /\ last_applied (order_book st') = timestamp message).
Proof.
  split.
  - intros OB ops size now message st Htype.
    unfold process_message, process_diff, handle. rewrite Htype. simpl.
    destruct (apply_diffs _ _ _ _) as [book [e|]]; simpl;
      [destruct (is_Exception e)|]; reflexivity.
  - intros size now message st Htype.
    unfold process_message, process_diff. rewrite Htype. simpl.
    eexists. split; [reflexivity|]. simpl.
    split; [reflexivity|]. split; reflexivity.
Qed.

(** ** The tracking-set reconciler *)

Section RefreshFacts.

Context {OrderBook ActiveOrderTracker : Type}.

Local Abbreviation tracker := (@FtxOrderBookTracker OrderBook ActiveOrderTracker).
Local Abbreviation entry := (@FtxOrderBookTrackerEntry OrderBook ActiveOrderTracker).


Lemma same_buffers_trans (a b c : tracker) :
  same_buffers a b -> same_buffers b c -> same_buffers a c.
Proof.
  intros (Hs1 & Hp1 & m1 & Hl1) (Hs2 & Hp2 & m2 & Hl2).
  split; [congruence|]. split; [congruence|].
  exists (m1 ++ m2). rewrite Hl2, Hl1. symmetry. apply app_assoc.
Qed.

Lemma start_one_spec (available_pairs : gmap string entry)
    (trading_pair : string) (self : tracker) :
  is_Some (available_pairs !! trading_pair) ->
  exists self',
    start_one available_pairs trading_pair self = Ok self'
    /\ tracked self' trading_pair
    /\ (forall k, k <> trading_pair -> entries self' k = entries self k)
    /\ same_buffers self self'.
Proof.
  intros [e He]. unfold start_one. rewrite He.
  eexists. split; [reflexivity|]. split; [|split].
  - unfold tracked. simpl. rewrite !lookup_insert_eq.
    split; [|split; [|split]]; eexists; reflexivity.
  - intros k Hk. unfold entries. simpl.
    rewrite !lookup_insert_ne by congruence. reflexivity.
  - split; [reflexivity|]. split; [reflexivity|]. eexists. reflexivity.
Qed.

Lemma tracked_entries (self self' : tracker) (k : string) :
  entries self' k = entries self k -> tracked self k -> tracked self' k.
Proof.
  unfold entries, tracked. intros Heq. injection Heq as -> -> -> ->. tauto.
Qed.

Lemma for_each_start_one (available_pairs : gmap string entry) (keys : list string) :
  forall self : tracker,
    Forall (fun k => is_Some (available_pairs !! k)) keys ->
    exists self',
      for_each (start_one available_pairs) keys self = Ok self'
      /\ (forall k, k ∈ keys -> tracked self' k)
      /\ (forall k, k ∉ keys -> entries self' k = entries self k)
      /\ same_buffers self self'.
Proof.
  induction keys as [|key keys IH]; intros self Hall.
  - exists self. split; [reflexivity|].
    split; [intros k Hk; inversion Hk|]. split; [reflexivity|].
    split; [reflexivity|]. split; [reflexivity|].
    exists []. symmetry. apply app_nil_r.
  - inversion Hall as [|? ? Hkey Hrest]; subst.
    destruct (start_one_spec available_pairs key self Hkey)
      as (s1 & Hs1 & Htracked1 & Hframe1 & Hbuf1).
    destruct (IH s1 Hrest) as (s2 & Hs2 & Htracked2 & Hframe2 & Hbuf2).
    exists s2. split; [simpl; rewrite Hs1; exact Hs2|].
    split; [|split].
    + intros k Hk. destruct (decide (k ∈ keys)) as [Hin|Hnotin];
        [apply Htracked2; exact Hin|].
      apply elem_of_cons in Hk as [->|Hk]; [|contradiction].
      apply (tracked_entries s1); [apply Hframe2; exact Hnotin|exact Htracked1].
    + intros k Hk. apply not_elem_of_cons in Hk as [Hne Hnotin].
      rewrite (Hframe2 k Hnotin). apply Hframe1. exact Hne.
    + eapply same_buffers_trans; eassumption.
Qed.

Lemma stop_one_spec (trading_pair : string) (self : tracker) :
  tracked self trading_pair ->
  exists self',
    stop_one trading_pair self = Ok self'
    /\ released self' trading_pair
    /\ (forall k, k <> trading_pair -> entries self' k = entries self k)
    /\ same_buffers self self'
    /\ (forall t, _tracking_tasks self !! trading_pair = Some t ->
                  In (CancelTask (task_id t)) (tracker_log self')).
Proof.
  intros ([t Ht] & [b Hb] & [a Ha] & [q Hq]).
  unfold stop_one, del_key. rewrite Ht, Hb, Ha, Hq. simpl.
  eexists. split; [reflexivity|]. split; [|split; [|split]].
  - unfold released, entries. simpl. rewrite !lookup_delete_eq. reflexivity.
  - intros k Hk. unfold entries. simpl.
    rewrite !lookup_delete_ne by congruence. reflexivity.
  - split; [reflexivity|]. split; [reflexivity|]. eexists. reflexivity.
  - intros t' Ht'. simpl. apply in_or_app. right. left. congruence.
Qed.

Lemma for_each_stop_one (keys : list string) :
  NoDup keys ->
  forall self : tracker,
    Forall (tracked self) keys ->
    exists self',
      for_each stop_one keys self = Ok self'
      /\ (forall k, k ∈ keys -> released self' k)
      /\ (forall k, k ∉ keys -> entries self' k = entries self k)
      /\ same_buffers self self'
      /\ (forall k t, k ∈ keys -> _tracking_tasks self !! k = Some t ->
                      In (CancelTask (task_id t)) (tracker_log self')).
Proof.
  induction 1 as [|key keys Hfresh Hnodup IH]; intros self Hall.
  - exists self. split; [reflexivity|].
    split; [intros k Hk; inversion Hk|]. split; [reflexivity|].
    split; [|intros k t Hk; inversion Hk].
    split; [reflexivity|]. split; [reflexivity|].
    exists []. symmetry. apply app_nil_r.
  - inversion Hall as [|? ? Hkey Hrest]; subst.
    destruct (stop_one_spec key self Hkey)
      as (s1 & Hs1 & Hgone1 & Hframe1 & Hbuf1 & Hcancel1).
    assert (Hrest1 : Forall (tracked s1) keys).
    { rewrite Forall_forall in Hrest |- *. intros k Hk.
      apply (tracked_entries self); [|apply Hrest; exact Hk].
      apply Hframe1. intros ->. contradiction. }
    destruct (IH s1 Hrest1) as (s2 & Hs2 & Hgone2 & Hframe2 & Hbuf2 & Hcancel2).
    exists s2. split; [simpl; rewrite Hs1; exact Hs2|].
    split; [|split; [|split]].
    + intros k Hk. apply elem_of_cons in Hk as [->|Hk]; [|apply Hgone2; exact Hk].
      unfold released. rewrite (Hframe2 key Hfresh). exact Hgone1.
    + intros k Hk. apply not_elem_of_cons in Hk as [Hne Hnotin].
      rewrite (Hframe2 k Hnotin). apply Hframe1. exact Hne.
    + eapply same_buffers_trans; eassumption.
    + intros k t Hk Ht. apply elem_of_cons in Hk as [->|Hk].
      * destruct Hbuf2 as (_ & _ & more & Hlog). rewrite Hlog.
        apply in_or_app. left. apply Hcancel1. exact Ht.
      * apply (Hcancel2 k t Hk).
        assert (Hne : k <> key) by (intros ->; contradiction).
        pose proof (Hframe1 k Hne) as Heq. unfold entries in Heq.
        injection Heq as Htasks _ _ _. rewrite Htasks. exact Ht.
Qed.

Lemma elem_of_tracking_trading_pair (self : tracker) (k : string) :
  k ∈ tracking_trading_pair self
  <-> exists t, _tracking_tasks self !! k = Some t /\ done t = false.
Proof.
  unfold tracking_trading_pair. rewrite elem_of_dom. unfold is_Some.
  split.
  - intros [t Ht]. apply map_lookup_filter_Some in Ht as [Ht Hdone]. eauto.
  - intros (t & Ht & Hdone). exists t. apply map_lookup_filter_Some. split; assumption.
Qed.

(** The two passes of the refresh on a consistent tracker. *)
Lemma refresh_passes (available_pairs : gmap string entry) (self : tracker) :
  consistent self ->
  let added := elements (new_trading_pair available_pairs self) in
  let removed := elements (deleted_trading_pair available_pairs self) in
  exists started self',
    for_each (start_one available_pairs) added self = Ok started
    /\ _refresh_tracking_tasks available_pairs self = Ok self'
    /\ (forall k, k ∈ added -> tracked started k)
    /\ (forall k, k ∉ added -> entries started k = entries self k)
    /\ (forall k, k ∈ removed -> entries started k = entries self k)
    /\ (forall k, k ∈ removed -> released self' k)
    /\ (forall k, k ∉ removed -> entries self' k = entries started k)
    /\ same_buffers self self'
    /\ (forall k t, k ∈ removed -> _tracking_tasks self !! k = Some t ->
                    In (CancelTask (task_id t)) (tracker_log self')).
Proof.
  intros Hcons added removed.
  destruct (for_each_start_one available_pairs added self)
    as (started & Hstart & Htracked1 & Hframe1 & Hbuf1).
  { apply Forall_forall. intros k Hk. apply elem_of_elements in Hk.
    unfold new_trading_pair in Hk.
    apply elem_of_difference in Hk as [Hk _]. apply elem_of_dom in Hk. exact Hk. }
  assert (Hkept : forall k, k ∈ removed -> entries started k = entries self k).
  { intros k Hk. apply Hframe1. unfold added, removed in *.
    rewrite elem_of_elements in Hk |- *.
    unfold new_trading_pair. unfold deleted_trading_pair in Hk.
    intros Hin. apply elem_of_difference in Hin as [Hin _].
    apply elem_of_difference in Hk as [_ Hk]. contradiction. }
  destruct (for_each_stop_one removed (NoDup_elements _) started)
    as (self' & Hstop & Hgone & Hframe2 & Hbuf2 & Hcancel).
  { apply Forall_forall. intros k Hk.
    apply (tracked_entries self); [apply Hkept; exact Hk|].
    apply elem_of_elements in Hk. unfold deleted_trading_pair in Hk.
    apply elem_of_difference in Hk as [Hk _].
    apply elem_of_tracking_trading_pair in Hk as (t & Ht & _).
    assert (Htask : is_Some (_tracking_tasks self !! k)) by (exists t; exact Ht).
    destruct (Hcons k Htask) as (Hb & Ha & Hq).
    split; [exact Htask|]. split; [exact Hb|]. split; assumption. }
  exists started, self'.
  split; [exact Hstart|].
  split; [unfold _refresh_tracking_tasks; fold added; fold removed;
          rewrite Hstart; exact Hstop|].
  split; [exact Htracked1|]. split; [exact Hframe1|]. split; [exact Hkept|].
  split; [exact Hgone|]. split; [exact Hframe2|].
  split; [eapply same_buffers_trans; eassumption|].
  intros k t Hk Ht. apply (Hcancel k t Hk).
  pose proof (Hkept k Hk) as Heq. unfold entries in Heq.
  injection Heq as Htasks _ _ _. rewrite Htasks. exact Ht.
Qed.

(** The tracker is consistent when it is built and stays so under the
    refresh. *)
Lemma init_tracker_consistent : consistent (init_tracker : tracker).
Proof. intros k [t Ht]. simpl in Ht. rewrite lookup_empty in Ht. discriminate. Qed.

Lemma refresh_preserves_consistent
    (available_pairs : gmap string entry) (self self' : tracker) :
  consistent self ->
  _refresh_tracking_tasks available_pairs self = Ok self' ->
  consistent self'.
Proof.
  intros Hcons Hrefresh.
  destruct (refresh_passes available_pairs self Hcons)
    as (started & self'' & _ & Hrefresh' & Htracked1 & Hframe1 & _ & Hgone & Hframe2 & _).
  rewrite Hrefresh in Hrefresh'. injection Hrefresh' as <-.
  intros k Htask.
  destruct (decide (k ∈ elements (deleted_trading_pair available_pairs self)))
    as [Hremoved|Hstays].
  - pose proof (Hgone k Hremoved) as Hrel. unfold released, entries in Hrel.
    injection Hrel as Hnone _ _ _. rewrite Hnone in Htask.
    destruct Htask as [t Ht]. discriminate.
  - assert (Htracked : tracked self' k).
    { apply (tracked_entries started); [apply Hframe2; exact Hstays|].
      destruct (decide (k ∈ elements (new_trading_pair available_pairs self)))
        as [Hadded|Hold]; [apply Htracked1; exact Hadded|].
      pose proof (Hframe1 k Hold) as Heq1.
      pose proof (Hframe2 k Hstays) as Heq2.
      assert (Htask0 : is_Some (_tracking_tasks self !! k)).
      { unfold entries in Heq1, Heq2.
        injection Heq1 as H1 _ _ _. injection Heq2 as H2 _ _ _.
        rewrite <- H1, <- H2. exact Htask. }
      apply (tracked_entries self); [exact Heq1|].
      destruct (Hcons k Htask0) as (Hb & Ha & Hq).
      split; [exact Htask0|]. split; [exact Hb|]. split; assumption. }
    destruct Htracked as (_ & Hb & Ha & Hq). split; [exact Hb|]. split; assumption.
Qed.

(** C5 (as the code has it). On a tracker whose tasks all have their book,
    order tracker and queue, the refresh runs to its end.  For every
    instrument it removes, the task is cancelled and the entries of the
    instrument in the dictionaries of tasks, order books, order trackers and
    inbound queues are gone; the removal pass leaves the entries of every
    other instrument as the pass that starts the new instruments left them,
    which for an instrument that is not new is as they were; and the
    dictionaries of saved messages and of past diffs are not touched. *)
Theorem refresh_releases_what_it_tracks
    (available_pairs : gmap string entry) (self : tracker) :
  consistent self ->
  exists started self',
    for_each (start_one available_pairs)
      (elements (new_trading_pair available_pairs self)) self = Ok started
    /\ _refresh_tracking_tasks available_pairs self = Ok self'
    /\ (forall trading_pair t,
           trading_pair ∈ deleted_trading_pair available_pairs self ->
           _tracking_tasks self !! trading_pair = Some t ->
           In (CancelTask (task_id t)) (tracker_log self')
           /\ released self' trading_pair)
    /\ (forall trading_pair,
           trading_pair ∉ deleted_trading_pair available_pairs self ->
           entries self' trading_pair = entries started trading_pair)
    /\ (forall trading_pair,
           trading_pair ∉ deleted_trading_pair available_pairs self ->
           trading_pair ∉ new_trading_pair available_pairs self ->
           entries self' trading_pair = entries self trading_pair)
    /\ _saved_message_queues self' = _saved_message_queues self
    /\ _past_diffs_windows self' = _past_diffs_windows self.
Proof.
  intros Hcons.
  destruct (refresh_passes available_pairs self Hcons)
    as (started & self' & Hstart & Hrefresh & _ & Hframe1 & _ & Hgone & Hframe2
        & Hbuf & Hcancel).
  exists started, self'.
  split; [exact Hstart|]. split; [exact Hrefresh|].
  split; [|split; [|split; [|split]]].
  - intros k t Hk Ht. apply elem_of_elements in Hk.
    split; [apply (Hcancel k t Hk Ht)|apply Hgone; exact Hk].
  - intros k Hk. apply Hframe2. rewrite elem_of_elements. exact Hk.
  - intros k Hk Hnew. rewrite (Hframe2 k) by (rewrite elem_of_elements; exact Hk).
    apply Hframe1. rewrite elem_of_elements. exact Hnew.
  - destruct Hbuf as (Hsaved & _). exact Hsaved.
  - destruct Hbuf as (_ & Hpast & _). exact Hpast.
Qed.

End RefreshFacts.

(** ** The code on sample inputs *)

(** C1, counterexample. A diff that reaches the loop before any snapshot is
    applied to the empty book at once and is not put among the saved
    messages; and diffs saved before a snapshot arrives are applied first,
    in the order saved, the stale one too, and the snapshot then replaces
    the book, so that the diffs above its token are lost. *)
Lemma diff_before_snapshot_is_applied_not_buffered :
  match track_turn 32 0 (start_tracking [] [diff_5] empty_book 0) with
  | Went_on st' =>
      order_book st' <> empty_book
      /\ bid_book (order_book st') !! 100 = Some 1%N
      /\ last_applied (order_book st') = 5
      /\ ~ In diff_5 (saved_messages st')
  | _ => False
  end
  /\ (let st := start_tracking [diff_12; diff_5; diff_11] [snapshot_10] empty_book 0 in
      bid_book (order_book (track_run 32 [0; 0] st)) !! 100 = Some 1%N
      /\ last_applied (order_book (track_run 32 [0; 0] st)) = 5
      /\ saved_messages (track_run 32 [0; 0; 0] st) = []
      /\ message_queue (track_run 32 [0; 0; 0] st) = [snapshot_10]
      /\ bid_book (order_book (track_run 32 [0; 0; 0; 0] st)) !! 101 = None
      /\ bid_book (order_book (track_run 32 [0; 0; 0; 0] st)) !! 102 = None
      /\ last_applied (order_book (track_run 32 [0; 0; 0; 0] st)) = 10).
Proof.
  vm_compute. split; [|repeat split].
  split; [discriminate|]. split; [reflexivity|]. split; [reflexivity|].
  intros [].
Qed.

(** C2, counterexample. The book holds the snapshot with token 100 and a bid
    at 100; the diff with token 99 removes the bid and sets the token of the
    book back to 99. *)
Lemma stale_diff_changes_the_book :
  let st := start_tracking [] [snapshot_100; diff_99] empty_book 0 in
  bid_book (order_book (track_run 32 [0] st)) !! 100 = Some 1%N
  /\ last_applied (order_book (track_run 32 [0] st)) = 100
  /\ message_queue (track_run 32 [0] st) = [diff_99]
  /\ timestamp diff_99 <= last_applied (order_book (track_run 32 [0] st))
  /\ bid_book (order_book (track_run 32 [0; 0] st)) !! 100 = None
  /\ last_applied (order_book (track_run 32 [0; 0] st)) = 99
  /\ order_book (track_run 32 [0; 0] st) <> order_book (track_run 32 [0] st).
Proof.
  vm_compute. repeat split; try discriminate.
Qed.

(** C5, counterexample. BTC-USD is tracked and no longer available: the
    refresh removes it, and its saved messages and its window of past diffs
    are still in the tracker afterwards. *)
Lemma refresh_keeps_the_buffers_of_a_removed_instrument :
  "BTC-USD"%string ∈ deleted_trading_pair ∅ sample_tracker
  /\ match _refresh_tracking_tasks ∅ sample_tracker with
     | Ok self' =>
         _order_books self' !! "BTC-USD"%string = None
         /\ _tracking_message_queues self' !! "BTC-USD"%string = None
         /\ _saved_message_queues self' !! "BTC-USD"%string = Some [diff_5]
         /\ _past_diffs_windows self' !! "BTC-USD"%string = Some [diff_5]
         /\ _saved_message_queues self' !! "BTC-USD"%string <> None
     | Raise _ => False
     end.
Proof.
  split.
  - apply elem_of_difference. split; [|apply not_elem_of_empty].
    apply elem_of_tracking_trading_pair. eexists. split; reflexivity.
  - vm_compute. repeat split. discriminate.
Qed.


(** ** The theorems on sample inputs *)

Lemma transform_raw_message_normalizes_pair_witness :
  exists out,
    _transform_raw_message sample_a2b sample_decompress sample_bytes_decode
      sample_loads "frame" = Ok out
    /\ py_getitem (results out) "M" = Ok (JStr "BTC-USD")
    /\ nonce out = JNum 7 /\ msg_type out = JStr "snapshot".
Proof.
  assert (Hq : no_char "-" "USD") by (repeat constructor; discriminate).
  assert (Hb : no_char "-" "BTC") by (repeat constructor; discriminate).
  assert (Hframe : carries sample_frame "snapshot" (JStr "AAAA")).
  { left. split; [reflexivity|]. split; reflexivity. }
  destruct (transform_raw_message_normalizes_pair
              sample_a2b sample_decompress sample_bytes_decode sample_loads
              "frame" sample_frame "snapshot" (JStr "AAAA") sample_payload
              "USD" "BTC" eq_refl Hframe eq_refl eq_refl Hq Hb) as [_ Hreturns].
  exact (Hreturns (JNum 7) eq_refl).
Defined.

Lemma replay_buffers_are_bounded_and_drop_oldest_witness :
  exists st',
    process_message 2 0 diff_12 full_window_state = Went_on st'
    /\ past_diffs_window st' = [diff_11; diff_12].
Proof.
  destruct (replay_buffers_are_bounded_and_drop_oldest 2 (OrderBook := SpecOrderBook))
    as (_ & _ & Hwindow).
  exact (Hwindow 0 diff_12 full_window_state eq_refl eq_refl).
Defined.

Lemma diffs_are_applied_as_they_come_witness :
  let st := start_tracking [diff_5; diff_11] [snapshot_10] empty_book 0 in
  order_book (track_run 2 [0; 0] st) = apply_in_order empty_book [diff_5; diff_11]
  /\ saved_messages (track_run 2 [0; 0] st) = []
  /\ message_queue (track_run 2 [0; 0] st) = [snapshot_10].
Proof.
  destruct (diffs_are_applied_as_they_come 2 (OrderBook := SpecOrderBook))
    as (_ & _ & Hrun & _).
  apply (Hrun [0; 0] (start_tracking [diff_5; diff_11] [snapshot_10] empty_book 0)).
  - intros b bs as_ t. reflexivity.
  - repeat constructor.
  - reflexivity.
Defined.

Lemma diff_is_applied_whatever_its_token_witness :
  exists st',
    process_message 32 0 diff_99
      (start_tracking [] [] (apply_snapshot empty_book [row 100 1] [] 100).1 0)
    = Went_on st'
    /\ bid_book (order_book st') = foldl apply_row {[ 100 := 1%N ]} [row 100 0]
    /\ ask_book (order_book st') = ∅
    /\ last_applied (order_book st') = 99.
Proof.
  destruct diff_is_applied_whatever_its_token as [_ Hbook].
  exact (Hbook 32%nat 0 diff_99
           (start_tracking [] [] (apply_snapshot empty_book [row 100 1] [] 100).1 0)
           eq_refl).
Defined.

Lemma sample_tracker_consistent : consistent sample_tracker.
Proof.
  intros trading_pair [t Ht].
  unfold sample_tracker in Ht. cbn [_tracking_tasks] in Ht.
  apply lookup_singleton_Some in Ht as [<- _].
  split; [|split]; eexists; reflexivity.
Qed.

Lemma refresh_releases_what_it_tracks_witness :
  exists started self',
    for_each (start_one ∅) (elements (new_trading_pair ∅ sample_tracker)) sample_tracker
    = Ok started
    /\ _refresh_tracking_tasks ∅ sample_tracker = Ok self'
    /\ released self' "BTC-USD"
    /\ In (CancelTask 0%nat) (tracker_log self')
    /\ _saved_message_queues self' = _saved_message_queues sample_tracker.
Proof.
  destruct (refresh_releases_what_it_tracks ∅ sample_tracker sample_tracker_consistent)
    as (started & self' & Hstart & Hrefresh & Hgone & _ & _ & Hsaved & _).
  exists started, self'.
  split; [exact Hstart|]. split; [exact Hrefresh|].
  assert (Hdel : "BTC-USD"%string ∈ deleted_trading_pair ∅ sample_tracker).
  { apply elem_of_difference. split; [|apply not_elem_of_empty].
    apply elem_of_tracking_trading_pair. eexists. split; reflexivity. }
  destruct (Hgone "BTC-USD"%string {| task_id := 0; done := false |} Hdel eq_refl)
    as [Hcancel Hreleased].
  split; [exact Hreleased|]. split; [exact Hcancel|exact Hsaved].
Defined.

(** * Further properties *)

(** ** Instrument names *)

Lemma split_on_app_sep (sep : ascii) (q s : string) :
  no_char sep q -> split_on sep (q +:+ String sep s) = q :: split_on sep s.
Proof.
  unfold no_char. induction q as [|c q IH]; simpl; intros Hq.
  - rewrite Ascii.eqb_refl. reflexivity.
  - inversion Hq as [|? ? Hc Hrest]; subst.
    apply Ascii.eqb_neq in Hc. rewrite Hc, (IH Hrest). reflexivity.
Qed.

Lemma split_on_head (sep : ascii) (s : string) :
  exists w ws, split_on sep s = w :: ws.
Proof.
  destruct (split_on sep s) as [|w ws] eqn:Hs; [|eauto].
  exfalso. exact (split_on_nonempty sep s Hs).
Qed.

(** Whatever follows a second hyphen is dropped by the exchange of the
    components. *)
Lemma swap_components_drops_rest (q b rest : string) :
  no_char "-" q -> no_char "-" b ->
  swap_components "-" (q +:+ "-" +:+ b +:+ "-" +:+ rest) = Ok (b +:+ "-" +:+ q).
Proof.
  intros Hq Hb. unfold swap_components, split_index.
  change (q +:+ "-" +:+ b +:+ "-" +:+ rest) with (q +:+ String "-" (b +:+ String "-" rest)).
  rewrite (split_on_app_sep _ _ _ Hq), (split_on_app_sep _ _ _ Hb).
  reflexivity.
Qed.

Lemma swap_components_no_hyphen (s : string) :
  no_char "-" s -> swap_components "-" s = Raise IndexError.
Proof.
  intros Hs. unfold swap_components, split_index.
  rewrite (split_on_no_sep _ _ Hs). reflexivity.
Qed.

(** Whatever [swap_components] returns has a separator in it. *)
Lemma swap_components_shape (sep : ascii) (s swapped : string) :
  swap_components sep s = Ok swapped ->
  exists second first, swapped = second +:+ "-" +:+ first.
Proof.
  unfold swap_components.
  destruct (split_index sep s 1) as [second|e]; simpl; [|discriminate].
  destruct (split_index sep s 0) as [first|e]; simpl; [|discriminate].
  intros Heq. injection Heq as <-. eauto.
Qed.

Section DecoderEdges.

Variable a2b_base64 : string -> result (list Byte.byte).
Variable decompress : list Byte.byte -> Z -> result (list Byte.byte).
Variable bytes_decode : list Byte.byte -> result string.
Variable ujson_loads : string -> result json.

(** X1. An instrument name with more than two hyphen-separated components
    loses all but the first two when the decoder normalizes it: the record
    returned carries the second and the first component, exchanged, and
    nothing of the rest. *)
Theorem transform_loaded_keeps_two_components
    (msg : json) (kind : string) (payload : json)
    (d : list (string * json)) (q b rest : string) (n : json) :
  carries msg kind payload ->
  _decode_message a2b_base64 decompress bytes_decode ujson_loads payload
  = Ok (JDict d) ->
  dict_lookup "M" d = Some (JStr (q +:+ "-" +:+ b +:+ "-" +:+ rest)) ->
  dict_lookup "N" d = Some n ->
  no_char "-" q -> no_char "-" b ->
  exists out,
    transform_loaded a2b_base64 decompress bytes_decode ujson_loads msg = Ok out
    /\ py_getitem (results out) "M" = Ok (JStr (b +:+ "-" +:+ q))
    /\ nonce out = n.
Proof.
  intros Hframe Hdec HM HN Hq Hb.
  rewrite (transform_loaded_carries a2b_base64 decompress bytes_decode ujson_loads
             _ _ _ Hframe).
  unfold decode_branch. rewrite Hdec. simpl. rewrite HM. simpl.
  rewrite (swap_components_drops_rest _ _ _ Hq Hb). simpl.
  rewrite dict_lookup_update_ne by discriminate. rewrite HN.
  eexists. split; [reflexivity|]. simpl.
  rewrite dict_lookup_update_eq. split; reflexivity.
Qed.

(** X2. What the decoder raises on a snapshot or delta frame whose payload
    decodes but is not as the normalization expects it: [AttributeError] when
    the payload is not a dictionary or its instrument is not a string,
    [KeyError] when it has no instrument or no nonce, [IndexError] when the
    instrument has no hyphen. *)
Theorem transform_loaded_rejects_odd_payloads
    (msg : json) (kind : string) (payload res : json) :
  carries msg kind payload ->
  _decode_message a2b_base64 decompress bytes_decode ujson_loads payload = Ok res ->
  (is_dict res = false ->
   transform_loaded a2b_base64 decompress bytes_decode ujson_loads msg
   = Raise AttributeError)
  /\ (forall d, res = JDict d ->
        (dict_lookup "M" d = None ->
         transform_loaded a2b_base64 decompress bytes_decode ujson_loads msg
         = Raise KeyError)
        /\ (forall v, dict_lookup "M" d = Some v ->
                      (forall s, v <> JStr s) ->
                      transform_loaded a2b_base64 decompress bytes_decode ujson_loads msg
                      = Raise AttributeError)
        /\ (forall s, dict_lookup "M" d = Some (JStr s) ->
                      no_char "-" s ->
                      transform_loaded a2b_base64 decompress bytes_decode ujson_loads msg
                      = Raise IndexError)
        /\ (forall s swapped, dict_lookup "M" d = Some (JStr s) ->
                      swap_components "-" s = Ok swapped ->
                      dict_lookup "N" d = None ->
                      transform_loaded a2b_base64 decompress bytes_decode ujson_loads msg
                      = Raise KeyError)).
Proof.
  intros Hframe Hdec.
  rewrite (transform_loaded_carries a2b_base64 decompress bytes_decode ujson_loads
             _ _ _ Hframe).
  unfold decode_branch. rewrite Hdec. simpl.
  split.
  - intros Hnot. destruct res; try reflexivity. discriminate.
  - intros d ->. simpl. split; [|split; [|split]].
    + intros HM. rewrite HM. reflexivity.
    + intros v HM Hv. rewrite HM. simpl.
      destruct v; try reflexivity. exfalso. exact (Hv s eq_refl).
    + intros s HM Hs. rewrite HM. simpl.
      rewrite (swap_components_no_hyphen _ Hs). reflexivity.
    + intros s swapped HM Hswap HN. rewrite HM. simpl. rewrite Hswap. simpl.
      rewrite dict_lookup_update_ne by discriminate. rewrite HN. reflexivity.
Qed.

(** The frames the decoder takes for neither a snapshot nor a delta. *)
Lemma is_snapshot_without_marker (d : list (string * json)) :
  (dict_lookup "R" d = None \/ exists b, dict_lookup "R" d = Some (JBool b)) ->
  _is_snapshot (JDict d) = Ok false.
Proof.
  unfold _is_snapshot. simpl. intros [->|[b ->]]; reflexivity.
Qed.

(** X3. A frame that is a dictionary without the full-book field (or with a
    boolean there, as in the answer to an invocation) and without market
    updates - none, an empty list, or a first update that is a dictionary
    whose method is not ["uE"] - is decoded to the record without type,
    nonce and results, and its payload is never looked at. *)
Theorem transform_loaded_ignores_other_frames (d : list (string * json)) :
  (dict_lookup "R" d = None \/ exists b, dict_lookup "R" d = Some (JBool b)) ->
  (dict_lookup "M" d = None
   \/ dict_lookup "M" d = Some (JList [])
   \/ exists d0 rest,
        dict_lookup "M" d = Some (JList (JDict d0 :: rest))
        /\ is_uE (default JNull (dict_lookup "M" d0)) = false) ->
  transform_loaded a2b_base64 decompress bytes_decode ujson_loads (JDict d)
  = Ok {| nonce := JNull; msg_type := JNull; results := JDict [] |}.
Proof.
  intros HR HM. unfold transform_loaded.
  rewrite (is_snapshot_without_marker d HR). simpl.
  unfold _is_market_delta. simpl.
  destruct HM as [->|[->|(d0 & rest & -> & Hmarker)]]; simpl; try reflexivity.
  rewrite Hmarker. reflexivity.
Qed.

(** What [normalize_pair] returns is a dictionary with a string that has a
    hyphen under ["M"], and with the other keys as they were. *)
Lemma normalize_pair_shape (res res' : json) :
  normalize_pair res = Ok res' ->
  exists d second first,
    res' = JDict d
    /\ dict_lookup "M" d = Some (JStr (second +:+ "-" +:+ first)).
Proof.
  unfold normalize_pair. destruct res; try discriminate. simpl.
  destruct (dict_lookup "M" d) as [m|]; simpl; [|discriminate].
  unfold py_swap. destruct m; try discriminate.
  destruct (swap_components "-" s) as [swapped|e] eqn:Hswap; simpl; [|discriminate].
  intros Heq. injection Heq as <-.
  destruct (swap_components_shape _ _ _ Hswap) as (second & first & ->).
  exists (dict_update "M" (JStr (second +:+ "-" +:+ first)) d), second, first.
  split; [reflexivity|]. apply dict_lookup_update_eq.
Qed.

Lemma decode_branch_shape (kind : string) (payload : json) (out : Output) :
  decode_branch a2b_base64 decompress bytes_decode ujson_loads kind payload = Ok out ->
  exists d second first,
    msg_type out = JStr kind
    /\ results out = JDict d
    /\ dict_lookup "M" d = Some (JStr (second +:+ "-" +:+ first))
    /\ dict_lookup "N" d = Some (nonce out).
Proof.
  unfold decode_branch.
  destruct (_decode_message _ _ _ _ payload) as [res|e]; simpl; [|discriminate].
  destruct (normalize_pair res) as [res'|e] eqn:Hnorm; simpl; [|discriminate].
  destruct (normalize_pair_shape _ _ Hnorm) as (d & second & first & -> & HM).
  simpl. destruct (dict_lookup "N" d) as [n|] eqn:HN; simpl; [|discriminate].
  intros Heq. injection Heq as <-. simpl.
  exists d, second, first. split; [reflexivity|]. split; [reflexivity|].
  split; [exact HM|exact HN].
Qed.

(** X4. Every record the decoder returns is either the record without type,
    nonce and results, or a record typed ["snapshot"] or ["update"] whose
    results are a dictionary carrying a string with a hyphen as instrument
    and, as ["N"], the nonce of the record. *)
Theorem transform_loaded_output_shape (msg : json) (out : Output) :
  transform_loaded a2b_base64 decompress bytes_decode ujson_loads msg = Ok out ->
  out = {| nonce := JNull; msg_type := JNull; results := JDict [] |}
  \/ exists kind d second first,
       (kind = "snapshot"%string \/ kind = "update"%string)
       /\ msg_type out = JStr kind
       /\ results out = JDict d
       /\ dict_lookup "M" d = Some (JStr (second +:+ "-" +:+ first))
       /\ dict_lookup "N" d = Some (nonce out).
Proof.
  unfold transform_loaded.
  destruct (_is_snapshot msg) as [[|]|e]; simpl; [| |discriminate].
  - destruct (py_getitem msg "R") as [r|e]; simpl; [|discriminate].
    intros Hout. right.
    destruct (decode_branch_shape _ _ _ Hout) as (d & second & first & H).
    exists "snapshot"%string, d, second, first. split; [left; reflexivity|exact H].
  - destruct (_is_market_delta msg) as [[|]|e]; simpl; [| |discriminate].
    + destruct (delta_payload msg) as [a0|e]; simpl; [|discriminate].
      intros Hout. right.
      destruct (decode_branch_shape _ _ _ Hout) as (d & second & first & H).
      exists "update"%string, d, second, first. split; [right; reflexivity|exact H].
    + intros Hout. injection Hout as <-. left. reflexivity.
Qed.

End DecoderEdges.

(** ** The stream listener *)

Lemma truthy_hyphenated (second first : string) :
  py_truthy (JStr (second +:+ "-" +:+ first)) = true.
Proof. destruct second; reflexivity. Qed.

Lemma wait_loop_fresh (n : nat) (arrivals : list (list (string * Slot)))
    (trading_pair : string) (invoke_timestamp : Z)
    (self : FtxAPIOrderBookDataSource) (s : Slot) :
  _snapshot_msg self !! trading_pair = Some s ->
  invoke_timestamp <= slot_timestamp s ->
  wait_loop (S n) arrivals trading_pair invoke_timestamp self
  = ((pop_slot trading_pair self).2, Ok (slot_content s)).
Proof.
  intros Hslot Hfresh. apply Z.leb_le in Hfresh.
  simpl. rewrite Hslot, Hfresh. reflexivity.
Qed.

Section ListenerFacts.

Variable a2b_base64 : string -> result (list Byte.byte).
Variable decompress : list Byte.byte -> Z -> result (list Byte.byte).
Variable bytes_decode : list Byte.byte -> result string.
Variable ujson_loads : string -> result json.
Variable snapshot_message_from_exchange : json -> json -> result OrderBookMessage.
Variable diff_message_from_exchange : json -> json -> result OrderBookMessage.

(** A typed record carries its instrument as a string with a hyphen. *)
Lemma typed_output_pair (raw : string) (out : Output) (kind : string) :
  _transform_raw_message a2b_base64 decompress bytes_decode ujson_loads raw = Ok out ->
  msg_type out = JStr kind ->
  exists d second first,
    results out = JDict d
    /\ dict_lookup "M" d = Some (JStr (second +:+ "-" +:+ first)).
Proof.
  unfold _transform_raw_message.
  destruct (ujson_loads raw) as [msg|e]; simpl; [|discriminate].
  unfold transform_loaded.
  destruct (_is_snapshot msg) as [[|]|e]; simpl; [| |discriminate].
  - destruct (py_getitem msg "R") as [r|e]; simpl; [|discriminate].
    intros Hout _.
    destruct (decode_branch_shape _ _ _ _ _ _ _ Hout) as (d & second & first & _ & H & HM & _).
    eauto.
  - destruct (_is_market_delta msg) as [[|]|e]; simpl; [| |discriminate].
    + destruct (delta_payload msg) as [a0|e]; simpl; [|discriminate].
      intros Hout _.
      destruct (decode_branch_shape _ _ _ _ _ _ _ Hout) as (d & second & first & _ & H & HM & _).
      eauto.
    + intros Hout Htype. injection Hout as <-. discriminate.
Qed.

(** X5. A snapshot frame is put on the snapshot queue, behind what is
    there, and stored as the slot of its normalized instrument with the time
    of its handling; the diff queue is left alone; and a request for a
    snapshot of that instrument made for any time up to then is answered at
    the first poll with the message of the frame. *)
Theorem dispatched_snapshot_answers_request
    (raw : string) (now : Z) (st : Listener) (out : Output)
    (message : OrderBookMessage) :
  _transform_raw_message a2b_base64 decompress bytes_decode ujson_loads raw = Ok out ->
  msg_type out = JStr "snapshot" ->
  snapshot_message_from_exchange (results out) (nonce out) = Ok message ->
  exists pair st',
    dispatch a2b_base64 decompress bytes_decode ujson_loads
      snapshot_message_from_exchange diff_message_from_exchange raw now st
    = (st', Ok tt)
    /\ py_getitem (results out) "M" = Ok (JStr pair)
    /\ snapshot_queue st' = snapshot_queue st ++ [message]
    /\ diff_queue st' = diff_queue st
    /\ _snapshot_msg (source st') !! pair
       = Some {| slot_timestamp := now; slot_content := message |}
    /\ forall arrivals invoke_timestamp,
         invoke_timestamp <= now ->
         (wait_for_snapshot arrivals pair invoke_timestamp (source st')).2 = Ok message
         /\ _snapshot_msg
              (wait_for_snapshot arrivals pair invoke_timestamp (source st')).1
            !! pair = None.
Proof.
  intros Hout Htype Hmsg.
  destruct (typed_output_pair raw out _ Hout Htype) as (d & second & first & Hres & HM).
  exists (second +:+ "-" +:+ first).
  unfold dispatch. rewrite Hout, Hres. cbn [py_get py_getitem]. rewrite HM.
  cbn [default from_option id]. rewrite truthy_hyphenated. cbn [negb].
  rewrite Htype.
  change (is_kind "snapshot" (JStr "snapshot")) with true.
  change (is_kind "update" (JStr "snapshot")) with false.
  cbv iota. unfold store_snapshot. rewrite Hmsg.
  eexists. split; [reflexivity|].
  split; [reflexivity|].
  split; [reflexivity|]. split; [reflexivity|].
  split; [cbn [source set_source _snapshot_msg set_snapshot_msg];
          apply lookup_insert_eq|].
  intros arrivals invoke_timestamp Hfresh.
  unfold wait_for_snapshot, SNAPSHOT_TIMEOUT.
  erewrite wait_loop_fresh;
    [|cbn [source set_source _snapshot_msg set_snapshot_msg]; apply lookup_insert_eq
     |exact Hfresh].
  split; [reflexivity|]. apply pop_slot_removes.
Qed.


Lemma same_but_slots_refl (self : FtxAPIOrderBookDataSource) : same_but_slots self self.
Proof. repeat (split; [reflexivity|]). reflexivity. Qed.

Lemma is_kind_exclusive (t : json) :
  is_kind "snapshot" t = true -> is_kind "update" t = false.
Proof.
  destruct t; simpl; try discriminate.
  intros Hs. apply String.eqb_eq in Hs. subst s. reflexivity.
Qed.

(** X6. A frame puts at most one message on the two queues taken together,
    behind the messages that are there; it closes nothing and warns of
    nothing; in the data source it changes at most the pending map, and
    that only when it puts a message on the snapshot queue. *)
Theorem dispatch_adds_at_most_one_message (raw : string) (now : Z) (st : Listener) :
  let st' := (dispatch a2b_base64 decompress bytes_decode ujson_loads
                snapshot_message_from_exchange diff_message_from_exchange
                raw now st).1 in
  same_but_slots (source st) (source st')
  /\ closed st' = closed st
  /\ warnings st' = warnings st
  /\ exists snapshots diffs,
       snapshot_queue st' = snapshot_queue st ++ snapshots
       /\ diff_queue st' = diff_queue st ++ diffs
       /\ (length snapshots + length diffs <= 1)%nat
       /\ (snapshots = [] -> _snapshot_msg (source st') = _snapshot_msg (source st)).
Proof.
  assert (Hsame : forall s : Listener,
             same_but_slots (source s) (source s)
             /\ closed s = closed s /\ warnings s = warnings s
             /\ exists snapshots diffs,
                  snapshot_queue s = snapshot_queue s ++ snapshots
                  /\ diff_queue s = diff_queue s ++ diffs
                  /\ (length snapshots + length diffs <= 1)%nat
                  /\ (snapshots = [] -> _snapshot_msg (source s) = _snapshot_msg (source s))).
  { intros s. split; [apply same_but_slots_refl|]. split; [reflexivity|].
    split; [reflexivity|]. exists [], [].
    rewrite !app_nil_r. split; [reflexivity|]. split; [reflexivity|].
    split; [simpl; lia|reflexivity]. }
  assert (Hone : forall (s : Listener) (m : OrderBookMessage) (slots : gmap string Slot),
             same_but_slots (source s) (set_snapshot_msg slots (source s))
             /\ exists snapshots diffs,
                  snapshot_queue s ++ [m] = snapshot_queue s ++ snapshots
                  /\ diff_queue s = diff_queue s ++ diffs
                  /\ (length snapshots + length diffs <= 1)%nat
                  /\ (snapshots = [] -> slots = _snapshot_msg (source s))).
  { intros s m slots. split; [repeat (split; [reflexivity|]); reflexivity|].
    exists [m], []. rewrite app_nil_r.
    split; [reflexivity|]. split; [reflexivity|].
    split; [simpl; lia|discriminate]. }
  unfold dispatch.
  destruct (_transform_raw_message _ _ _ _ raw) as [decoded|e]; [|apply Hsame].
  destruct (py_get (results decoded) "M" JNull) as [trading_pair|e]; [|apply Hsame].
  destruct (py_truthy trading_pair); simpl; [|apply Hsame].
  destruct (is_kind "snapshot" (msg_type decoded)) eqn:Hsnap.
  - rewrite (is_kind_exclusive _ Hsnap). unfold store_snapshot.
    destruct (snapshot_message_from_exchange _ _) as [m|e]; [|apply Hsame].
    destruct (Hone st m (_snapshot_msg (source st))) as [_ Hq].
    destruct trading_pair; simpl;
      try (split; [apply same_but_slots_refl|];
           split; [reflexivity|]; split; [reflexivity|];
           destruct Hq as (sn & df & H1 & H2 & H3 & _);
           exists sn, df; split; [exact H1|]; split; [exact H2|];
           split; [exact H3|reflexivity]).
    destruct (Hone st m (<[s := {| slot_timestamp := now; slot_content := m |}]>
                           (_snapshot_msg (source st)))) as [Hs Hq'].
    split; [exact Hs|]. split; [reflexivity|]. split; [reflexivity|]. exact Hq'.
  - destruct (is_kind "update" (msg_type decoded)); [|apply Hsame].
    unfold queue_diff.
    destruct (diff_message_from_exchange _ _) as [m|e]; [|apply Hsame].
    simpl. split; [apply same_but_slots_refl|]. split; [reflexivity|].
    split; [reflexivity|]. exists [], [m]. rewrite app_nil_r.
    split; [reflexivity|]. split; [reflexivity|]. split; [simpl; lia|reflexivity].
Qed.

(** What a frame leaves alone, for the proofs about the stream. *)
Lemma dispatch_keeps (raw : string) (now : Z) (st : Listener) :
  let st' := (dispatch a2b_base64 decompress bytes_decode ujson_loads
                snapshot_message_from_exchange diff_message_from_exchange
                raw now st).1 in
  same_but_slots (source st) (source st')
  /\ closed st' = closed st
  /\ (exists more, snapshot_queue st' = snapshot_queue st ++ more)
  /\ (exists more, diff_queue st' = diff_queue st ++ more).
Proof.
  assert (Hsame : forall s : Listener,
             same_but_slots (source s) (source s) /\ closed s = closed s
             /\ (exists more, snapshot_queue s = snapshot_queue s ++ more)
             /\ (exists more, diff_queue s = diff_queue s ++ more)).
  { intros s. split; [apply same_but_slots_refl|]. split; [reflexivity|].
    split; exists []; symmetry; apply app_nil_r. }
  unfold dispatch.
  destruct (_transform_raw_message _ _ _ _ raw) as [decoded|e]; [|apply Hsame].
  destruct (py_get (results decoded) "M" JNull) as [trading_pair|e]; [|apply Hsame].
  destruct (py_truthy trading_pair); simpl; [|apply Hsame].
  destruct (is_kind "snapshot" (msg_type decoded)) eqn:Hsnap.
  - rewrite (is_kind_exclusive _ Hsnap). unfold store_snapshot.
    destruct (snapshot_message_from_exchange _ _) as [m|e]; [|apply Hsame].
    destruct trading_pair; simpl;
      (split; [repeat (split; [reflexivity|]); reflexivity|];
       split; [reflexivity|];
       split; [exists [m]; reflexivity|exists []; symmetry; apply app_nil_r]).
  - destruct (is_kind "update" (msg_type decoded)); [|apply Hsame].
    unfold queue_diff.
    destruct (diff_message_from_exchange _ _) as [m|e]; [|apply Hsame].
    simpl. split; [apply same_but_slots_refl|]. split; [reflexivity|].
    split; [exists []; symmetry; apply app_nil_r|exists [m]; reflexivity].
Qed.

End ListenerFacts.

(** ** The feed session without a hub *)

Lemma swap_components_raises (sep : ascii) (s : string) (e : exn) :
  swap_components sep s = Raise e -> e = IndexError.
Proof.
  unfold swap_components, split_index.
  destruct (split_on sep s) as [|w [|w' ws]]; simpl; intros H;
    [congruence|congruence|unfold mret, result_ret in H; discriminate].
Qed.

Lemma subscribe_all_without_hub (p : string) (l : list string)
    (self : FtxAPIOrderBookDataSource) :
  _websocket_hub self = None ->
  subscribe_all (p :: l) self
  = match swap_components "/" p with
    | Raise e => (self, Raise e)
    | Ok wire_pair =>
        (emit (LogInfo ("Subscribed to " +:+ wire_pair +:+ " deltas")) self,
         Raise AttributeError)
    end.
Proof.
  intros Hhub. cbn [subscribe_all].
  destruct (swap_components "/" p); [|reflexivity].
  unfold hub_invoke. cbn [_websocket_hub emit]. rewrite Hhub. reflexivity.
Qed.

(** [websocket_connection] with trading pairs and no hub. *)
Lemma websocket_connection_with_pairs (fetch : result (list string))
    (start : option exn) (self : FtxAPIOrderBookDataSource)
    (p : string) (l : list string) :
  _websocket_hub self = None ->
  _trading_pairs self = Some (p :: l) ->
  websocket_connection fetch start self
  = match swap_components "/" p with
    | Raise e => (new_connection self, Raise e)
    | Ok wire_pair =>
        (emit (LogInfo ("Subscribed to " +:+ wire_pair +:+ " deltas"))
           (new_connection self),
         Raise AttributeError)
    end.
Proof.
  intros Hhub Hpairs. unfold websocket_connection.
  rewrite Hhub, andb_false_r. unfold get_trading_pairs.
  cbn [new_connection _trading_pairs]. rewrite Hpairs.
  cbn [truthy_pairs default from_option id].
  rewrite subscribe_all_without_hub by exact Hhub.
  destruct (swap_components "/" p); reflexivity.
Qed.

(** [websocket_connection] without trading pairs and without a hub, the
    catalog giving trading pairs. *)
Lemma websocket_connection_fetching_pairs (start : option exn)
    (self : FtxAPIOrderBookDataSource) (p : string) (l : list string) :
  _websocket_hub self = None ->
  truthy_pairs (_trading_pairs self) = false ->
  websocket_connection (Ok (p :: l)) start self
  = match swap_components "/" p with
    | Raise e => (set_trading_pairs (p :: l) (new_connection self), Raise e)
    | Ok wire_pair =>
        (emit (LogInfo ("Subscribed to " +:+ wire_pair +:+ " deltas"))
           (set_trading_pairs (p :: l) (new_connection self)),
         Raise AttributeError)
    end.
Proof.
  intros Hhub Hfalsy. unfold websocket_connection.
  rewrite Hhub, andb_false_r. unfold get_trading_pairs.
  cbn [new_connection _trading_pairs]. rewrite Hfalsy.
  rewrite subscribe_all_without_hub by exact Hhub.
  destruct (swap_components "/" p); reflexivity.
Qed.

(** X9. With no hub held, [websocket_connection] sends no subscription and
    no query, whatever the trading pairs and whatever [start()] does.  It
    returns only when there is no trading pair, with a new connection on
    which it has called [start()] and no hub; and with trading pairs held it
    raises [IndexError] or [AttributeError], leaving a new connection stored
    on which it has not called [start()]. *)
Theorem websocket_connection_never_subscribes
    (fetch : result (list string)) (start : option exn)
    (self : FtxAPIOrderBookDataSource) :
  _websocket_hub self = None ->
  exists more,
    trace (websocket_connection fetch start self).1 = trace self ++ more
    /\ Forall (fun ev => is_invoke ev = false /\ is_sleep ev = false) more
    /\ (forall r, (websocket_connection fetch start self).2 = Ok r ->
          r = (Some (next_handle self), None)
          /\ _trading_pairs (websocket_connection fetch start self).1 = Some []
          /\ In (StartConnection (next_handle self)) more)
    /\ (truthy_pairs (_trading_pairs self) = true ->
          ((websocket_connection fetch start self).2 = Raise IndexError
           \/ (websocket_connection fetch start self).2 = Raise AttributeError)
          /\ Forall (fun ev => is_start ev = false) more
          /\ _websocket_connection (websocket_connection fetch start self).1
             = Some (next_handle self)).
Proof.
  intros Hhub.
  destruct (truthy_pairs (_trading_pairs self)) eqn:Htruthy.
  - destruct (_trading_pairs self) as [[|p l]|] eqn:Hpairs; try discriminate.
    rewrite (websocket_connection_with_pairs fetch start self p l Hhub Hpairs).
    destruct (swap_components "/" p) as [wire|e] eqn:Hswap.
    + eexists. split; [cbn; rewrite <- app_assoc; reflexivity|].
      split; [repeat constructor|]. split; [intros r Hr; discriminate|].
      intros _. split; [right; reflexivity|]. split; [repeat constructor|reflexivity].
    + apply swap_components_raises in Hswap. subst e.
      eexists. split; [reflexivity|].
      split; [repeat constructor|]. split; [intros r Hr; discriminate|].
      intros _. split; [left; reflexivity|]. split; [repeat constructor|reflexivity].
  - destruct fetch as [[|p l]|e].
    + unfold websocket_connection, get_trading_pairs.
      rewrite Hhub, andb_false_r. cbn [new_connection _trading_pairs].
      rewrite Htruthy.
      exists [NewConnection (next_handle self) FTX_WS_FEED;
              StartConnection (next_handle self)].
      destruct start as [e|]; cbn.
      * split; [rewrite <- app_assoc; reflexivity|].
        split; [repeat constructor|].
        split; [intros r Hr; discriminate|intros H; discriminate].
      * split; [rewrite <- app_assoc; reflexivity|].
        split; [repeat constructor|].
        split; [|intros H; discriminate].
        intros r Hr. injection Hr as <-. rewrite Hhub.
        split; [reflexivity|]. split; [reflexivity|]. right. left. reflexivity.
    + rewrite (websocket_connection_fetching_pairs start self p l Hhub Htruthy).
      destruct (swap_components "/" p) as [wire|e] eqn:Hswap.
      * eexists. split; [cbn; rewrite <- app_assoc; reflexivity|].
        split; [repeat constructor|]. split; [intros r Hr; discriminate|].
        intros H; discriminate.
      * eexists. split; [reflexivity|].
        split; [repeat constructor|]. split; [intros r Hr; discriminate|].
        intros H; discriminate.
    + unfold websocket_connection, get_trading_pairs.
      rewrite Hhub, andb_false_r. cbn [new_connection _trading_pairs].
      rewrite Htruthy. destruct (is_Exception e).
      * exists [NewConnection (next_handle self) FTX_WS_FEED;
                LogNetwork "Error getting active exchange information."
                  "Error getting active exchange information. Check network connection.";
                StartConnection (next_handle self)].
        destruct start as [e'|]; cbn.
        -- split; [rewrite <- !app_assoc; reflexivity|].
           split; [repeat constructor|].
           split; [intros r Hr; discriminate|intros H; discriminate].
        -- split; [rewrite <- !app_assoc; reflexivity|].
           split; [repeat constructor|].
           split; [|intros H; discriminate].
           intros r Hr. injection Hr as <-. rewrite Hhub.
           split; [reflexivity|]. split; [reflexivity|]. right. right. left. reflexivity.
      * cbn. eexists. split; [reflexivity|].
        split; [repeat constructor|]. split; [intros r Hr; discriminate|].
        intros H; discriminate.
Qed.

(** X10. The list of trading pairs is fetched until it is not empty, and
    never after that: once a catalog with a trading pair has been fetched
    every later call returns it without a fetch and changes nothing, while a
    fetch that failed or gave no trading pair is followed by a new fetch at
    the next call. *)
Theorem get_trading_pairs_caches_only_pairs (self : FtxAPIOrderBookDataSource) :
  truthy_pairs (_trading_pairs self) = false ->
  (forall p l later,
      get_trading_pairs later (get_trading_pairs (Ok (p :: l)) self).1
      = ((get_trading_pairs (Ok (p :: l)) self).1, Ok (p :: l)))
  /\ (forall first l,
         first = Ok [] \/ (exists e, first = Raise e /\ is_Exception e = true) ->
         (get_trading_pairs (Ok l) (get_trading_pairs first self).1).2 = Ok l
         /\ _trading_pairs (get_trading_pairs (Ok l) (get_trading_pairs first self).1).1
            = Some l).
Proof.
  intros Hfalsy. split.
  - intros p l later. unfold get_trading_pairs. rewrite Hfalsy. reflexivity.
  - intros first l [->|(e & -> & Hexc)]; unfold get_trading_pairs; rewrite Hfalsy.
    + split; reflexivity.
    + rewrite Hexc. split; reflexivity.
Qed.

Lemma query_all_without_hub (p : string) (l : list string)
    (self : FtxAPIOrderBookDataSource) :
  query_all None (p :: l) self
  = (self, match swap_components "-" p with
           | Raise e => Raise e
           | Ok _ => Raise AttributeError
           end).
Proof. simpl. destruct (swap_components "-" p); reflexivity. Qed.

(** X11. With no hub held and trading pairs held, a turn of the snapshot
    poller asks for no snapshot and does not sleep: it logs an error and the
    loop goes round at once. *)
Theorem snapshots_turn_never_sleeps_with_pairs
    (fetch1 fetch2 : result (list string)) (start : option exn) (delta : Z)
    (self : FtxAPIOrderBookDataSource) :
  _websocket_hub self = None ->
  truthy_pairs (_trading_pairs self) = true ->
  (snapshots_turn fetch1 start fetch2 delta self).2 = None
  /\ exists more,
       trace (snapshots_turn fetch1 start fetch2 delta self).1
       = trace self ++ more
           ++ [LogError "Unexpected error occurred invoking queryExchangeState"]
       /\ Forall (fun ev => is_invoke ev = false /\ is_sleep ev = false) more.
Proof.
  intros Hhub Htruthy.
  destruct (_trading_pairs self) as [[|p l]|] eqn:Hpairs; try discriminate.
  unfold snapshots_turn.
  rewrite (websocket_connection_with_pairs fetch1 start self p l Hhub Hpairs).
  destruct (swap_components "/" p) as [wire|e] eqn:Hswap.
  - split; [reflexivity|].
    exists [NewConnection (next_handle self) FTX_WS_FEED;
            LogInfo ("Subscribed to " +:+ wire +:+ " deltas")].
    split; [cbn; rewrite <- !app_assoc; reflexivity|].
    repeat constructor.
  - apply swap_components_raises in Hswap. subst e.
    split; [reflexivity|].
    exists [NewConnection (next_handle self) FTX_WS_FEED].
    split; [cbn; rewrite <- !app_assoc; reflexivity|].
    repeat constructor.
Qed.

(** With no hub held the trace of [websocket_connection] grows by events
    that are neither invocations nor sleeps. *)
Lemma websocket_connection_quiet (fetch : result (list string)) (start : option exn)
    (self : FtxAPIOrderBookDataSource) :
  _websocket_hub self = None ->
  exists more,
    trace (websocket_connection fetch start self).1 = trace self ++ more
    /\ Forall (fun ev => is_invoke ev = false /\ is_sleep ev = false) more.
Proof.
  intros Hhub.
  destruct (truthy_pairs (_trading_pairs self)) eqn:Htruthy.
  - destruct (_trading_pairs self) as [[|p l]|] eqn:Hpairs; try discriminate.
    rewrite (websocket_connection_with_pairs fetch start self p l Hhub Hpairs).
    destruct (swap_components "/" p) as [wire|e].
    + eexists. split; [cbn; rewrite <- app_assoc; reflexivity|repeat constructor].
    + eexists. split; [reflexivity|repeat constructor].
  - destruct fetch as [[|p l]|e].
    + unfold websocket_connection, get_trading_pairs.
      rewrite Hhub, andb_false_r. cbn [new_connection _trading_pairs].
      rewrite Htruthy.
      exists [NewConnection (next_handle self) FTX_WS_FEED;
              StartConnection (next_handle self)].
      destruct start as [e|]; cbn;
        (split; [rewrite <- app_assoc; reflexivity|repeat constructor]).
    + rewrite (websocket_connection_fetching_pairs start self p l Hhub Htruthy).
      destruct (swap_components "/" p) as [wire|e].
      * eexists. split; [cbn; rewrite <- app_assoc; reflexivity|repeat constructor].
      * eexists. split; [reflexivity|repeat constructor].
    + unfold websocket_connection, get_trading_pairs.
      rewrite Hhub, andb_false_r. cbn [new_connection _trading_pairs].
      rewrite Htruthy. destruct (is_Exception e).
      * exists [NewConnection (next_handle self) FTX_WS_FEED;
                LogNetwork "Error getting active exchange information."
                  "Error getting active exchange information. Check network connection.";
                StartConnection (next_handle self)].
        destruct start as [e'|]; cbn;
          (split; [rewrite <- !app_assoc; reflexivity|repeat constructor]).
      * cbn. eexists. split; [reflexivity|repeat constructor].
Qed.

(** With no hub held and [start()] raising, [websocket_connection] raises:
    in the subscription loop when there are trading pairs, and what
    [start()] raises when there are none. *)
Lemma websocket_connection_raises (fetch : result (list string)) (e : exn)
    (self : FtxAPIOrderBookDataSource) :
  _websocket_hub self = None ->
  (exists e', (websocket_connection fetch (Some e) self).2 = Raise e')
  /\ (truthy_pairs (_trading_pairs self) = false ->
      fetch = Ok [] \/ (exists ex, fetch = Raise ex /\ is_Exception ex = true) ->
      (websocket_connection fetch (Some e) self).2 = Raise e).
Proof.
  intros Hhub. split.
  - unfold websocket_connection. rewrite Hhub, andb_false_r.
    destruct (get_trading_pairs fetch (new_connection self)) as [s1 [pairs|e1]];
      [|eexists; reflexivity].
    destruct (subscribe_all pairs s1) as [s2 [[]|e2]]; eexists; reflexivity.
  - intros Hfalsy Hfetch.
    unfold websocket_connection, get_trading_pairs.
    rewrite Hhub, andb_false_r. cbn [new_connection _trading_pairs].
    rewrite Hfalsy.
    destruct Hfetch as [->|(ex & -> & Hexc)]; [reflexivity|].
    rewrite Hexc. reflexivity.
Qed.

Section ListenerWithoutHub.

Variable a2b_base64 : string -> result (list Byte.byte).
Variable decompress : list Byte.byte -> Z -> result (list Byte.byte).
Variable bytes_decode : list Byte.byte -> result string.
Variable ujson_loads : string -> result json.
Variable snapshot_message_from_exchange : json -> json -> result OrderBookMessage.
Variable diff_message_from_exchange : json -> json -> result OrderBookMessage.

(** X7. With no hub held - and none ever is - and [start()] raising, as it
    does when no hub has been registered with the connection, the stream
    listener reads no frame: its first call of [websocket_connection], which
    stands before the [try], raises, and the exception leaves the coroutine,
    whatever the stream would have delivered.  Nothing is put on the queues,
    nothing is closed and no warning is given; the connection just created
    stays stored.  With no trading pair held and none fetched, the exception
    is the one [start()] raised. *)
Theorem listener_escapes_at_its_first_connection
    (fetch : result (list string)) (e : exn) (ticks : list Tick) (st : Listener) :
  _websocket_hub (source st) = None ->
  let out := listen_session a2b_base64 decompress bytes_decode ujson_loads
               snapshot_message_from_exchange diff_message_from_exchange
               fetch (Some e) ticks st in
  (exists e', out.2 = Escaped e')
  /\ (truthy_pairs (_trading_pairs (source st)) = false ->
      fetch = Ok [] \/ (exists ex, fetch = Raise ex /\ is_Exception ex = true) ->
      out.2 = Escaped e)
  /\ snapshot_queue out.1 = snapshot_queue st
  /\ diff_queue out.1 = diff_queue st
  /\ closed out.1 = closed st
  /\ warnings out.1 = warnings st
  /\ _websocket_connection (source out.1) = Some (next_handle (source st))
  /\ _websocket_hub (source out.1) = None.
Proof.
  intros Hhub out. subst out. unfold listen_session.
  destruct (websocket_connection_raises fetch e (source st) Hhub) as [[e' He'] Hsame].
  destruct (websocket_connection_without_hub fetch (Some e) (source st) Hhub)
    as (Hconn & Hhub' & _).
  destruct (websocket_connection fetch (Some e) (source st)) as [src r].
  simpl in He', Hsame, Hconn, Hhub'. subst r. simpl.
  split; [exists e'; reflexivity|].
  split; [intros Hfalsy Hfetch; specialize (Hsame Hfalsy Hfetch);
          injection Hsame as ->; reflexivity|].
  repeat (split; [reflexivity|]).
  split; [exact Hconn|exact Hhub'].
Qed.

End ListenerWithoutHub.

(** A turn of the snapshot poller with no hub held and [start()] raising. *)
Lemma snapshots_turn_without_hub (fetch1 fetch2 : result (list string)) (e : exn)
    (delta : Z) (self : FtxAPIOrderBookDataSource) :
  _websocket_hub self = None ->
  let out := snapshots_turn fetch1 (Some e) fetch2 delta self in
  _websocket_hub out.1 = None
  /\ next_handle out.1 = S (next_handle self)
  /\ exists more,
       trace out.1 = trace self ++ more
       /\ Forall (fun ev => is_invoke ev = false /\ is_sleep ev = false) more.
Proof.
  intros Hhub out. subst out. unfold snapshots_turn.
  destruct (websocket_connection_raises fetch1 e self Hhub) as [[e' He'] _].
  destruct (websocket_connection_without_hub fetch1 (Some e) self Hhub)
    as (_ & Hhub' & Hnext & _).
  destruct (websocket_connection_quiet fetch1 (Some e) self Hhub)
    as (more & Htrace & Hquiet).
  destruct (websocket_connection fetch1 (Some e) self) as [src r].
  simpl in He', Hhub', Hnext, Htrace. subst r.
  destruct (is_Exception e'); simpl.
  - split; [exact Hhub'|]. split; [exact Hnext|].
    exists (more ++ [LogError "Unexpected error occurred invoking queryExchangeState"]).
    split; [rewrite Htrace, app_assoc; reflexivity|].
    apply Forall_app. split; [exact Hquiet|repeat constructor].
  - split; [exact Hhub'|]. split; [exact Hnext|].
    exists more. split; [exact Htrace|exact Hquiet].
Qed.

(** X8. With no hub held - and none ever is - and [start()] raising in every
    turn, the loop of the snapshot poller asks for no snapshot and never
    sleeps, whatever the trading pairs and whatever the catalog gives; and as
    long as no exception leaves the loop every turn creates one connection
    more, so that as many connections have been created as turns were made. *)
Theorem snapshots_loop_spins_without_hub (turns : list PollTurn)
    (self : FtxAPIOrderBookDataSource) :
  _websocket_hub self = None ->
  Forall (fun t => poll_start t <> None) turns ->
  let out := snapshots_loop turns self in
  (exists more,
      trace out.1 = trace self ++ more
      /\ Forall (fun ev => is_invoke ev = false /\ is_sleep ev = false) more)
  /\ (out.2 = None -> next_handle out.1 = (next_handle self + length turns)%nat)
  /\ _websocket_hub out.1 = None.
Proof.
  revert self. induction turns as [|t turns IH]; intros self Hhub Hstart out; subst out.
  - simpl. split; [exists []; split; [symmetry; apply app_nil_r|constructor]|].
    split; [intros _; lia|exact Hhub].
  - inversion Hstart as [|? ? Ht Hrest]; subst.
    destruct (poll_start t) as [e|] eqn:He; [|contradiction].
    cbn [snapshots_loop]. rewrite He.
    destruct (snapshots_turn_without_hub (poll_fetch1 t) (poll_fetch2 t) e
                (poll_delta t) self Hhub) as (Hhub1 & Hnext1 & more1 & Htrace1 & Hquiet1).
    destruct (snapshots_turn (poll_fetch1 t) (Some e) (poll_fetch2 t) (poll_delta t) self)
      as [self1 [escaped|]]; simpl in Hhub1, Hnext1, Htrace1.
    + simpl. split; [exists more1; split; [exact Htrace1|exact Hquiet1]|].
      split; [discriminate|exact Hhub1].
    + destruct (IH self1 Hhub1 Hrest) as ((more & Htrace & Hquiet) & Hcount & Hhub2).
      split; [|split; [|exact Hhub2]].
      * exists (more1 ++ more).
        split; [rewrite Htrace, Htrace1, app_assoc; reflexivity|].
        apply Forall_app. split; [exact Hquiet1|exact Hquiet].
      * intros Hnone. rewrite (Hcount Hnone), Hnext1. simpl. lia.
Qed.

(** ** Requests for a snapshot *)

(** X12. A slot that is fresh for the request is returned by the first
    poll, whatever arrives later, and it answers no second request: with
    nothing new stored for the instrument the next request times out,
    however old a snapshot it asks for. *)
Theorem fresh_slot_answers_one_request
    (trading_pair : string) (invoke_timestamp : Z)
    (self : FtxAPIOrderBookDataSource) (s : Slot)
    (arrivals later : list (list (string * Slot))) :
  _snapshot_msg self !! trading_pair = Some s ->
  invoke_timestamp <= slot_timestamp s ->
  Forall (Forall (fun w => w.1 <> trading_pair)) later ->
  (wait_for_snapshot arrivals trading_pair invoke_timestamp self).2
  = Ok (slot_content s)
  /\ forall invoke_timestamp',
       (wait_for_snapshot later trading_pair invoke_timestamp'
          (wait_for_snapshot arrivals trading_pair invoke_timestamp self).1).2
       = Raise TimeoutError.
Proof.
  intros Hslot Hfresh Hquiet.
  assert (Hfirst : wait_for_snapshot arrivals trading_pair invoke_timestamp self
                   = ((pop_slot trading_pair self).2, Ok (slot_content s))).
  { unfold wait_for_snapshot, SNAPSHOT_TIMEOUT.
    apply wait_loop_fresh; assumption. }
  rewrite Hfirst. split; [reflexivity|].
  intros invoke_timestamp'. unfold wait_for_snapshot.
  apply wait_loop_starves; [exact Hquiet|apply pop_slot_removes].
Qed.

Lemma wait_loop_other (n : nat) :
  forall (arrivals : list (list (string * Slot))) (trading_pair other : string)
         (invoke_timestamp : Z) (self : FtxAPIOrderBookDataSource),
    other <> trading_pair ->
    Forall (Forall (fun w => w.1 <> other)) arrivals ->
    _snapshot_msg (wait_loop n arrivals trading_pair invoke_timestamp self).1 !! other
    = _snapshot_msg self !! other.
Proof.
  induction n as [|n IH]; intros arrivals trading_pair other invoke_timestamp self
    Hne Hquiet; [reflexivity|].
  assert (Hnext :
            _snapshot_msg
              (wait_loop n (tl arrivals) trading_pair invoke_timestamp
                 (store_snapshots (hd [] arrivals) (pop_slot trading_pair self).2)).1
            !! other
            = _snapshot_msg self !! other).
  { rewrite IH; [|exact Hne|apply quiet_tl; exact Hquiet].
    rewrite lookup_store_snapshots_other by (apply quiet_hd; exact Hquiet).
    simpl. apply lookup_delete_ne. congruence. }
  simpl. simpl in Hnext.
  destruct (_snapshot_msg self !! trading_pair) as [s|]; [|exact Hnext].
  destruct (invoke_timestamp <=? slot_timestamp s); [|exact Hnext].
  simpl. apply lookup_delete_ne. congruence.
Qed.

(** X13. A request for one instrument leaves the slots of the other
    instruments alone: the slot of an instrument for which nothing arrives
    meanwhile is after the request what it was before, whether the request
    is answered or times out. *)
Theorem wait_for_snapshot_keeps_other_slots
    (arrivals : list (list (string * Slot))) (trading_pair other : string)
    (invoke_timestamp : Z) (self : FtxAPIOrderBookDataSource) :
  other <> trading_pair ->
  Forall (Forall (fun w => w.1 <> other)) arrivals ->
  _snapshot_msg (wait_for_snapshot arrivals trading_pair invoke_timestamp self).1
  !! other
  = _snapshot_msg self !! other.
Proof. intros Hne Hquiet. unfold wait_for_snapshot. now apply wait_loop_other. Qed.





(** ** The loop as a fold over its messages *)

Lemma drop_window {A : Type} (size : nat) (X more : list A) :
  drop (length (drop (length X - size) X ++ more) - size)
    (drop (length X - size) X ++ more)
  = drop (length (X ++ more) - size) (X ++ more).
Proof.
  rewrite <- drop_app_le by lia.
  rewrite drop_drop. f_equal.
  rewrite length_drop, !length_app. lia.
Qed.

Section LoopFacts.

Variable PAST_DIFF_WINDOW_SIZE : nat.
Context {OrderBook : Type} `{!OrderBookOps OrderBook}.

(** A turn on a message, when no call on the order book is cancelled: the
    loop goes on, with the book the message leaves and with the message in
    the window if it is a diff that raised nothing. *)
Lemma process_message_goes_on (now : Z) (message : OrderBookMessage)
    (st : TrackState) :
  raises_only_exceptions ->
  exists st',
    process_message PAST_DIFF_WINDOW_SIZE now message st = Went_on st'
    /\ order_book st' = apply_message (order_book st) message
    /\ saved_messages st' = saved_messages st
    /\ message_queue st' = message_queue st
    /\ past_diffs_window st'
       = match accepted_diffs (order_book st) [message] with
         | [] => past_diffs_window st
         | _ :: _ =>
             popleft_while_over PAST_DIFF_WINDOW_SIZE
               (past_diffs_window st ++ [message])
         end.
Proof.
  intros Hexc.
  unfold process_message, apply_message, accepted_diffs.
  destruct (type message) eqn:Htype.
  - unfold process_snapshot, handle. simpl.
    destruct (apply_snapshot (order_book st) (bids message) (asks message)
                (timestamp message)) as [book [e|]] eqn:Happly; simpl.
    + destruct (Hexc (order_book st) (bids message) (asks message)
                  (timestamp message) e) as [_ He].
      rewrite He by (rewrite Happly; reflexivity).
      eexists. split; [reflexivity|]. simpl.
      split; [reflexivity|]. split; [reflexivity|]. split; reflexivity.
    + eexists. split; [reflexivity|]. simpl.
      split; [reflexivity|]. split; [reflexivity|]. split; reflexivity.
  - unfold process_diff, handle. simpl.
    destruct (apply_diffs (order_book st) (bids message) (asks message)
                (timestamp message)) as [book [e|]] eqn:Happly; simpl.
    + destruct (Hexc (order_book st) (bids message) (asks message)
                  (timestamp message) e) as [He _].
      rewrite He by (rewrite Happly; reflexivity).
      eexists. split; [reflexivity|]. simpl.
      split; [reflexivity|]. split; [reflexivity|]. split; reflexivity.
    + eexists. split; [reflexivity|]. simpl.
      split; [reflexivity|]. split; [reflexivity|]. split; reflexivity.
  - eexists. split; [reflexivity|].
    split; [reflexivity|]. split; [reflexivity|]. split; [reflexivity|].
    destruct ((apply_diffs (order_book st) (bids message) (asks message)
                 (timestamp message)).2); reflexivity.
Qed.

Lemma accepted_diffs_cons (book : OrderBook) (message : OrderBookMessage)
    (rest : list OrderBookMessage) :
  accepted_diffs book (message :: rest)
  = accepted_diffs book [message]
    ++ accepted_diffs (apply_message book message) rest.
Proof.
  simpl. destruct (type message);
    destruct ((apply_diffs book (bids message) (asks message) (timestamp message)).2);
    reflexivity.
Qed.

(** The window after a turn, as the newest messages of the window before
    and the diff accepted in the turn. *)
Lemma window_after_turn (window : list OrderBookMessage) (book : OrderBook)
    (message : OrderBookMessage) :
  (length window <= PAST_DIFF_WINDOW_SIZE)%nat ->
  match accepted_diffs book [message] with
  | [] => window
  | _ :: _ => popleft_while_over PAST_DIFF_WINDOW_SIZE (window ++ [message])
  end
  = drop (length (window ++ accepted_diffs book [message]) - PAST_DIFF_WINDOW_SIZE)
      (window ++ accepted_diffs book [message]).
Proof.
  intros Hlen. simpl.
  destruct (type message);
    destruct ((apply_diffs book (bids message) (asks message) (timestamp message)).2);
    try (rewrite app_nil_r;
         replace (length window - PAST_DIFF_WINDOW_SIZE)%nat with 0%nat by lia;
         reflexivity).
  apply popleft_while_over_drop.
Qed.

(** The loop run on a state, with a clock reading for each of its messages
    at least. *)
Lemma track_run_folds (clock : list Z) :
  raises_only_exceptions ->
  forall (st : TrackState) (older : list OrderBookMessage),
    (length (saved_messages st ++ message_queue st) <= length clock)%nat ->
    past_diffs_window st
    = drop (length older - PAST_DIFF_WINDOW_SIZE) older ->
    let messages := saved_messages st ++ message_queue st in
    let st' := track_run PAST_DIFF_WINDOW_SIZE clock st in
    saved_messages st' = []
    /\ message_queue st' = []
    /\ order_book st' = foldl apply_message (order_book st) messages
    /\ past_diffs_window st'
       = drop (length (older ++ accepted_diffs (order_book st) messages)
               - PAST_DIFF_WINDOW_SIZE)
           (older ++ accepted_diffs (order_book st) messages).
Proof.
  intros Hexc.
  induction clock as [|now clock IH]; intros st older Hlen Hwindow messages st'.
  - subst messages st'. simpl in Hlen.
    destruct (saved_messages st) as [|m saved] eqn:Hsaved; [|simpl in Hlen; lia].
    destruct (message_queue st) as [|m queue] eqn:Hqueue; [|simpl in Hlen; lia].
    simpl. rewrite Hsaved, Hqueue, app_nil_r.
    split; [reflexivity|]. split; [reflexivity|]. split; [reflexivity|exact Hwindow].
  - assert (Hturn : forall (message : OrderBookMessage) (st0 : TrackState),
               order_book st0 = order_book st ->
               past_diffs_window st0 = past_diffs_window st ->
               messages = message :: (saved_messages st0 ++ message_queue st0) ->
               track_turn PAST_DIFF_WINDOW_SIZE now st
               = process_message PAST_DIFF_WINDOW_SIZE now message st0 ->
               saved_messages st' = []
               /\ message_queue st' = []
               /\ order_book st' = foldl apply_message (order_book st) messages
               /\ past_diffs_window st'
                  = drop (length (older ++ accepted_diffs (order_book st) messages)
                          - PAST_DIFF_WINDOW_SIZE)
                      (older ++ accepted_diffs (order_book st) messages)).
    { intros message st0 Hbook0 Hwin0 Hmessages Hstep.
      destruct (process_message_goes_on now message st0 Hexc)
        as (st1 & Hgo & Hbook1 & Hsaved1 & Hqueue1 & Hwin1).
      subst st'. cbn [track_run]. rewrite Hstep, Hgo.
      assert (Hlen1 : (length (saved_messages st1 ++ message_queue st1)
                       <= length clock)%nat).
      { rewrite Hsaved1, Hqueue1. subst messages. rewrite Hmessages in Hlen.
        simpl in Hlen. lia. }
      assert (Hwindow1 : past_diffs_window st1
                         = drop (length (older ++ accepted_diffs (order_book st) [message])
                                 - PAST_DIFF_WINDOW_SIZE)
                             (older ++ accepted_diffs (order_book st) [message])).
      { rewrite Hwin1, Hbook0, Hwin0, Hwindow.
        rewrite window_after_turn by (rewrite length_drop; lia).
        apply drop_window. }
      destruct (IH st1 _ Hlen1 Hwindow1) as (Hs & Hq & Hb & Hw).
      split; [exact Hs|]. split; [exact Hq|].
      rewrite Hmessages. rewrite accepted_diffs_cons. cbn [foldl].
      rewrite Hb, Hw, Hsaved1, Hqueue1, Hbook1, Hbook0, <- app_assoc.
      split; reflexivity. }
    unfold track_turn in Hturn.
    destruct (saved_messages st) as [|m saved] eqn:Hsaved.
    + destruct (message_queue st) as [|m queue] eqn:Hqueue.
      * subst messages st'. cbn [track_run]. unfold track_turn.
        rewrite Hsaved, Hqueue. simpl. rewrite Hsaved, Hqueue, app_nil_r.
        split; [reflexivity|]. split; [reflexivity|].
        split; [reflexivity|exact Hwindow].
      * apply (Hturn m (take_queued queue st)); try reflexivity.
        subst messages. simpl. rewrite Hsaved. reflexivity.
    + apply (Hturn m (take_saved saved st)); reflexivity.
Qed.

(** X15. When no call on the order book is cancelled, the loop run long
    enough on its saved and queued messages takes them all, saved ones
    first, each list oldest first, and ends waiting with both lists empty.
    The book is then the one the messages leave applied in that order, a
    message on which the order book raised an exception included: such a
    message stops nothing.  The window holds the newest
    [PAST_DIFF_WINDOW_SIZE] of the diffs on which nothing was raised. *)
Theorem track_run_applies_every_message (clock : list Z)
    (saved queue : list OrderBookMessage) (book : OrderBook) (now : Z) :
  raises_only_exceptions ->
  (length (saved ++ queue) <= length clock)%nat ->
  let st' := track_run PAST_DIFF_WINDOW_SIZE clock
               (start_tracking saved queue book now) in
  saved_messages st' = []
  /\ message_queue st' = []
  /\ order_book st' = foldl apply_message book (saved ++ queue)
  /\ past_diffs_window st'
     = drop (length (accepted_diffs book (saved ++ queue)) - PAST_DIFF_WINDOW_SIZE)
         (accepted_diffs book (saved ++ queue)).
Proof.
  intros Hexc Hlen.
  apply (track_run_folds clock Hexc (start_tracking saved queue book now) []);
    [exact Hlen|reflexivity].
Qed.

(** The window holds diffs only. *)
Lemma process_message_window_diffs (now : Z) (message : OrderBookMessage)
    (st : TrackState) :
  Forall (fun m => type m = DIFF) (past_diffs_window st) ->
  match process_message PAST_DIFF_WINDOW_SIZE now message st with
  | Suspended => True
  | Went_on st' | Ended _ st' => Forall (fun m => type m = DIFF) (past_diffs_window st')
  end.
Proof.
  intros Hall. unfold process_message, process_diff, process_snapshot, handle.
  destruct (type message) eqn:Htype; simpl.
  - destruct (apply_snapshot _ _ _ _) as [book [e|]]; simpl;
      [destruct (is_Exception e)|]; exact Hall.
  - destruct (apply_diffs _ _ _ _) as [book [e|]]; simpl;
      [destruct (is_Exception e); exact Hall|].
    rewrite popleft_while_over_drop. apply Forall_drop.
    apply Forall_app. split; [exact Hall|]. constructor; [exact Htype|constructor].
  - exact Hall.
Qed.

(** X16. Whatever the messages, the clock and the order book, the window of
    past diffs of a running loop holds nothing but diff messages: a
    snapshot, a trade, or a diff on which the order book raised never
    enters it. *)
Theorem window_holds_only_diffs (clock : list Z)
    (saved queue : list OrderBookMessage) (book : OrderBook) (now : Z) :
  Forall (fun m => type m = DIFF)
    (past_diffs_window
       (track_run PAST_DIFF_WINDOW_SIZE clock (start_tracking saved queue book now))).
Proof.
  assert (Hrun : forall (clock : list Z) (st : TrackState),
             Forall (fun m => type m = DIFF) (past_diffs_window st) ->
             Forall (fun m => type m = DIFF)
               (past_diffs_window (track_run PAST_DIFF_WINDOW_SIZE clock st))).
  { clear clock. induction clock as [|t clock IH]; intros st Hall; [exact Hall|].
    cbn [track_run]. unfold track_turn.
    destruct (saved_messages st) as [|m rest].
    - destruct (message_queue st) as [|m rest]; [exact Hall|].
      pose proof (process_message_window_diffs t m (take_queued rest st) Hall) as Hstep.
      destruct (process_message PAST_DIFF_WINDOW_SIZE t m (take_queued rest st));
        [exact Hall|apply IH; exact Hstep|exact Hstep].
    - pose proof (process_message_window_diffs t m (take_saved rest st) Hall) as Hstep.
      destruct (process_message PAST_DIFF_WINDOW_SIZE t m (take_saved rest st));
        [exact Hall|apply IH; exact Hstep|exact Hstep]. }
  apply Hrun. constructor.
Qed.

End LoopFacts.

(** ** The tracked set over the refreshes *)

Section RefreshMore.

Context {OrderBook ActiveOrderTracker : Type}.

Local Abbreviation tracker := (@FtxOrderBookTracker OrderBook ActiveOrderTracker).
Local Abbreviation entry := (@FtxOrderBookTrackerEntry OrderBook ActiveOrderTracker).

(** The pass that starts the new instruments, instrument by instrument. *)
Lemma for_each_start_one_new (available_pairs : gmap string entry)
    (keys : list string) :
  NoDup keys ->
  forall self started : tracker,
    for_each (start_one available_pairs) keys self = Ok started ->
    next_task started = (next_task self + length keys)%nat
    /\ (forall k, k ∉ keys -> entries started k = entries self k)
    /\ (forall k, k ∈ keys ->
          exists e id,
            available_pairs !! k = Some e
            /\ entries started k
               = (Some {| task_id := id; done := false |},
                  Some (entry_order_book e),
                  Some (entry_active_order_tracker e),
                  Some [])
            /\ (next_task self <= id < next_task started)%nat).
Proof.
  induction 1 as [|key keys Hfresh Hnodup IH]; intros self started Hrun.
  - simpl in Hrun. injection Hrun as <-.
    split; [simpl; lia|]. split; [reflexivity|]. intros k Hk. inversion Hk.
  - cbn [for_each] in Hrun.
    destruct (start_one available_pairs key self) as [s1|err] eqn:Hs1;
      simpl in Hrun; [|discriminate].
    unfold start_one in Hs1.
    destruct (available_pairs !! key) as [e|] eqn:He; [|discriminate].
    injection Hs1 as <-.
    destruct (IH _ _ Hrun) as (Hnext & Hframe & Hnew). simpl in Hnext.
    split; [simpl; lia|]. split.
    + intros k Hk. apply not_elem_of_cons in Hk as [Hne Hnotin].
      rewrite (Hframe k Hnotin). unfold entries. simpl.
      rewrite !lookup_insert_ne by congruence. reflexivity.
    + intros k Hk. destruct (decide (k ∈ keys)) as [Hin|Hnotin].
      * destruct (Hnew k Hin) as (e' & id & He' & Hentries & Hid).
        exists e', id. split; [exact He'|]. split; [exact Hentries|].
        simpl in Hid. lia.
      * apply elem_of_cons in Hk as [->|Hk]; [|contradiction].
        exists e, (next_task self). split; [exact He|].
        rewrite (Hframe key Hnotin). unfold entries. simpl.
        rewrite !lookup_insert_eq. split; [reflexivity|]. lia.
Qed.

(** X17. After a refresh the instruments with a running task are exactly
    the available ones, whatever was tracked before; and a second refresh
    with the same available instruments starts nothing, stops nothing and
    leaves the tracker, its log included, as it is. *)
Theorem refresh_tracks_exactly_the_available
    (available_pairs : gmap string entry) (self self' : tracker) :
  consistent self ->
  _refresh_tracking_tasks available_pairs self = Ok self' ->
  tracking_trading_pair self' = dom available_pairs
  /\ _refresh_tracking_tasks available_pairs self' = Ok self'.
Proof.
  intros Hcons Hrefresh.
  destruct (refresh_passes available_pairs self Hcons)
    as (started & self'' & Hstart & Hrefresh' & _ & Hframe1 & _ & Hgone & Hframe2 & _).
  rewrite Hrefresh in Hrefresh'. injection Hrefresh' as <-.
  destruct (for_each_start_one_new available_pairs _ (NoDup_elements _) _ _ Hstart)
    as (_ & _ & Hnew).
  assert (Htracking : tracking_trading_pair self' = dom available_pairs).
  { apply set_eq. intros k. split.
    - intros Hk. apply elem_of_tracking_trading_pair in Hk as (t & Ht & Hdone).
      destruct (decide (k ∈ elements (deleted_trading_pair available_pairs self)))
        as [Hremoved|Hstays].
      + pose proof (Hgone k Hremoved) as Hrel. unfold released, entries in Hrel.
        injection Hrel as Hnone _ _ _. congruence.
      + destruct (decide (k ∈ elements (new_trading_pair available_pairs self)))
          as [Hadded|Hold].
        * apply elem_of_elements in Hadded. unfold new_trading_pair in Hadded.
          apply elem_of_difference in Hadded as [Hin _]. exact Hin.
        * pose proof (Hframe2 k Hstays) as Heq2. pose proof (Hframe1 k Hold) as Heq1.
          unfold entries in Heq1, Heq2.
          injection Heq1 as H1 _ _ _. injection Heq2 as H2 _ _ _.
          assert (Hwas : k ∈ tracking_trading_pair self).
          { apply elem_of_tracking_trading_pair. exists t. split; [congruence|exact Hdone]. }
          destruct (decide (k ∈ dom available_pairs)) as [Hin|Hout]; [exact Hin|].
          exfalso. apply Hstays. apply elem_of_elements.
          unfold deleted_trading_pair. apply elem_of_difference. split; assumption.
    - intros Hin.
      assert (Hstays : k ∉ elements (deleted_trading_pair available_pairs self)).
      { rewrite elem_of_elements. unfold deleted_trading_pair.
        intros Hk. apply elem_of_difference in Hk as [_ Hk]. contradiction. }
      pose proof (Hframe2 k Hstays) as Heq2. unfold entries in Heq2.
      injection Heq2 as H2 _ _ _.
      apply elem_of_tracking_trading_pair.
      destruct (decide (k ∈ tracking_trading_pair self)) as [Hwas|Hnot].
      + assert (Hold : k ∉ elements (new_trading_pair available_pairs self)).
        { rewrite elem_of_elements. unfold new_trading_pair.
          intros Hk. apply elem_of_difference in Hk as [_ Hk]. contradiction. }
        pose proof (Hframe1 k Hold) as Heq1. unfold entries in Heq1.
        injection Heq1 as H1 _ _ _.
        apply elem_of_tracking_trading_pair in Hwas as (t & Ht & Hdone).
        exists t. split; [congruence|exact Hdone].
      + assert (Hadded : k ∈ elements (new_trading_pair available_pairs self)).
        { apply elem_of_elements. unfold new_trading_pair.
          apply elem_of_difference. split; assumption. }
        destruct (Hnew k Hadded) as (e & id & _ & Hentries & _).
        unfold entries in Hentries. injection Hentries as H1 _ _ _.
        eexists. split; [rewrite H2; exact H1|reflexivity]. }
  split; [exact Htracking|].
  unfold _refresh_tracking_tasks, new_trading_pair, deleted_trading_pair.
  rewrite Htracking, difference_diag_L, elements_empty. reflexivity.
Qed.

(** X18. An instrument that a refresh starts has, after the refresh, the
    order book and the order tracker of its entry, an empty inbound queue
    and a task that has not ended, whose number is none of the numbers the
    tracker has given out before. *)
Theorem refresh_starts_new_instruments
    (available_pairs : gmap string entry) (self self' : tracker)
    (trading_pair : string) :
  consistent self ->
  _refresh_tracking_tasks available_pairs self = Ok self' ->
  trading_pair ∈ new_trading_pair available_pairs self ->
  exists e id,
    available_pairs !! trading_pair = Some e
    /\ entries self' trading_pair
       = (Some {| task_id := id; done := false |},
          Some (entry_order_book e),
          Some (entry_active_order_tracker e),
          Some [])
    /\ (next_task self <= id)%nat.
Proof.
  intros Hcons Hrefresh Hnew.
  destruct (refresh_passes available_pairs self Hcons)
    as (started & self'' & Hstart & Hrefresh' & _ & _ & _ & _ & Hframe2 & _).
  rewrite Hrefresh in Hrefresh'. injection Hrefresh' as <-.
  destruct (for_each_start_one_new available_pairs _ (NoDup_elements _) _ _ Hstart)
    as (_ & _ & Hdetails).
  destruct (Hdetails trading_pair) as (e & id & He & Hentries & Hid);
    [apply elem_of_elements; exact Hnew|].
  exists e, id. split; [exact He|]. split; [|lia].
  rewrite Hframe2; [exact Hentries|].
  rewrite elem_of_elements. unfold deleted_trading_pair, new_trading_pair in *.
  intros Hdel. apply elem_of_difference in Hdel as [Hin _].
  apply elem_of_difference in Hnew as [_ Hout]. contradiction.
Qed.

Lemma start_one_distinct (available_pairs : gmap string entry)
    (trading_pair : string) (self self' : tracker) :
  tasks_distinct self ->
  start_one available_pairs trading_pair self = Ok self' ->
  tasks_distinct self'.
Proof.
  intros [Hbelow Hinj]. unfold start_one.
  destruct (available_pairs !! trading_pair) as [e|]; [|discriminate].
  intros Heq. injection Heq as <-. split; simpl.
  - intros k t Ht. apply lookup_insert_Some in Ht as [[_ <-]|[_ Ht]]; simpl.
    + lia.
    + specialize (Hbelow k t Ht). lia.
  - intros k1 k2 t1 t2 H1 H2 Hid.
    apply lookup_insert_Some in H1 as [[<- <-]|[Hne1 H1]];
      apply lookup_insert_Some in H2 as [[<- <-]|[Hne2 H2]]; simpl in Hid.
    + reflexivity.
    + specialize (Hbelow k2 t2 H2). lia.
    + specialize (Hbelow k1 t1 H1). lia.
    + exact (Hinj k1 k2 t1 t2 H1 H2 Hid).
Qed.

Lemma stop_one_distinct (trading_pair : string) (self self' : tracker) :
  tasks_distinct self ->
  stop_one trading_pair self = Ok self' ->
  tasks_distinct self'.
Proof.
  intros [Hbelow Hinj]. unfold stop_one, del_key.
  destruct (_tracking_tasks self !! trading_pair) as [task|]; simpl; [|discriminate].
  destruct (_order_books self !! trading_pair) as [b|]; simpl; [|discriminate].
  destruct (_active_order_trackers self !! trading_pair) as [a|]; simpl; [|discriminate].
  destruct (_tracking_message_queues self !! trading_pair) as [q|]; simpl; [|discriminate].
  intros Heq. injection Heq as <-. split; simpl.
  - intros k t Ht. apply lookup_delete_Some in Ht as [_ Ht]. exact (Hbelow k t Ht).
  - intros k1 k2 t1 t2 H1 H2 Hid.
    apply lookup_delete_Some in H1 as [_ H1].
    apply lookup_delete_Some in H2 as [_ H2].
    exact (Hinj k1 k2 t1 t2 H1 H2 Hid).
Qed.

Lemma for_each_distinct (body : string -> tracker -> result tracker) :
  (forall k s s', tasks_distinct s -> body k s = Ok s' -> tasks_distinct s') ->
  forall (keys : list string) (self self' : tracker),
    tasks_distinct self -> for_each body keys self = Ok self' -> tasks_distinct self'.
Proof.
  intros Hbody. induction keys as [|k keys IH]; intros self self' Hd Hrun; simpl in Hrun.
  - injection Hrun as <-. exact Hd.
  - destruct (body k self) as [s1|e] eqn:Hk; simpl in Hrun; [|discriminate].
    apply (IH s1); [exact (Hbody k self s1 Hd Hk)|exact Hrun].
Qed.

Lemma refresh_distinct (available_pairs : gmap string entry) (self self' : tracker) :
  tasks_distinct self ->
  _refresh_tracking_tasks available_pairs self = Ok self' ->
  tasks_distinct self'.
Proof.
  intros Hd. unfold _refresh_tracking_tasks.
  destruct (for_each (start_one available_pairs) _ self) as [s1|e] eqn:Hstart;
    simpl; [|discriminate].
  intros Hstop.
  eapply (for_each_distinct stop_one stop_one_distinct); [|exact Hstop].
  eapply (for_each_distinct (start_one available_pairs)
            (start_one_distinct available_pairs)); [exact Hd|exact Hstart].
Qed.

Lemma finish_tasks_consistent (finished : gset nat) (self : tracker) :
  consistent self -> consistent (finish_tasks finished self).
Proof.
  intros Hcons k Htask. apply Hcons.
  unfold finish_tasks in Htask. simpl in Htask.
  rewrite lookup_fmap in Htask. apply fmap_is_Some in Htask. exact Htask.
Qed.

Lemma finish_tasks_distinct (finished : gset nat) (self : tracker) :
  tasks_distinct self -> tasks_distinct (finish_tasks finished self).
Proof.
  assert (Hid : forall (k : string) (t : Task),
             _tracking_tasks (finish_tasks finished self) !! k = Some t ->
             exists t0, _tracking_tasks self !! k = Some t0 /\ task_id t0 = task_id t).
  { intros k t Ht. unfold finish_tasks in Ht. simpl in Ht.
    rewrite lookup_fmap in Ht.
    destruct (_tracking_tasks self !! k) as [t0|]; [|discriminate].
    simpl in Ht. injection Ht as <-. exists t0. split; [reflexivity|].
    destruct (decide (task_id t0 ∈ finished)); reflexivity. }
  intros [Hbelow Hinj]. split.
  - intros k t Ht. destruct (Hid k t Ht) as (t0 & Ht0 & <-). exact (Hbelow k t0 Ht0).
  - intros k1 k2 t1 t2 H1 H2 Heq.
    destruct (Hid k1 t1 H1) as (a & Ha & Hia). destruct (Hid k2 t2 H2) as (b & Hb & Hib).
    apply (Hinj k1 k2 a b Ha Hb). congruence.
Qed.

(** X19. From the tracker as it is built, through any rounds of tasks
    ending and refreshes, whatever is available in each: no refresh raises,
    every task held has its order book, its order tracker and its inbound
    queue, and no two instruments hold the same task. *)
Theorem run_rounds_keeps_the_tracker_sound
    (rounds : list (gset nat * gmap string entry)) :
  exists self' : tracker,
    run_rounds rounds init_tracker = Ok self'
    /\ consistent self'
    /\ tasks_distinct self'.
Proof.
  assert (Hrun : forall (rounds : list (gset nat * gmap string entry)) (self : tracker),
             consistent self -> tasks_distinct self ->
             exists self', run_rounds rounds self = Ok self'
                           /\ consistent self' /\ tasks_distinct self').
  { clear rounds. induction rounds as [|[finished available_pairs] rounds IH];
      intros self Hcons Hd.
    - exists self. split; [reflexivity|]. split; assumption.
    - pose proof (finish_tasks_consistent finished self Hcons) as Hcons0.
      pose proof (finish_tasks_distinct finished self Hd) as Hd0.
      destruct (refresh_passes available_pairs _ Hcons0)
        as (started & s1 & _ & Hrefresh & _).
      cbn [run_rounds]. rewrite Hrefresh. simpl.
      apply IH.
      + exact (refresh_preserves_consistent available_pairs _ s1 Hcons0 Hrefresh).
      + exact (refresh_distinct available_pairs _ s1 Hd0 Hrefresh). }
  apply Hrun.
  - apply init_tracker_consistent.
  - split; [intros k t Ht|intros k1 k2 t1 t2 H1]; simpl in *;
      rewrite lookup_empty in *; discriminate.
Qed.

End RefreshMore.

(** ** The Peatio listen key *)

Section PeatioFacts.

Context {ListenKey : Type}.

Local Abbreviation peatio := (@PeatioAPIUserStreamDataSource ListenKey).

Lemma live_stream_tasks_app (log more : list peatio_event) :
  forall live,
    live_stream_tasks (log ++ more) live
    = live_stream_tasks more (live_stream_tasks log live).
Proof.
  induction log as [|ev log IH]; intros live; [reflexivity|].
  destruct ev; simpl; apply IH.
Qed.

Lemma filter_out_only (task : nat) : filter (fun x => x <> task) [task] = [].
Proof. rewrite filter_cons. destruct (decide (task <> task)); [contradiction|reflexivity]. Qed.

(** The steps of a turn on a state in which key and task agree. *)
Lemma take_listen_key_agrees (key : ListenKey) (self : peatio) :
  key_and_task_agree self ->
  key_and_task_agree (take_listen_key key self).
Proof.
  intros (Hiff & Hlive & Hbound).
  unfold take_listen_key, cancel_stream_task, peatio_emit. simpl.
  destruct (_listen_for_user_stream_task self) as [task|] eqn:Htask; simpl.
  - split; [split; discriminate|]. split; [|intros t Ht; injection Ht as <-; simpl; lia].
    simpl. rewrite !live_stream_tasks_app, Hlive. simpl. rewrite filter_out_only. reflexivity.
  - split; [split; discriminate|]. split; [|intros t Ht; injection Ht as <-; simpl; lia].
    simpl. rewrite !live_stream_tasks_app, Hlive. reflexivity.
Qed.

Lemma drop_listen_key_agrees (self : peatio) :
  key_and_task_agree self ->
  key_and_task_agree (drop_listen_key self).
Proof.
  intros (Hiff & Hlive & Hbound).
  unfold drop_listen_key, cancel_stream_task, peatio_emit. simpl.
  destruct (_listen_for_user_stream_task self) as [task|] eqn:Htask; simpl.
  - split; [split; reflexivity|]. split; [|discriminate].
    simpl. rewrite live_stream_tasks_app, Hlive. simpl. rewrite filter_out_only. reflexivity.
  - split; [split; reflexivity|]. split; [exact Hlive|discriminate].
Qed.

Lemma peatio_emit_agrees (evs : list peatio_event) (self : peatio) :
  Forall (fun ev => match ev with
                    | StartStreamTask _ | CancelStreamTask _ => False
                    | _ => True
                    end) evs ->
  key_and_task_agree self ->
  key_and_task_agree (peatio_emit evs self).
Proof.
  intros Hquiet (Hiff & Hlive & Hbound). unfold peatio_emit.
  split; [exact Hiff|]. split; [|exact Hbound]. simpl.
  rewrite live_stream_tasks_app, Hlive.
  generalize (match _listen_for_user_stream_task self with
              | Some task => [task]
              | None => []
              end).
  induction Hquiet as [|ev evs Hev Hrest IH]; intros live; [reflexivity|].
  destruct ev; simpl; try contradiction; apply IH.
Qed.

Lemma keep_alive_turn_agrees (t : @KeepAlive ListenKey) (self : peatio) :
  key_and_task_agree self ->
  key_and_task_agree (keep_alive_turn t self).1.
Proof.
  intros Hagree.
  assert (Hdebug : forall s : peatio,
             key_and_task_agree s ->
             key_and_task_agree
               (peatio_emit [PeatioDebug "Refreshed listen key."] s)).
  { intros s Hs. apply peatio_emit_agrees; [|exact Hs]. repeat constructor. }
  assert (Herror : forall s : peatio,
             key_and_task_agree s ->
             key_and_task_agree
               (peatio_emit
                  [PeatioError "Unexpected error while maintaining the user event listen key. Retrying after 5 seconds...";
                   PeatioSleep 5] s)).
  { intros s Hs. apply peatio_emit_agrees; [|exact Hs]. repeat constructor. }
  assert (Hping : forall s : peatio,
             key_and_task_agree s ->
             key_and_task_agree
               (let (s', r) :=
                  match pinged t with
                  | Raise e => (s, Raise e)
                  | Ok false => (drop_listen_key s, Ok tt)
                  | Ok true =>
                      (peatio_emit [PeatioDebug "Refreshed listen key."] s,
                       match second_wait t with
                       | Some e => Raise e
                       | None => Ok tt
                       end)
                  end in
                match r with
                | Ok _ => (s', None)
                | Raise e =>
                    if is_Exception e
                    then (peatio_emit
                            [PeatioError "Unexpected error while maintaining the user event listen key. Retrying after 5 seconds...";
                             PeatioSleep 5] s',
                          error_sleep t)
                    else (s', Some e)
                end).1).
  { intros s Hs.
    destruct (pinged t) as [[|]|e].
    - destruct (second_wait t) as [e|]; [destruct (is_Exception e)|]; simpl;
        [apply Herror| |]; apply Hdebug; exact Hs.
    - simpl. apply drop_listen_key_agrees. exact Hs.
    - destruct (is_Exception e); simpl; [apply Herror|]; exact Hs. }
  unfold keep_alive_turn, keep_alive_body.
  destruct (_current_listen_key self) as [key|].
  - exact (Hping self Hagree).
  - destruct (got_key t) as [key|e].
    + pose proof (take_listen_key_agrees key self Hagree) as Htaken.
      destruct (first_wait t) as [e|].
      * destruct (is_Exception e); simpl; [apply Herror|]; exact Htaken.
      * exact (Hping _ Htaken).
    + destruct (is_Exception e); simpl; [apply Herror|]; exact Hagree.
Qed.

(** X20. Through any turns of the loop that keeps the Peatio listen key
    alive - keys obtained or refused, pings answered, failed or raising,
    waits interrupted - the data source holds a listen key exactly when it
    holds a task logging the user stream, and that task is the only one it
    has started and not cancelled: there are never two at a time. *)
Theorem keep_alive_holds_one_stream_task (turns : list (@KeepAlive ListenKey)) :
  key_and_task_agree (keep_alive turns (init_peatio : peatio)).
Proof.
  assert (Hrun : forall (turns : list (@KeepAlive ListenKey)) (self : peatio),
             key_and_task_agree self ->
             key_and_task_agree (keep_alive turns self)).
  { clear turns. induction turns as [|t turns IH]; intros self Hagree; [exact Hagree|].
    cbn [keep_alive].
    pose proof (keep_alive_turn_agrees t self Hagree) as Hturn.
    destruct (keep_alive_turn t self) as [s [e|]]; simpl in Hturn;
      [exact Hturn|apply IH; exact Hturn]. }
  apply Hrun. split; [split; reflexivity|]. split; [reflexivity|discriminate].
Qed.

End PeatioFacts.

(** ** The further properties on sample inputs *)

Lemma sample_frame_carries : carries sample_frame "snapshot" (JStr "AAAA").
Proof. left. split; [reflexivity|]. split; reflexivity. Qed.

Lemma transform_loaded_keeps_two_components_witness :
  exists out,
    transform_loaded sample_a2b sample_decompress sample_bytes_decode
      (feed_loads (JDict perp_payload)) sample_frame = Ok out
    /\ py_getitem (results out) "M" = Ok (JStr "BTC-USD")
    /\ nonce out = JNum 7.
Proof.
  assert (Hq : no_char "-" "USD") by (repeat constructor; discriminate).
  assert (Hb : no_char "-" "BTC") by (repeat constructor; discriminate).
  exact (transform_loaded_keeps_two_components
           sample_a2b sample_decompress sample_bytes_decode
           (feed_loads (JDict perp_payload))
           sample_frame "snapshot" (JStr "AAAA") perp_payload "USD" "BTC" "PERP"
           (JNum 7) sample_frame_carries eq_refl eq_refl eq_refl Hq Hb).
Defined.

Lemma transform_loaded_rejects_odd_payloads_witness :
  transform_loaded sample_a2b sample_decompress sample_bytes_decode
    (feed_loads (JDict flat_payload)) sample_frame = Raise IndexError.
Proof.
  assert (Hs : no_char "-" "BTCUSD") by (repeat constructor; discriminate).
  destruct (transform_loaded_rejects_odd_payloads
              sample_a2b sample_decompress sample_bytes_decode
              (feed_loads (JDict flat_payload))
              sample_frame "snapshot" (JStr "AAAA") (JDict flat_payload)
              sample_frame_carries eq_refl) as [_ Hdict].
  destruct (Hdict flat_payload eq_refl) as (_ & _ & Hflat & _).
  exact (Hflat "BTCUSD"%string eq_refl Hs).
Defined.

Lemma transform_loaded_ignores_other_frames_witness :
  transform_loaded sample_a2b sample_decompress sample_bytes_decode sample_loads
    (JDict [("R"%string, JBool true); ("I"%string, JStr "1")])
  = Ok {| nonce := JNull; msg_type := JNull; results := JDict [] |}.
Proof.
  apply (transform_loaded_ignores_other_frames
           sample_a2b sample_decompress sample_bytes_decode sample_loads
           [("R"%string, JBool true); ("I"%string, JStr "1")]).
  - right. exists true. reflexivity.
  - left. reflexivity.
Defined.

Lemma transform_loaded_output_shape_witness :
  let out := {| nonce := JNum 7; msg_type := JStr "snapshot";
                results := JDict [("M"%string, JStr "BTC-USD"); ("N"%string, JNum 7)] |} in
  out = {| nonce := JNull; msg_type := JNull; results := JDict [] |}
  \/ exists kind d second first,
       (kind = "snapshot"%string \/ kind = "update"%string)
       /\ msg_type out = JStr kind
       /\ results out = JDict d
       /\ dict_lookup "M" d = Some (JStr (second +:+ "-" +:+ first))
       /\ dict_lookup "N" d = Some (nonce out).
Proof.
  exact (transform_loaded_output_shape
           sample_a2b sample_decompress sample_bytes_decode sample_loads
           sample_frame _ eq_refl).
Defined.

Lemma dispatched_snapshot_answers_request_witness :
  exists pair st',
    dispatch sample_a2b sample_decompress sample_bytes_decode sample_loads
      sample_snapshot_message sample_diff_message "frame" 50 sample_listener
    = (st', Ok tt)
    /\ py_getitem (JDict [("M"%string, JStr "BTC-USD"); ("N"%string, JNum 7)]) "M"
       = Ok (JStr pair)
    /\ snapshot_queue st' = [snapshot_10]
    /\ diff_queue st' = []
    /\ _snapshot_msg (source st') !! pair
       = Some {| slot_timestamp := 50; slot_content := snapshot_10 |}
    /\ forall arrivals invoke_timestamp,
         invoke_timestamp <= 50 ->
         (wait_for_snapshot arrivals pair invoke_timestamp (source st')).2
         = Ok snapshot_10
         /\ _snapshot_msg
              (wait_for_snapshot arrivals pair invoke_timestamp (source st')).1
            !! pair = None.
Proof.
  exact (dispatched_snapshot_answers_request
           sample_a2b sample_decompress sample_bytes_decode sample_loads
           sample_snapshot_message sample_diff_message "frame" 50 sample_listener
           {| nonce := JNum 7; msg_type := JStr "snapshot";
              results := JDict [("M"%string, JStr "BTC-USD"); ("N"%string, JNum 7)] |}
           snapshot_10 eq_refl eq_refl eq_refl).
Defined.

Lemma listener_escapes_at_its_first_connection_witness :
  let out := listen_session sample_a2b sample_decompress sample_bytes_decode
               sample_loads sample_snapshot_message sample_diff_message
               (Raise IOError) (Some IndexError) [timeout_tick] sample_listener in
  out.2 = Escaped IndexError
  /\ snapshot_queue out.1 = []
  /\ diff_queue out.1 = []
  /\ closed out.1 = []
  /\ _websocket_connection (source out.1) = Some 0%nat.
Proof.
  destruct (listener_escapes_at_its_first_connection
              sample_a2b sample_decompress sample_bytes_decode sample_loads
              sample_snapshot_message sample_diff_message
              (Raise IOError) IndexError [timeout_tick] sample_listener eq_refl)
    as (_ & Hstart & Hs & Hd & Hc & _ & Hconn & _).
  split; [apply Hstart; [reflexivity|right; exists IOError; split; reflexivity]|].
  split; [exact Hs|]. split; [exact Hd|]. split; [exact Hc|exact Hconn].
Defined.

Lemma snapshots_loop_spins_without_hub_witness :
  let out := snapshots_loop [failing_poll; failing_poll] (init_data_source None) in
  (exists more,
      trace out.1 = [] ++ more
      /\ Forall (fun ev => is_invoke ev = false /\ is_sleep ev = false) more)
  /\ next_handle out.1 = 2%nat.
Proof.
  assert (Hstart : Forall (fun t => poll_start t <> None) [failing_poll; failing_poll])
    by (repeat constructor; discriminate).
  destruct (snapshots_loop_spins_without_hub [failing_poll; failing_poll]
              (init_data_source None) eq_refl Hstart) as (Htrace & Hcount & _).
  split; [exact Htrace|]. apply Hcount. reflexivity.
Defined.

Lemma websocket_connection_never_subscribes_witness :
  exists more,
    trace (websocket_connection (Raise IOError) (Some IndexError)
             (init_data_source (Some ["BTC/USD"%string]))).1
    = [] ++ more
    /\ Forall (fun ev => is_invoke ev = false /\ is_sleep ev = false) more.
Proof.
  destruct (websocket_connection_never_subscribes (Raise IOError) (Some IndexError)
              (init_data_source (Some ["BTC/USD"%string])) eq_refl)
    as (more & Htrace & Hquiet & _).
  exists more. split; [exact Htrace|exact Hquiet].
Defined.

Lemma get_trading_pairs_caches_only_pairs_witness :
  get_trading_pairs (Raise IOError)
    (get_trading_pairs (Ok ["BTC/USD"%string]) (init_data_source None)).1
  = ((get_trading_pairs (Ok ["BTC/USD"%string]) (init_data_source None)).1,
     Ok ["BTC/USD"%string]).
Proof.
  destruct (get_trading_pairs_caches_only_pairs (init_data_source None) eq_refl)
    as [Hcached _].
  exact (Hcached "BTC/USD"%string [] (Raise IOError)).
Defined.

Lemma snapshots_turn_never_sleeps_with_pairs_witness :
  (snapshots_turn (Raise IOError) (Some IndexError) (Raise IOError) 3600
     (init_data_source (Some ["BTC-USD"%string]))).2 = None.
Proof.
  destruct (snapshots_turn_never_sleeps_with_pairs (Raise IOError) (Raise IOError)
              (Some IndexError) 3600
              (init_data_source (Some ["BTC-USD"%string])) eq_refl eq_refl)
    as [Hnone _].
  exact Hnone.
Defined.

Lemma fresh_slot_answers_one_request_witness :
  (wait_for_snapshot [] "BTC-USD" 4 stale_source).2 = Ok snapshot_10
  /\ forall invoke_timestamp',
       (wait_for_snapshot [] "BTC-USD" invoke_timestamp'
          (wait_for_snapshot [] "BTC-USD" 4 stale_source).1).2 = Raise TimeoutError.
Proof.
  assert (Hslot : _snapshot_msg stale_source !! "BTC-USD"%string = Some stale_slot)
    by (vm_compute; reflexivity).
  assert (Hfresh : 4 <= slot_timestamp stale_slot) by (simpl; lia).
  exact (fresh_slot_answers_one_request "BTC-USD" 4 stale_source stale_slot [] []
           Hslot Hfresh ltac:(constructor)).
Defined.

Lemma wait_for_snapshot_keeps_other_slots_witness :
  _snapshot_msg (wait_for_snapshot [] "ETH-USD" 4 stale_source).1 !! "BTC-USD"%string
  = _snapshot_msg stale_source !! "BTC-USD"%string.
Proof.
  apply (wait_for_snapshot_keeps_other_slots [] "ETH-USD" "BTC-USD" 4 stale_source).
  - discriminate.
  - constructor.
Defined.


Lemma strict_raises_only_exceptions :
  @raises_only_exceptions SpecOrderBook strict_order_book_ops.
Proof.
  intros book bs as_ t e. split.
  - simpl. unfold strict_apply_diffs.
    destruct bs, as_; simpl; intros H; try discriminate.
    injection H as <-. reflexivity.
  - simpl. discriminate.
Qed.

Lemma track_run_applies_every_message_witness :
  let st' := @track_run 1 SpecOrderBook strict_order_book_ops [0; 0; 0; 0]
               (start_tracking [diff_5; empty_diff_7] [diff_11] empty_book 0) in
  saved_messages st' = []
  /\ message_queue st' = []
  /\ order_book st'
     = foldl (@apply_message SpecOrderBook strict_order_book_ops) empty_book
         ([diff_5; empty_diff_7] ++ [diff_11])
  /\ past_diffs_window st'
     = drop (length (@accepted_diffs SpecOrderBook strict_order_book_ops empty_book
                       ([diff_5; empty_diff_7] ++ [diff_11])) - 1)
         (@accepted_diffs SpecOrderBook strict_order_book_ops empty_book
            ([diff_5; empty_diff_7] ++ [diff_11])).
Proof.
  apply (@track_run_applies_every_message 1 SpecOrderBook strict_order_book_ops
           [0; 0; 0; 0] [diff_5; empty_diff_7] [diff_11] empty_book 0
           strict_raises_only_exceptions).
  simpl. lia.
Defined.

Lemma refresh_tracks_exactly_the_available_witness :
  exists self',
    _refresh_tracking_tasks no_pairs sample_tracker = Ok self'
    /\ tracking_trading_pair self' = dom no_pairs
    /\ _refresh_tracking_tasks no_pairs self' = Ok self'.
Proof.
  destruct (_refresh_tracking_tasks no_pairs sample_tracker) as [self'|e] eqn:Hrefresh;
    [|vm_compute in Hrefresh; discriminate].
  exists self'. split; [reflexivity|].
  exact (refresh_tracks_exactly_the_available no_pairs sample_tracker self'
           sample_tracker_consistent Hrefresh).
Defined.

Lemma refresh_starts_new_instruments_witness :
  exists self' e id,
    _refresh_tracking_tasks eth_pairs sample_tracker = Ok self'
    /\ eth_pairs !! "ETH-USD"%string = Some e
    /\ entries self' "ETH-USD"
       = (Some {| task_id := id; done := false |},
          Some (entry_order_book e),
          Some (entry_active_order_tracker e),
          Some [])
    /\ (next_task sample_tracker <= id)%nat.
Proof.
  destruct (_refresh_tracking_tasks eth_pairs sample_tracker) as [self'|err] eqn:Hrefresh;
    [|vm_compute in Hrefresh; discriminate].
  assert (Hnew : "ETH-USD"%string ∈ new_trading_pair eth_pairs sample_tracker).
  { apply elem_of_elements. vm_compute. constructor. }
  destruct (refresh_starts_new_instruments eth_pairs sample_tracker self' "ETH-USD"
              sample_tracker_consistent Hrefresh Hnew) as (e & id & H).
  exists self', e, id. split; [reflexivity|exact H].
Defined.
